(** * Exam-Pilot: document gate, model invocation and export

    A shallow embedding of the validation and orchestration code of the
    repository, module by module as the imports name them:

    - [utils/documentValidation]: keyword heuristics
      (the text after the component in [src/components/ResultsDisplay.jsx]),
    - [utils/pdfTextExtractor]: bounded text extraction
      ([unnamed/part_002]),
    - [services/geminiService]: retry loop, response interpretation,
      model fallback ([unnamed/part_003], from the imports on),
    - [components/PDFDropzone]: upload gate
      ([src/components/PDFDropzone.jsx]),
    - [hooks/useMarkdownExport]: markdown export
      (the head of [unnamed/part_003]).

    JavaScript strings are sequences of UTF-16 code units.  Texts are
    modelled here as [string]s whose characters are the code units below
    256 (the Latin-1 range); every operation on them follows the
    ECMAScript definition restricted to that range.  Integers that the
    code uses as counts, indices and delays are [Z].  The one quotient
    the code computes (the keyword density) is a double: it is kept as
    the rational that the double denotes, each operation rounding its
    exact result to the nearest double, ties to even. *)

From Stdlib Require Import String Ascii List ZArith NArith QArith Qminmax.
From Stdlib Require Import Qround Qabs Qpower SpecFloat.
From Stdlib Require Import Lia Lqa Bool DecimalString Permutation Sorted.
Import ListNotations.

Set Warnings "-register-all".

Local Close Scope Q_scope.
Local Open Scope nat_scope.
Local Open Scope list_scope.
Local Open Scope string_scope.

(* ================================================================== *)
(** ** JavaScript string primitives *)
(* ================================================================== *)

Module JsString.

(** Membership of a code unit in an inclusive range. *)
Definition inRange (lo hi : N) (c : ascii) : bool :=
  ((lo <=? N_of_ascii c) && (N_of_ascii c <=? hi))%N.

(** [String.prototype.toLowerCase] on one Latin-1 code unit: [A-Z] and
    the accented capitals U+00C0..U+00DE (U+00D7, the multiplication
    sign, excepted) move up by 32; everything else is unchanged. *)
Definition lowerUnit (c : ascii) : ascii :=
  if inRange 65 90 c
     || (inRange 192 222 c && negb (N_of_ascii c =? 215)%N)
  then ascii_of_N (N_of_ascii c + 32)
  else c.

Fixpoint toLowerCase (s : string) : string :=
  match s with
  | EmptyString => EmptyString
  | String c s' => String (lowerUnit c) (toLowerCase s')
  end.

(** [Canonicalize] of a regular expression with the [i] flag and
    without the [u] flag: the code unit is replaced by its upper-case
    form when that is a single code unit, except that a non-ASCII unit
    never canonicalizes to an ASCII one.  In the Latin-1 range this
    moves [a-z] and U+00E0..U+00FE (U+00F7 excepted) down by 32.  The
    upper-case forms of U+00B5 and U+00FF lie outside the range and
    are the image of no other unit, so leaving these two fixed
    preserves every equality test between canonical forms. *)
Definition canonicalize (c : ascii) : ascii :=
  if inRange 97 122 c
     || (inRange 224 254 c && negb (N_of_ascii c =? 247)%N)
  then ascii_of_N (N_of_ascii c - 32)
  else c.

(** The class [\s] (WhiteSpace and LineTerminator), also the set that
    [trim] strips: TAB, LF, VT, FF, CR, SP and NBSP. *)
Definition isWhiteSpace (c : ascii) : bool :=
  inRange 9 13 c || (N_of_ascii c =? 32)%N || (N_of_ascii c =? 160)%N.

(** [s.includes(kw)]. *)
Fixpoint includes (kw s : string) : bool :=
  String.prefix kw s
  || match s with
     | EmptyString => false
     | String _ s' => includes kw s'
     end.

(** Does [s] start with [kw], comparing canonical forms? *)
Fixpoint prefixIgnoreCase (kw s : string) : bool :=
  match kw, s with
  | EmptyString, _ => true
  | String _ _, EmptyString => false
  | String k kw', String c s' =>
      Ascii.eqb (canonicalize k) (canonicalize c) && prefixIgnoreCase kw' s'
  end.

(** [s.match(new RegExp(kw, 'gi'))], for a pattern [kw] made of
    literal characters: the number of matches found by scanning from
    the left, each search resuming where the previous match ended (an
    empty match advances by one).  [skip] counts the units still
    covered by the previous match.  [null] is the count 0. *)
Fixpoint countMatchesFrom (kw : string) (skip : nat) (s : string) : nat :=
  match s with
  | EmptyString =>
      match kw with EmptyString => 1 | _ => 0 end
  | String _ s' =>
      match skip with
      | S k => countMatchesFrom kw k s'
      | O =>
          if prefixIgnoreCase kw s
          then S (countMatchesFrom kw (String.length kw - 1) s')
          else countMatchesFrom kw 0 s'
      end
  end.

Definition countMatches (kw s : string) : nat := countMatchesFrom kw 0 s.

(** [s.slice(b, e)] for integral [b] and [e]: a negative index counts
    from the end, and both are clamped to [0 .. s.length]. *)
Definition sliceIndex (len i : Z) : Z :=
  if (i <? 0)%Z then Z.max (len + i) 0 else Z.min i len.

Definition slice (s : string) (b e : Z) : string :=
  let len := Z.of_nat (String.length s) in
  let from := sliceIndex len b in
  let to := sliceIndex len e in
  substring (Z.to_nat from) (Z.to_nat (Z.max (to - from) 0)) s.

(** [s.split(/\s+/)]: the pieces between maximal runs of white space.
    A run at either end of [s] leaves an empty piece there, and the
    empty string splits into one empty piece.  [inRun] tells that the
    previous unit was white space. *)
Fixpoint splitFrom (inRun : bool) (s : string) : list string :=
  match s with
  | EmptyString => [EmptyString]
  | String c s' =>
      if isWhiteSpace c then
        if inRun then splitFrom true s'
        else EmptyString :: splitFrom true s'
      else
        match splitFrom false s' with
        | piece :: rest => String c piece :: rest
        | [] => [String c EmptyString]
        end
  end.

Definition splitWhiteSpace (s : string) : list string := splitFrom false s.

(** [Boolean(s)] for a string. *)
Definition truthy (s : string) : bool :=
  match s with EmptyString => false | _ => true end.

Fixpoint dropWhiteSpace (s : string) : string :=
  match s with
  | String c s' => if isWhiteSpace c then dropWhiteSpace s' else s
  | EmptyString => EmptyString
  end.

(** Remove the white space at the end of [s]. *)
Fixpoint trimEnd (s : string) : string :=
  match s with
  | EmptyString => EmptyString
  | String c s' =>
      match trimEnd s' with
      | EmptyString => if isWhiteSpace c then EmptyString
                       else String c EmptyString
      | t => String c t
      end
  end.

Definition trim (s : string) : string := trimEnd (dropWhiteSpace s).

Fixpoint drop (n : nat) (s : string) : string :=
  match n, s with
  | O, _ => s
  | S _, EmptyString => EmptyString
  | S n', String _ s' => drop n' s'
  end.

(** [s.endsWith(suffix)]. *)
Definition endsWith (suffix s : string) : bool :=
  String.eqb (drop (String.length s - String.length suffix) s) suffix.

(** [Array.prototype.join]. *)
Fixpoint join (sep : string) (l : list string) : string :=
  match l with
  | [] => EmptyString
  | [x] => x
  | x :: rest => x ++ sep ++ join sep rest
  end.

(** Decimal rendering of an integer, as a template literal does. *)
Definition ofZ (z : Z) : string := NilZero.string_of_int (Z.to_int z).

End JsString.

(* ================================================================== *)
(** ** JavaScript numbers *)
(* ================================================================== *)

Module JsNumber.

(** A finite Number is an IEEE 754 binary64 value.  It is kept as the
    rational it denotes; an arithmetic operation computes the exact
    result and rounds it to the nearest double, ties to even.  Results
    beyond the largest finite double (which become [Infinity]) are
    outside this model; a quotient of two counts never is. *)

(** [2^k], for any integer [k]. *)
Definition pow2 (k : Z) : Q := Qpower 2 k.

(** The exponent [e] with [2^e <= q < 2^(e+1)], for [q > 0]. *)
Definition binade (q : Q) : Z :=
  let e := (Z.log2 (Qnum q) - Z.log2 (Zpos (Qden q)))%Z in
  if Qle_bool (pow2 e) q then e else (e - 1)%Z.

(** The exponent of the unit in the last place of the doubles around
    [q]: 53 significant bits, and the fixed step [2^-1074] of the
    subnormal range. *)
Definition ulpExponent (q : Q) : Z := Z.max (binade (Qabs q) - 52) (-1074).

(** The integer nearest to [x]; of two equally near, the even one. *)
Definition nearestEven (x : Q) : Z :=
  let f := Qfloor x in
  match Qcompare (x - inject_Z f) (1 # 2) with
  | Lt => f
  | Gt => (f + 1)%Z
  | Eq => if Z.even f then f else (f + 1)%Z
  end.

(** The double nearest to [q]. *)
Definition round (q : Q) : Q :=
  if Qeq_bool q 0 then 0%Q
  else
    let u := ulpExponent q in
    Qred (inject_Z (nearestEven (q / pow2 u)) * pow2 u)%Q.

(** [x / y] for [y] other than 0, and [x * y]. *)
Definition div (x y : Q) : Q := round (x / y).
Definition mul (x y : Q) : Q := round (x * y).

(** [Math.min] of two finite numbers. *)
Definition min (x y : Q) : Q := Qmin x y.

(** A decimal literal of the source denotes the double nearest to it. *)
Definition literal (q : Q) : Q := round q.

(** An integer below [2^53] in magnitude, as every count and length
    is, denotes itself. *)
Definition ofZ (z : Z) : Q := inject_Z z.

End JsNumber.

(** The binary64 arithmetic of the Standard Library, against which the
    rounding of [JsNumber] is checked. *)
Module Binary64.

Definition toQ (x : spec_float) : option Q :=
  match x with
  | S754_zero _ => Some 0%Q
  | S754_finite s m e =>
      Some (Qred (inject_Z (if s then Zneg m else Zpos m) * JsNumber.pow2 e)%Q)
  | _ => None
  end.

Definition ofZ (z : Z) : spec_float := binary_normalize 53 1024 z 0 false.

(** [(occurrences / words) * 100] *)
Definition density (occurrences words : Z) : spec_float :=
  SFmul 53 1024 (SFdiv 53 1024 (ofZ occurrences) (ofZ words)) (ofZ 100).

Definition agrees (occurrences words : Z) : bool :=
  match toQ (density occurrences words) with
  | Some q =>
      Qeq_bool q (JsNumber.mul (JsNumber.div (JsNumber.ofZ occurrences)
                                             (JsNumber.ofZ words))
                               100)
  | None => false
  end.

Definition grid (n : nat) : list (Z * Z) :=
  flat_map (fun o => map (fun w => (Z.of_nat o, Z.of_nat (S w))) (seq 0 n))
           (seq 0 n).

(** Small counts, large counts, and small counts among many words. *)
Definition samples : list (Z * Z) :=
  (grid 30
   ++ map (fun p => (fst p * 7919 + 1, snd p * 104729 + 3)%Z) (grid 15)
   ++ map (fun p => (fst p, snd p + 123456789012)%Z) (grid 15))%list.

End Binary64.

(* ================================================================== *)
(** ** utils/documentValidation *)
(* ================================================================== *)

Module DocumentValidation.
Import JsString.

Definition ACADEMIC_KEYWORDS : list string :=
  [ "syllabus"; "university"; "semester"; "unit"; "marks"; "question";
    "exam"; "paper"; "course"; "module"; "credit"; "curriculum";
    "assessment"; "topic"; "chapter" ].

Record KeywordCount := { count : Z; found : list string }.

(** [[...new Set(found)]]: first occurrences, in order. *)
Fixpoint dedup (l : list string) : list string :=
  match l with
  | [] => []
  | x :: rest =>
      x :: filter (fun y => negb (String.eqb x y)) (dedup rest)
  end.

Definition countKeywordsInText (text : string) : KeywordCount :=
  if negb (truthy text) then {| count := 0; found := [] |}
  else
    let lower := toLowerCase text in
    let found := filter (fun kw => includes kw lower) ACADEMIC_KEYWORDS in
    {| count := Z.of_nat (List.length found); found := dedup found |}.

Definition hasMinimumAcademicKeywords
           (text : string) (firstNChars minKeywords : Z) : bool :=
  let slice := slice (if truthy text then text else "") 0 firstNChars in
  (minKeywords <=? count (countKeywordsInText slice))%Z.

(** The result object.  The early return for a falsy text has no
    [distinctKeywords] field.  [score] is the double
    [Math.min(100, (keywordOccurrences / wordCount) * 100)], kept as
    the rational it denotes. *)
Record Validation := {
  score : Q;
  passed : bool;
  keywordCount : Z;
  distinctKeywords : option Z
}.

Definition keywordOccurrences (text : string) : Z :=
  fold_left (fun acc keyword => (acc + Z.of_nat (countMatches keyword text))%Z)
            ACADEMIC_KEYWORDS 0%Z.

Definition wordCount (text : string) : Z :=
  Z.of_nat (List.length (filter truthy (splitWhiteSpace text))).

Definition validateDocumentContent (text : string) : Validation :=
  if negb (truthy text) then
    {| score := 0; passed := false; keywordCount := 0;
       distinctKeywords := None |}
  else
    let wordCount := wordCount text in
    let keywordOccurrences := keywordOccurrences text in
    let score :=
      if (0 <? wordCount)%Z
      then JsNumber.min 100
             (JsNumber.mul (JsNumber.div (JsNumber.ofZ keywordOccurrences)
                                         (JsNumber.ofZ wordCount))
                           100)
      else 0%Q in
    let distinctCount := count (countKeywordsInText text) in
    let passed := (2 <=? distinctCount)%Z
                  && Qle_bool (JsNumber.literal (3 # 10)) score in
    {| score := score; passed := passed;
       keywordCount := keywordOccurrences;
       distinctKeywords := Some distinctCount |}.

End DocumentValidation.

(* ================================================================== *)
(** ** utils/pdfTextExtractor *)
(* ================================================================== *)

Module PdfTextExtractor.
Import JsString.

(** A browser [File] as the code reads it.  [pdf] is what the PDF
    decoder makes of the content: [None] when [getDocument] rejects,
    otherwise the pages in order, a page being [None] when reading it
    rejects and otherwise the [str] of its text items.  [dataURL] is
    the result of [FileReader.readAsDataURL], [None] when the reader
    reports an error. *)
Record File := {
  name : string;
  type : string;
  pdf : option (list (option (list string)));
  dataURL : option string
}.

Definition length (s : string) : Z := Z.of_nat (String.length s).

(** The page loop: it runs while pages remain and the text is shorter
    than [maxChars]. *)
Fixpoint readPages (pages : list (option (list string)))
         (maxChars : Z) (text : string) : option string :=
  match pages with
  | [] => Some text
  | page :: rest =>
      if (length text <? maxChars)%Z then
        match page with
        | None => None
        | Some items =>
            let strings := filter truthy items in
            let text := text ++ join " " strings ++ String "010" "" in
            if (maxChars <=? length text)%Z then Some text
            else readPages rest maxChars text
        end
      else Some text
  end.

(** [None] stands for a rejected promise. *)
Definition extractTextFromPdf (file : File) (maxChars : Z) : option string :=
  match pdf file with
  | None => None
  | Some pages =>
      match readPages pages maxChars "" with
      | None => None
      | Some text => Some (slice text 0 maxChars)
      end
  end.

End PdfTextExtractor.

(* ================================================================== *)
(** ** services/geminiService *)
(* ================================================================== *)

Module GeminiService.
Import JsString.
Import DocumentValidation.
Import PdfTextExtractor.

(** *** Thrown values and the trace of effects *)

(** An [Error] object with the ad hoc fields the code attaches. *)
Record JsError := {
  errorName : string;
  message : string;
  code : option string;
  detectedType : option string;
  status : option Z
}.

(** [new Error(msg)]. *)
Definition newError (msg : string) : JsError :=
  {| errorName := "Error"; message := msg; code := None;
     detectedType := None; status := None |}.

(** What a [throw] or a rejected promise can carry here: an [Error],
    [undefined] (the retry loop's [lastError] when it never ran), or
    the [ProgressEvent] a failing [FileReader] rejects with. *)
Inductive Thrown :=
| ThrownError (e : JsError)
| ThrownUndefined
| ThrownEvent.

Inductive Completion (A : Type) :=
| Return (a : A)
| Throw (t : Thrown).
Arguments Return {A} a.
Arguments Throw {A} t.

Record InlineData := { data : option string; mimeType : string }.

(** The request: the prompt and the two attachments. *)
Record Content := {
  text : string;
  syllabusData : InlineData;
  pyqData : InlineData
}.

(** The observable effects of a run, in order.  Console output and
    the elapsed-time ticker read the wall clock and are left out. *)
Inductive Event :=
| Progress (label : string)
| Sleep (ms : Z)
| Generate (model : string) (content : Content).

(** A computation: the events it performs and how it completes. *)
Definition Eff (A : Type) : Type := list Event * Completion A.

Definition ret {A} (a : A) : Eff A := ([], Return a).
Definition throw {A} (t : Thrown) : Eff A := ([], Throw t).
Definition emit (e : Event) : Eff unit := ([e], Return tt).

Definition bind {A B} (m : Eff A) (k : A -> Eff B) : Eff B :=
  match m with
  | (tr, Return a) => let (tr', c) := k a in ((tr ++ tr')%list, c)
  | (tr, Throw t) => (tr, Throw t)
  end.

(** [try { m } catch (e) { handler e }]. *)
Definition tryCatch {A} (m : Eff A) (handler : Thrown -> Eff A) : Eff A :=
  match m with
  | (tr, Throw t) => let (tr', c) := handler t in ((tr ++ tr')%list, c)
  | done => done
  end.

Definition lift {A} (c : Completion A) : Eff A := ([], c).

Declare Scope eff_scope.
Delimit Scope eff_scope with eff.
Notation "x <- m ;; k" := (bind m (fun x => k))
  (at level 61, m at next level, right associativity) : eff_scope.
Notation "m ;; k" := (bind m (fun _ => k))
  (at level 61, right associativity) : eff_scope.
Local Open Scope eff_scope.

(** [error.message || error.toString()].  [Error.prototype.toString]
    of an error without message is its name; reading [message] of
    [undefined] is a [TypeError]. *)
Definition typeError (msg : string) : JsError :=
  {| errorName := "TypeError"; message := msg; code := None;
     detectedType := None; status := None |}.

Definition errorMessage (error : JsError) : string :=
  if truthy (message error) then message error else errorName error.

Definition messageOf (t : Thrown) : Eff string :=
  match t with
  | ThrownError e => ret (errorMessage e)
  | ThrownEvent => ret "[object ProgressEvent]"
  | ThrownUndefined =>
      throw (ThrownError
               (typeError "Cannot read properties of undefined (reading 'message')"))
  end.

(** [error && error.code === c]. *)
Definition hasCode (c : string) (t : Thrown) : bool :=
  match t with
  | ThrownError e =>
      match code e with Some c' => String.eqb c' c | None => false end
  | _ => false
  end.

(** *** The model handle *)

(** The text of a response; [response.text()] can itself throw. *)
Inductive Response :=
| ResponseText (t : string)
| ResponseBlocked (e : JsError).

(** How one call of [model.generateContent], raced against the two
    minute timer, settles.  The timer's rejection is
    [Rejected (newError "Request timeout")]. *)
Inductive Outcome :=
| Resolved (r : Response)
| Rejected (e : JsError).

(** A model handle: its identifier and, for each call (numbered from
    1), the way the call settles. *)
Record GenerativeModel := {
  modelName : string;
  generateContent : Content -> Z -> Outcome
}.

(** *** generateContentWithRetry *)

Definition isFatalMessage (errorMessage : string) : bool :=
  includes "timeout" errorMessage
  || includes "invalid" errorMessage
  || includes "quota" errorMessage
  || includes "401" errorMessage
  || includes "403" errorMessage.

Definition isRetryMessage (errorMessage : string) : bool :=
  includes "503" errorMessage
  || includes "500" errorMessage
  || includes "429" errorMessage
  || includes "high demand" errorMessage.

Definition backoffDelay (attempt : Z) : Z :=
  Z.min (1000 * 2 ^ (attempt - 2)) 10000.

Definition retryLabel (attempt maxRetries : Z) : string :=
  "Retrying... (Attempt " ++ ofZ attempt ++ "/" ++ ofZ maxRetries ++ ")".

(** The [for] loop.  [remaining] is the number of iterations left,
    [maxRetries - attempt + 1]; the loop test [attempt <= maxRetries]
    is [remaining <> 0].  [continue] and reaching the end of the body
    both lead to the update [attempt++]. *)
Fixpoint retryLoop (model : GenerativeModel) (content : Content)
         (maxRetries : Z) (remaining : nat) (attempt : Z)
         (lastError : Thrown) : Eff Response :=
  match remaining with
  | O => throw lastError
  | S remaining' =>
      (if (1 <? attempt)%Z
       then emit (Progress (retryLabel attempt maxRetries)) ;;
            emit (Sleep (backoffDelay attempt))
       else ret tt) ;;
      emit (Generate (modelName model) content) ;;
      match generateContent model content attempt with
      | Resolved response => ret response
      | Rejected error =>
          let lastError := ThrownError error in
          let errorMessage := errorMessage error in
          if isFatalMessage errorMessage then throw (ThrownError error)
          else if isRetryMessage errorMessage then
            if (attempt <? maxRetries)%Z
            then retryLoop model content maxRetries remaining'
                           (attempt + 1) lastError
            else retryLoop model content maxRetries remaining'
                           (attempt + 1) lastError
          else throw (ThrownError error)
      end
  end.

Definition generateContentWithRetry (model : GenerativeModel)
           (content : Content) (maxRetries : Z) : Eff Response :=
  retryLoop model content maxRetries (Z.to_nat maxRetries) 1 ThrownUndefined.

(** *** processResponse *)

(** A value produced by [JSON.parse].  A number is kept as the
    rational it denotes; an object lists its properties. *)
Inductive JsValue :=
| JNull
| JBool (b : bool)
| JNumber (q : Q)
| JString (s : string)
| JArray (items : list JsValue)
| JObject (fields : list (string * JsValue)).

Fixpoint getField (key : string) (fields : list (string * JsValue))
  : option JsValue :=
  match fields with
  | [] => None
  | (k, v) :: rest => if String.eqb k key then Some v else getField key rest
  end.

Definition truthyValue (v : JsValue) : bool :=
  match v with
  | JNull => false
  | JBool b => b
  | JNumber q => negb (Qeq_bool q 0)
  | JString s => truthy s
  | JArray _ | JObject _ => true
  end.

(** The match of [/```(?:json)?\s*([\s\S]*?)\s*```/]: its group 1. *)
Fixpoint lazyUntilFence (s : string) : option string :=
  if String.prefix "```" (dropWhiteSpace s) then Some ""
  else match s with
       | EmptyString => None
       | String c s' =>
           match lazyUntilFence s' with
           | Some inner => Some (String c inner)
           | None => None
           end
       end.

Definition fenceAt (s : string) : option string :=
  if String.prefix "```" s then
    let r := drop 3 s in
    let r := if String.prefix "json" r then drop 4 r else r in
    lazyUntilFence (dropWhiteSpace r)
  else None.

Fixpoint fencedBlock (s : string) : option string :=
  match fenceAt s with
  | Some inner => Some inner
  | None =>
      match s with
      | EmptyString => None
      | String _ s' => fencedBlock s'
      end
  end.

(** The match of [/\{[\s\S]*\}/]: from the first opening brace to the
    last closing brace after it. *)
Fixpoint upToLastBrace (s : string) : option string :=
  match s with
  | EmptyString => None
  | String c s' =>
      match upToLastBrace s' with
      | Some t => Some (String c t)
      | None => if Ascii.eqb c "}" then Some (String c "") else None
      end
  end.

Fixpoint braceBlock (s : string) : option string :=
  match s with
  | EmptyString => None
  | String c s' =>
      if Ascii.eqb c "{" then
        match upToLastBrace s' with
        | Some t => Some (String c t)
        | None => None
        end
      else braceBlock s'
  end.

(** The match of [/detected:\s*([^)]+)/]: its group 1.  When the white
    space after the colon is followed by [)] or by the end of the
    text, the group backs up onto the last unit of that white space. *)
Fixpoint untilParen (s : string) : string :=
  match s with
  | EmptyString => EmptyString
  | String c s' => if Ascii.eqb c ")" then EmptyString else String c (untilParen s')
  end.

Fixpoint lastOfRun (s : string) : option ascii :=
  match s with
  | EmptyString => None
  | String c s' =>
      if isWhiteSpace c then
        match lastOfRun s' with
        | Some d => Some d
        | None => Some c
        end
      else None
  end.

Definition labelAt (rest : string) : option string :=
  match untilParen (dropWhiteSpace rest) with
  | EmptyString =>
      match lastOfRun rest with
      | Some c => Some (String c "")
      | None => None
      end
  | label => Some label
  end.

Fixpoint detectedMatch (s : string) : option string :=
  let later := match s with
               | EmptyString => None
               | String _ s' => detectedMatch s'
               end in
  if String.prefix "detected:" s then
    match labelAt (drop 9 s) with
    | Some label => Some label
    | None => later
    end
  else later.

(** [reason.match(/detected:\s*([^)]+)/)?.[1]?.trim() || 'non-academic document'] *)
Definition detectedLabel (reason : string) : string :=
  match detectedMatch reason with
  | Some label => if truthy (trim label) then trim label
                  else "non-academic document"
  | None => "non-academic document"
  end.

Definition invalidDocument (msg label : string) : JsError :=
  {| errorName := "Error"; message := msg;
     code := Some "INVALID_DOCUMENT";
     detectedType := Some label; status := None |}.

Definition unrelatedMessage : string :=
  "The file appears to be unrelated to academic coursework.".

(** [analysis && analysis.error === 'INVALID_DOCUMENT'] *)
Definition isRejection (analysis : JsValue) : bool :=
  match analysis with
  | JObject fields =>
      match getField "error" fields with
      | Some (JString e) => String.eqb e "INVALID_DOCUMENT"
      | _ => false
      end
  | _ => false
  end.

(** The statements under the sentinel test.  [analysis.reason || d]
    is the reason when it is truthy; calling [match] on a truthy
    reason that is not a string is a [TypeError]. *)
Definition rejectionOf (analysis : JsValue) : JsError :=
  let reason := match analysis with
                | JObject fields => getField "reason" fields
                | _ => None
                end in
  match reason with
  | Some (JString r) =>
      if truthy r then invalidDocument r (detectedLabel r)
      else invalidDocument unrelatedMessage (detectedLabel "")
  | Some v =>
      if truthyValue v
      then typeError "(analysis.reason || '').match is not a function"
      else invalidDocument unrelatedMessage (detectedLabel "")
  | None => invalidDocument unrelatedMessage (detectedLabel "")
  end.

Definition parseFailure : JsError :=
  newError "Failed to parse JSON response. The AI response may not be in the correct format.".

Section Interpreter.

(** [JSON.parse]: the value, or the message of the [SyntaxError]. *)
Variable JSON_parse : string -> JsValue + string.

Definition syntaxError (msg : string) : JsError :=
  {| errorName := "SyntaxError"; message := msg; code := None;
     detectedType := None; status := None |}.

(** [JSON.parse(t)] followed by the sentinel test: the body of
    either [try]. *)
Definition parseAndCheck (t : string) : Completion JsValue :=
  match JSON_parse t with
  | inr msg => Throw (ThrownError (syntaxError msg))
  | inl analysis =>
      if isRejection analysis
      then Throw (ThrownError (rejectionOf analysis))
      else Return analysis
  end.

Definition processResponse (response : Response) : Completion JsValue :=
  match response with
  | ResponseBlocked e => Throw (ThrownError e)
  | ResponseText text =>
      let jsonText := match fencedBlock text with
                      | Some inner => inner
                      | None => text
                      end in
      match parseAndCheck (trim jsonText) with
      | Return analysis => Return analysis
      | Throw parseError =>
          if hasCode "INVALID_DOCUMENT" parseError then Throw parseError
          else
            match braceBlock jsonText with
            | Some jsonObject =>
                match parseAndCheck jsonObject with
                | Return analysis => Return analysis
                | Throw e =>
                    if hasCode "INVALID_DOCUMENT" e then Throw e
                    else Throw (ThrownError parseFailure)
                end
            | None => Throw parseError
            end
      end
  end.

End Interpreter.

(** *** analyzeExamStrategy *)

Record ModelConfig := { configName : string; label : string }.

Definition modelsToTry : list ModelConfig :=
  [ {| configName := "gemini-3-flash-preview"; label := "Gemini 3 Flash" |};
    {| configName := "gemini-1.5-flash"; label := "Gemini 1.5 Flash" |};
    {| configName := "gemini-1.5-pro"; label := "Gemini 1.5 Pro" |} ].

(** [dataURL.split(',')[1]] *)
Fixpoint untilComma (s : string) : string :=
  match s with
  | EmptyString => EmptyString
  | String c s' => if Ascii.eqb c "," then EmptyString else String c (untilComma s')
  end.

Fixpoint secondPiece (s : string) : option string :=
  match s with
  | EmptyString => None
  | String c s' => if Ascii.eqb c "," then Some (untilComma s') else secondPiece s'
  end.

Definition fileToBase64 (file : File) : Eff InlineData :=
  match dataURL file with
  | None => throw ThrownEvent
  | Some url => ret {| data := secondPiece url; mimeType := type file |}
  end.

(** [extractTextFromPdf(file, 4000).catch(() => '')] *)
Definition extractOrEmpty (file : File) : string :=
  match extractTextFromPdf file 4000 with
  | Some text => text
  | None => ""
  end.

Definition combinedText (syllabusFile pyqFile : File) : string :=
  slice (extractOrEmpty syllabusFile ++ String "010" "" ++ extractOrEmpty pyqFile)
        0 8000.

Definition gateError : JsError :=
  {| errorName := "Error";
     message := "Uploaded file does not appear to be a valid Syllabus or Question Paper.";
     code := Some "INVALID_DOCUMENT";
     detectedType := None;
     status := Some 400%Z |}.

(** The test both [catch] blocks of the model loop apply. *)
Definition isHighDemandMessage (errorMessage : string) : bool :=
  includes "503" errorMessage
  || includes "high demand" errorMessage
  || includes "currently experiencing" errorMessage.

Definition unavailableLabel (modelConfig : ModelConfig) : string :=
  label modelConfig ++ " is unavailable. Trying fallback model...".

Definition allUnavailable : JsError :=
  newError "All models are currently unavailable. Please try again later.".

(** The last [catch]: an [INVALID_DOCUMENT] error passes unchanged,
    any other is replaced by one of the user-facing messages. *)
Definition normalizeError (error : Thrown) : Eff JsValue :=
  if hasCode "INVALID_DOCUMENT" error then throw error
  else
    errorMessage <- messageOf error ;;
    if includes "timeout" errorMessage then
      throw (ThrownError (newError
        "Request timeout: Analysis is taking longer than expected. Please try again with smaller PDFs."))
    else if includes "quota" errorMessage || includes "429" errorMessage then
      throw (ThrownError (newError "API quota exceeded. Please try again later."))
    else if includes "invalid" errorMessage || includes "401" errorMessage
            || includes "403" errorMessage then
      throw (ThrownError (newError
        "Invalid API key or request. Please check your configuration."))
    else if isHighDemandMessage errorMessage then
      throw (ThrownError (newError
        "The AI model is currently experiencing high demand. Please wait a moment and try again. The app will automatically retry with fallback models."))
    else if includes "all models" errorMessage then
      throw (ThrownError (newError
        "All AI models are currently unavailable due to high demand. Please try again in a few minutes."))
    else
      throw (ThrownError (newError ("Failed to analyze documents: " ++ errorMessage))).

(** How one iteration of the model loop ends when it does not throw. *)
Inductive Step :=
| ReturnAnalysis (analysis : JsValue)
| Continue (lastError : Thrown).

(** [lastError || e] *)
Definition orError (lastError : Thrown) (e : JsError) : Thrown :=
  match lastError with
  | ThrownUndefined => ThrownError e
  | t => t
  end.

Section Orchestrator.

Variable JSON_parse : string -> JsValue + string.
(** The prompt text. *)
Variable prompt : string.
(** [import.meta.env.VITE_GEMINI_API_KEY], [None] when undefined. *)
Variable API_KEY : option string.
(** The service behind [genAI.getGenerativeModel(...)]: how the
    numbered call on the named model settles. *)
Variable backend : string -> Content -> Z -> Outcome.

Definition getGenerativeModel (modelConfig : ModelConfig) : GenerativeModel :=
  {| modelName := configName modelConfig;
     generateContent := backend (configName modelConfig) |}.

Definition getGenAI : Eff unit :=
  match API_KEY with
  | Some key =>
      if truthy key && negb (String.eqb (trim key) "") then ret tt
      else throw (ThrownError (newError
             "VITE_GEMINI_API_KEY is not set. Add your API key to the .env file."))
  | None => throw (ThrownError (newError
             "VITE_GEMINI_API_KEY is not set. Add your API key to the .env file."))
  end.

(** The body of the [for ... of modelsToTry] loop. *)
Definition tryModel (content : Content) (modelConfig : ModelConfig) : Eff Step :=
  tryCatch
    (emit (Progress ("Step 2: Analyzing documents with "
                       ++ label modelConfig ++ "...")) ;;
     let model := getGenerativeModel modelConfig in
     emit (Progress "Step 3: Generating Priority Matrix...") ;;
     tryCatch
       (response <- generateContentWithRetry model content 3 ;;
        analysis <- lift (processResponse JSON_parse response) ;;
        ret (ReturnAnalysis analysis))
       (fun apiError =>
          errorMessage <- messageOf apiError ;;
          if isHighDemandMessage errorMessage then
            emit (Progress (unavailableLabel modelConfig)) ;;
            emit (Sleep 2000) ;;
            ret (Continue apiError)
          else throw apiError))
    (fun modelError =>
       errorMessage <- messageOf modelError ;;
       if isHighDemandMessage errorMessage then
         emit (Progress (unavailableLabel modelConfig)) ;;
         emit (Sleep 2000) ;;
         ret (Continue modelError)
       else throw modelError).

Fixpoint tryModels (content : Content) (models : list ModelConfig)
         (lastError : Thrown) : Eff JsValue :=
  match models with
  | [] => throw (orError lastError allUnavailable)
  | modelConfig :: rest =>
      step <- tryModel content modelConfig ;;
      match step with
      | ReturnAnalysis analysis => ret analysis
      | Continue lastError => tryModels content rest lastError
      end
  end.

Definition analyzeExamStrategy (syllabusFile pyqFile : File) : Eff JsValue :=
  tryCatch
    (emit (Progress "Step 1: Extracting PDFs...") ;;
     let combinedText := combinedText syllabusFile pyqFile in
     let validation := validateDocumentContent combinedText in
     if negb (passed validation) then throw (ThrownError gateError)
     else
       syllabusData <- fileToBase64 syllabusFile ;;
       pyqData <- fileToBase64 pyqFile ;;
       let content := {| text := prompt;
                         syllabusData := syllabusData;
                         pyqData := pyqData |} in
       getGenAI ;;
       tryModels content modelsToTry ThrownUndefined)
    normalizeError.

End Orchestrator.

End GeminiService.

(* ================================================================== *)
(** ** components/PDFDropzone *)
(* ================================================================== *)

Module PDFDropzone.
Import JsString.
Import DocumentValidation.
Import PdfTextExtractor.

(** The state one dropzone works on: its own hooks and the slot of
    the parent, which [onFileSelect] sets.  A handler runs to its end
    before the next one starts. *)
Record State := {
  file : option File;
  isDragging : bool;
  isChecking : bool;
  showAcademicWarning : bool;
  pendingFile : option File
}.

Definition onFileSelect (f : option File) (st : State) : State :=
  {| file := f; isDragging := isDragging st; isChecking := isChecking st;
     showAcademicWarning := showAcademicWarning st;
     pendingFile := pendingFile st |}.

Definition setIsDragging (b : bool) (st : State) : State :=
  {| file := file st; isDragging := b; isChecking := isChecking st;
     showAcademicWarning := showAcademicWarning st;
     pendingFile := pendingFile st |}.

Definition setIsChecking (b : bool) (st : State) : State :=
  {| file := file st; isDragging := isDragging st; isChecking := b;
     showAcademicWarning := showAcademicWarning st;
     pendingFile := pendingFile st |}.

Definition setShowAcademicWarning (b : bool) (st : State) : State :=
  {| file := file st; isDragging := isDragging st; isChecking := isChecking st;
     showAcademicWarning := b; pendingFile := pendingFile st |}.

Definition setPendingFile (f : option File) (st : State) : State :=
  {| file := file st; isDragging := isDragging st; isChecking := isChecking st;
     showAcademicWarning := showAcademicWarning st; pendingFile := f |}.

Definition validateAndSetFile (selectedFile : option File) (st : State) : State :=
  match selectedFile with
  | None => st
  | Some selected =>
      let name := toLowerCase (name selected) in
      if negb (endsWith ".pdf" name) then onFileSelect None st
      else
        let st := setIsChecking true st in
        let st := setShowAcademicWarning false st in
        let st := setPendingFile None st in
        let st :=
          match extractTextFromPdf selected 1500 with
          | Some text =>
              let looksAcademic := hasMinimumAcademicKeywords text 1000 2 in
              if looksAcademic then onFileSelect (Some selected) st
              else setShowAcademicWarning true
                     (setPendingFile (Some selected) st)
          | None => onFileSelect (Some selected) st
          end in
        setIsChecking false st
  end.

Definition handleConfirmAnyway (st : State) : State :=
  match pendingFile st with
  | Some pending =>
      setShowAcademicWarning false
        (setPendingFile None (onFileSelect (Some pending) st))
  | None => st
  end.

Definition handleCancelWarning (st : State) : State :=
  onFileSelect None (setShowAcademicWarning false (setPendingFile None st)).

Definition handleRemove (st : State) : State :=
  onFileSelect None (setShowAcademicWarning false (setPendingFile None st)).

(** [handleDrop] and [handleFileInput] on the first file of the list. *)
Definition handleDrop (dropped : option File) (st : State) : State :=
  let st := setIsDragging false st in
  match dropped with
  | Some f =>
      if String.eqb (type f) "application/pdf"
      then validateAndSetFile (Some f) st
      else st
  | None => st
  end.

Definition handleFileInput (selected : option File) (st : State) : State :=
  match selected with
  | Some f =>
      if String.eqb (type f) "application/pdf"
      then validateAndSetFile (Some f) st
      else st
  | None => st
  end.

(** The branch of the render that is shown. *)
Inductive View :=
| Warning (pending : File)
| Checking
| Ready (accepted : File)
| Empty.

Definition render (st : State) : View :=
  match showAcademicWarning st, pendingFile st with
  | true, Some pending => Warning pending
  | _, _ =>
      if isChecking st then Checking
      else match file st with
           | Some f => Ready f
           | None => Empty
           end
  end.

Definition initial : State :=
  {| file := None; isDragging := false; isChecking := false;
     showAcademicWarning := false; pendingFile := None |}.

End PDFDropzone.

(* ================================================================== *)
(** ** hooks/useMarkdownExport *)
(* ================================================================== *)

Module MarkdownExport.
Import JsString.

(** The shape of the analysis the export reads.  [priority] and
    [keyConcepts] may be missing.  The strings of this module are
    written to the file as they are. *)
Record Topic := {
  name : string;
  confidence : Z;
  effort : string;
  reward : string;
  frequency : Z;
  priority : option string;
  keyConcepts : option (list string)
}.

Record Summary := {
  totalTopics : Z;
  highPriorityCount : Z;
  lowEffortHighReward : Z
}.

Record Analysis := {
  topics : option (list Topic);
  summary : option Summary
}.


(** [[...topics].sort((a, b) => b.confidence - a.confidence)]: the
    stable sort that [Array.prototype.sort] is, by insertion. *)
Fixpoint insert (a : Topic) (sorted : list Topic) : list Topic :=
  match sorted with
  | [] => [a]
  | b :: rest =>
      if (confidence b - confidence a <=? 0)%Z then a :: b :: rest
      else b :: insert a rest
  end.

Fixpoint sort (topics : list Topic) : list Topic :=
  match topics with
  | [] => []
  | a :: rest => insert a (sort rest)
  end.








End MarkdownExport.

(* ================================================================== *)
(** ** A reference [JSON.parse] for the examples *)
(* ================================================================== *)

(** [JSON.parse] is a built-in; the interpreter above takes it as a
    parameter.  The examples instantiate it with this parser, which
    reads the JSON grammar without [\u] escapes and without exponents. *)
Module JsonReference.
Import JsString.
Import GeminiService.

Definition isJsonSpace (c : ascii) : bool :=
  Ascii.eqb c " " || Ascii.eqb c "009" || Ascii.eqb c "010" || Ascii.eqb c "013".

Fixpoint skipSpace (s : string) : string :=
  match s with
  | String c s' => if isJsonSpace c then skipSpace s' else s
  | EmptyString => EmptyString
  end.

Definition isDigit (c : ascii) : bool := inRange 48 57 c.

Definition digitValue (c : ascii) : Z := Z.of_N (N_of_ascii c) - 48.

(** The digits at the head of [s]: their value, their number, the rest. *)
Fixpoint digits (acc : Z) (n : nat) (s : string) : Z * nat * string :=
  match s with
  | String c s' =>
      if isDigit c then digits (10 * acc + digitValue c) (S n) s'
      else (acc, n, s)
  | EmptyString => (acc, n, s)
  end.

Definition number (s : string) : option (Q * string) :=
  let (negative, s) :=
    match s with
    | String "-" s' => (true, s')
    | _ => (false, s)
    end in
  match digits 0 0 s with
  | (_, O, _) => None
  | (whole, S _, rest) =>
      let sign := if negative then (-1)%Z else 1%Z in
      match rest with
      | String "." rest' =>
          match digits 0 0 rest' with
          | (_, O, _) => None
          | (frac, S k, rest'') =>
              Some (Qmake (sign * (whole * 10 ^ Z.of_nat (S k) + frac))
                          (Pos.pow 10 (Pos.of_nat (S k))),
                    rest'')
          end
      | _ => Some (inject_Z (sign * whole), rest)
      end
  end.

(** The characters of a string literal after its opening quote. *)
Fixpoint stringBody (s : string) : option (string * string) :=
  match s with
  | EmptyString => None
  | String c s' =>
      if Ascii.eqb c "034" then Some (EmptyString, s')
      else if Ascii.eqb c "\" then
        match s' with
        | String e s'' =>
            let unescaped :=
              if Ascii.eqb e "n" then Some "010"%char
              else if Ascii.eqb e "t" then Some "009"%char
              else if Ascii.eqb e "r" then Some "013"%char
              else if Ascii.eqb e "b" then Some "008"%char
              else if Ascii.eqb e "f" then Some "012"%char
              else if Ascii.eqb e "034" || Ascii.eqb e "\" || Ascii.eqb e "/"
                   then Some e
              else None in
            match unescaped, stringBody s'' with
            | Some u, Some (body, rest) => Some (String u body, rest)
            | _, _ => None
            end
        | EmptyString => None
        end
      else if (N_of_ascii c <? 32)%N then None
      else match stringBody s' with
           | Some (body, rest) => Some (String c body, rest)
           | None => None
           end
  end.

(** [obj[key] = v]: a repeated key keeps its place and takes the
    later value. *)
Fixpoint setField (key : string) (v : JsValue)
         (fields : list (string * JsValue)) : list (string * JsValue) :=
  match fields with
  | [] => [(key, v)]
  | (k, w) :: rest =>
      if String.eqb k key then (k, v) :: rest
      else (k, w) :: setField key v rest
  end.

Fixpoint value (fuel : nat) (s : string) : option (JsValue * string) :=
  match fuel with
  | O => None
  | S fuel' =>
      match skipSpace s with
      | String "{" rest =>
          match skipSpace rest with
          | String "}" rest' => Some (JObject [], rest')
          | _ => members fuel' rest []
          end
      | String "[" rest =>
          match skipSpace rest with
          | String "]" rest' => Some (JArray [], rest')
          | _ => elements fuel' rest []
          end
      | String "034" rest =>
          match stringBody rest with
          | Some (body, rest') => Some (JString body, rest')
          | None => None
          end
      | t =>
          if String.prefix "true" t then Some (JBool true, drop 4 t)
          else if String.prefix "false" t then Some (JBool false, drop 5 t)
          else if String.prefix "null" t then Some (JNull, drop 4 t)
          else match number t with
               | Some (q, rest) => Some (JNumber q, rest)
               | None => None
               end
      end
  end

with members (fuel : nat) (s : string) (acc : list (string * JsValue))
     : option (JsValue * string) :=
  match fuel with
  | O => None
  | S fuel' =>
      match skipSpace s with
      | String "034" rest =>
          match stringBody rest with
          | Some (key, rest') =>
              match skipSpace rest' with
              | String ":" rest'' =>
                  match value fuel' rest'' with
                  | Some (v, after) =>
                      let acc := setField key v acc in
                      match skipSpace after with
                      | String "," more => members fuel' more acc
                      | String "}" more => Some (JObject acc, more)
                      | _ => None
                      end
                  | None => None
                  end
              | _ => None
              end
          | None => None
          end
      | _ => None
      end
  end

with elements (fuel : nat) (s : string) (acc : list JsValue)
     : option (JsValue * string) :=
  match fuel with
  | O => None
  | S fuel' =>
      match value fuel' s with
      | Some (v, after) =>
          let acc := (acc ++ [v])%list in
          match skipSpace after with
          | String "," more => elements fuel' more acc
          | String "]" more => Some (JArray acc, more)
          | _ => None
          end
      | None => None
      end
  end.

(** The examples write a JSON text with apostrophes where the quotation
    marks are. *)
Fixpoint quoted (s : string) : string :=
  match s with
  | EmptyString => EmptyString
  | String c s' => String (if Ascii.eqb c "'" then "034"%char else c) (quoted s')
  end.

Definition parse (s : string) : JsValue + string :=
  match value (2 * String.length s + 2) s with
  | Some (v, rest) =>
      match skipSpace rest with
      | EmptyString => inl v
      | _ => inr "Unexpected non-whitespace character after JSON"
      end
  | None => inr "Unexpected token in JSON"
  end.

End JsonReference.


(* ================================================================== *)
(** ** The vocabulary of the specification *)
(* ================================================================== *)

Module Spec.
Import JsString.
Import DocumentValidation.

(** The keyword [kw] occurs in [s] as a substring, letter case
    ignored. *)
Definition occursIgnoringCase (kw s : string) : Prop :=
  exists pre w post, s = pre ++ w ++ post /\ toLowerCase w = kw.

(** [l] lists, each once, the vocabulary keywords that occur in [s]. *)
Definition distinctKeywordsOf (s : string) (l : list string) : Prop :=
  NoDup l /\
  forall kw, In kw l <-> In kw ACADEMIC_KEYWORDS /\ occursIgnoringCase kw s.

(** The first [n] characters of [s]. *)
Definition firstChars (n : nat) (s : string) : string := substring 0 n s.








(** A letter of a keyword, which is one of a..z, is matched by itself
    and by its capital. *)
Definition isLowerLetter (k : ascii) : bool := inRange 97 122 k.

Definition sameLetter (k c : ascii) : bool :=
  Ascii.eqb c k
  || (isLowerLetter k && (N_of_ascii c + 32 =? N_of_ascii k)%N).


(** The piece [w] is the keyword, letter case ignored. *)
Fixpoint sameWord (kw w : string) : bool :=
  match kw, w with
  | EmptyString, EmptyString => true
  | String k kw', String c w' => sameLetter k c && sameWord kw' w'
  | _, _ => false
  end.

(** The keyword stands at position [p] of [s], letter case ignored. *)
Definition matchesAt (kw s : string) (p : nat) : bool :=
  sameWord kw (substring p (String.length kw) s).

(** The positions of [s] at which the keyword stands, in order. *)
Definition matchPositions (kw s : string) : list nat :=
  filter (matchesAt kw s) (seq 0 (String.length s)).

(** The number of matches a search from the left finds among the
    positions: a match that starts inside the previous one does not
    count.  [next] is the first position that may count. *)
Fixpoint disjointFrom (width next : nat) (positions : list nat) : nat :=
  match positions with
  | [] => 0
  | p :: rest =>
      if Nat.leb next p then S (disjointFrom width (p + width) rest)
      else disjointFrom width next rest
  end.

(** All occurrences, repeats included, of the keyword in [s]. *)
Definition occurrences (kw s : string) : nat :=
  disjointFrom (String.length kw) 0 (matchPositions kw s).


(** No keyword of [kws] starts at one of the first [n] positions of
    the lower-case text [lower]. *)
Fixpoint keywordFree (kws : list string) (n : nat) (lower : string) : bool :=
  match n with
  | O => true
  | S n' =>
      forallb (fun kw => negb (String.prefix kw lower)) kws
      && match lower with
         | EmptyString => true
         | String _ rest => keywordFree kws n' rest
         end
  end.

(** [n] full stops, a filler without letters. *)
Fixpoint filler (n : nat) : string :=
  match n with
  | O => EmptyString
  | S n' => String "." (filler n')
  end.

(** The keywords the code's filter keeps for [s]. *)
Definition foundIn (s : string) : list string :=
  filter (fun kw => includes kw (toLowerCase s)) ACADEMIC_KEYWORDS.

(** *** Model invocation *)

Import GeminiService.

(** [s] contains [sub]. *)
Definition contains (sub s : string) : Prop :=
  exists pre post, s = pre ++ sub ++ post.

Definition fatalSubstrings : list string :=
  ["timeout"; "invalid"; "quota"; "401"; "403"].

Definition transientSubstrings : list string :=
  ["503"; "500"; "429"; "high demand"].

Definition containsAny (subs : list string) (s : string) : Prop :=
  exists sub, In sub subs /\ contains sub s.

(** The classification of an error by its message: fatal when a fatal
    substring occurs; transient when a transient substring occurs and
    no fatal one does. *)
Definition fatal (e : JsError) : Prop :=
  containsAny fatalSubstrings (message e).

Definition transient (e : JsError) : Prop :=
  containsAny transientSubstrings (message e) /\ ~ fatal e.

(** What one attempt does before its outcome is known: from the
    second attempt on, the progress report and then the wait of
    min(1000 * 2^(attempt-2), 10000) milliseconds; then the call. *)
Definition attemptEvents (model : GenerativeModel) (content : Content)
           (maxAttempts attempt : Z) : list Event :=
  ((if (2 <=? attempt)%Z
    then [Progress ("Retrying... (Attempt " ++ ofZ attempt ++ "/"
                      ++ ofZ maxAttempts ++ ")");
          Sleep (Z.min (1000 * 2 ^ (attempt - 2)) 10000)]
    else [])
   ++ [Generate (modelName model) content])%list.

(** The events of the attempts [first], [first + 1], ... ([n] of them). *)
Fixpoint attemptsFrom (model : GenerativeModel) (content : Content)
         (maxAttempts first : Z) (n : nat) : list Event :=
  match n with
  | O => []
  | S n' => (attemptEvents model content maxAttempts first
             ++ attemptsFrom model content maxAttempts (first + 1) n')%list
  end.

(** The attempt number [first + i] (counting [i] from 0) is rejected
    with the [i]-th error of the list. *)
Definition failsWith (model : GenerativeModel) (content : Content)
           (first : Z) (failures : list JsError) : Prop :=
  forall i e, nth_error failures i = Some e ->
              generateContent model content (first + Z.of_nat i) = Rejected e.

(** The number of calls of the model in a trace, and its waits. *)
Definition isGenerate (e : Event) : bool :=
  match e with Generate _ _ => true | _ => false end.

Definition attempts (trace : list Event) : nat :=
  List.length (filter isGenerate trace).

Fixpoint sleeps (trace : list Event) : list Z :=
  match trace with
  | [] => []
  | Sleep ms :: rest => ms :: sleeps rest
  | _ :: rest => sleeps rest
  end.

(** *** Export *)

(** [a] may stand before [b] in a list sorted by confidence descending. *)
Definition byConfidence (a b : MarkdownExport.Topic) : Prop :=
  (MarkdownExport.confidence b <= MarkdownExport.confidence a)%Z.

(** *** Response interpretation *)

(** The reason of a rejection is text, or is missing or falsy (and then
    counts as the empty text). *)
Definition reasonText (analysis : JsValue) : option string :=
  match analysis with
  | JObject fields =>
      match getField "reason" fields with
      | Some (JString r) => Some r
      | Some v => if truthyValue v then None else Some ""
      | None => Some ""
      end
  | _ => Some ""
  end.

(** *** Model fallback *)



(** The events of one model of the list: the two progress reports and
    the events [trace] of its call. *)
Definition modelEvents (modelConfig : ModelConfig) (trace : list Event)
  : list Event :=
  (Progress ("Step 2: Analyzing documents with " ++ label modelConfig ++ "...")
   :: Progress "Step 3: Generating Priority Matrix..."
   :: trace)%list.

(** The report and the fixed wait before the next model. *)
Definition fallbackEvents (modelConfig : ModelConfig) : list Event :=
  [Progress (label modelConfig ++ " is unavailable. Trying fallback model...");
   Sleep 2000].

(** The three models of the list, in order. *)
Definition model1 : ModelConfig :=
  {| configName := "gemini-3-flash-preview"; label := "Gemini 3 Flash" |}.
Definition model2 : ModelConfig :=
  {| configName := "gemini-1.5-flash"; label := "Gemini 1.5 Flash" |}.
Definition model3 : ModelConfig :=
  {| configName := "gemini-1.5-pro"; label := "Gemini 1.5 Pro" |}.


(** The models called in a trace, call by call. *)
Fixpoint modelsCalled (trace : list Event) : list string :=
  match trace with
  | [] => []
  | Generate model _ :: rest => model :: modelsCalled rest
  | _ :: rest => modelsCalled rest
  end.

End Spec.

(* ================================================================== *)
(** ** Concrete services and files for the examples *)
(* ================================================================== *)

Module Examples.
Import JsString.
Import PdfTextExtractor.
Import GeminiService.




Definition request : Content :=
  {| text := "prompt";
     syllabusData := {| data := Some "AAAA"; mimeType := "application/pdf" |};
     pyqData := {| data := Some "BBBB"; mimeType := "application/pdf" |} |}.

Definition overloaded : JsError :=
  newError "[503 Service Unavailable] The model is overloaded. Please try again later.".


Definition unauthorized : JsError :=
  newError "[401 Unauthorized] API key rejected.".

(** A message with a transient and a fatal substring. *)
Definition gatewayTimeout : JsError :=
  newError "[503 Service Unavailable] upstream request timeout".

Definition emptyAnalysis : Response :=
  ResponseText "{}".

(** Fails twice with a transient error, then succeeds. *)
Definition flaky : GenerativeModel :=
  {| modelName := "flaky";
     generateContent := fun _ call =>
       if (call <=? 2)%Z then Rejected overloaded else Resolved emptyAnalysis |}.

(** Every call settles the same way. *)
Definition always (outcome : Outcome) : GenerativeModel :=
  {| modelName := "fixed"; generateContent := fun _ _ => outcome |}.

(** Files: a receipt, a syllabus, a question paper, and a file the
    decoder rejects. *)
Definition receipt : File :=
  {| name := "receipt.pdf"; type := "application/pdf";
     pdf := Some [Some ["total amount due: $42.00"; ""; "thank you for riding"]];
     dataURL := Some "data:application/pdf;base64,UkVDRUlQVA==" |}.

Definition syllabus : File :=
  {| name := "syllabus.pdf"; type := "application/pdf";
     pdf := Some [Some ["B.Tech Syllabus"; "Semester 3"];
                  Some ["Unit 1: Graphs"; "Unit 2: Trees"; "Credit: 4"]];
     dataURL := Some "data:application/pdf;base64,U1lMTEFCVVM=" |}.

Definition questionPaper : File :=
  {| name := "pyq.pdf"; type := "application/pdf";
     pdf := Some [Some ["End Semester Exam"; "Question 1 (10 marks)"]];
     dataURL := Some "data:application/pdf;base64,UFlR" |}.

Definition scanned : File :=
  {| name := "scan.pdf"; type := "application/pdf";
     pdf := None;
     dataURL := Some "data:application/pdf;base64,U0NBTg==" |}.

(** A service on which every model answers every call the same way. *)
Definition uniform (outcome : Outcome) : string -> Content -> Z -> Outcome :=
  fun _ _ _ => outcome.

(** A service whose first model is overloaded and whose other models
    answer with [response]. *)
Definition firstDown (response : Response) : string -> Content -> Z -> Outcome :=
  fun model _ _ =>
    if String.eqb model "gemini-3-flash-preview" then Rejected overloaded
    else Resolved response.

Definition oneTopic : Response :=
  ResponseText (JsonReference.quoted
    "{'topics': [{'name': 'Graphs', 'confidence': 92}], 'summary': {'totalTopics': 1}}").

(** A file whose second page the decoder cannot read. *)
Definition torn : File :=
  {| name := "torn.pdf"; type := "application/pdf";
     pdf := Some [Some ["abcdefghij"]; None];
     dataURL := Some "data:application/pdf;base64,VE9STg==" |}.

End Examples.

(* ================================================================== *)
(** ** components/ProgressBar *)
(* ================================================================== *)

Module ProgressBar.

(** [Array.prototype.findIndex]: the index of the first element that
    satisfies the test, [-1] when there is none. *)
Fixpoint findIndexFrom {A : Type} (test : A -> bool) (index : Z) (l : list A) : Z :=
  match l with
  | [] => (-1)%Z
  | x :: rest => if test x then index else findIndexFrom test (index + 1)%Z rest
  end.

Definition findIndex {A : Type} (test : A -> bool) (l : list A) : Z :=
  findIndexFrom test 0%Z l.

Definition currentIndex (steps : list string) (currentStep : string) : Z :=
  findIndex (fun step => String.eqb step currentStep) steps.

(** The width of the bar in percent; [None] for the [NaN] of an empty
    list of steps. *)
Definition progress (steps : list string) (currentStep : string) : option Q :=
  match steps with
  | [] => None
  | _ => Some (Qmult (Qdiv (inject_Z (currentIndex steps currentStep + 1))
                           (inject_Z (Z.of_nat (List.length steps))))
                     (inject_Z 100))
  end.

(** The steps drawn as reached: [index <= currentIndex]. *)
Fixpoint reachedFrom (index currentIndex : Z) (steps : list string) : list bool :=
  match steps with
  | [] => []
  | _ :: rest => (index <=? currentIndex)%Z :: reachedFrom (index + 1)%Z currentIndex rest
  end.

Definition reached (steps : list string) (currentStep : string) : list bool :=
  reachedFrom 0%Z (currentIndex steps currentStep) steps.

End ProgressBar.

(* ================================================================== *)
(** ** App *)
(* ================================================================== *)

Module App.
Import JsString.
Import PdfTextExtractor.
Import GeminiService.

Definition PROGRESS_STEPS : list string :=
  [ "Step 1: Extracting PDFs";
    "Step 2: Analyzing documents with Gemini 3...";
    "Step 3: Generating Priority Matrix" ].

Record State := {
  syllabusFile : option File;
  pyqFile : option File;
  isAnalyzing : bool;
  currentStep : option string;
  analysis : option JsValue;
  error : option string;
  invalidDocumentType : option string
}.

Definition initial : State :=
  {| syllabusFile := None; pyqFile := None; isAnalyzing := false;
     currentStep := None; analysis := None; error := None;
     invalidDocumentType := None |}.

Definition setSyllabusFile (f : option File) (st : State) : State :=
  {| syllabusFile := f; pyqFile := pyqFile st; isAnalyzing := isAnalyzing st;
     currentStep := currentStep st; analysis := analysis st; error := error st;
     invalidDocumentType := invalidDocumentType st |}.

Definition setPyqFile (f : option File) (st : State) : State :=
  {| syllabusFile := syllabusFile st; pyqFile := f; isAnalyzing := isAnalyzing st;
     currentStep := currentStep st; analysis := analysis st; error := error st;
     invalidDocumentType := invalidDocumentType st |}.

Definition setIsAnalyzing (b : bool) (st : State) : State :=
  {| syllabusFile := syllabusFile st; pyqFile := pyqFile st; isAnalyzing := b;
     currentStep := currentStep st; analysis := analysis st; error := error st;
     invalidDocumentType := invalidDocumentType st |}.

Definition setCurrentStep (step : option string) (st : State) : State :=
  {| syllabusFile := syllabusFile st; pyqFile := pyqFile st;
     isAnalyzing := isAnalyzing st; currentStep := step;
     analysis := analysis st; error := error st;
     invalidDocumentType := invalidDocumentType st |}.

Definition setAnalysis (a : option JsValue) (st : State) : State :=
  {| syllabusFile := syllabusFile st; pyqFile := pyqFile st;
     isAnalyzing := isAnalyzing st; currentStep := currentStep st;
     analysis := a; error := error st;
     invalidDocumentType := invalidDocumentType st |}.

Definition setError (e : option string) (st : State) : State :=
  {| syllabusFile := syllabusFile st; pyqFile := pyqFile st;
     isAnalyzing := isAnalyzing st; currentStep := currentStep st;
     analysis := analysis st; error := e;
     invalidDocumentType := invalidDocumentType st |}.

Definition setInvalidDocumentType (d : option string) (st : State) : State :=
  {| syllabusFile := syllabusFile st; pyqFile := pyqFile st;
     isAnalyzing := isAnalyzing st; currentStep := currentStep st;
     analysis := analysis st; error := error st;
     invalidDocumentType := d |}.

(** The callback handed to the service: [(step) => setCurrentStep(step)],
    over the events of a run. *)
Definition onProgress (st : State) (e : Event) : State :=
  match e with
  | Progress step => setCurrentStep (Some step) st
  | _ => st
  end.

(** The [catch] of [handleAnalyze].  Reading [message] of [undefined]
    throws out of the handler. *)
Definition handleError (err : Thrown) (st : State) : State * Completion unit :=
  if hasCode "INVALID_DOCUMENT" err then
    let detected :=
      match err with
      | ThrownError e =>
          match detectedType e with
          | Some d => if truthy d then d else "non-academic document"
          | None => "non-academic document"
          end
      | _ => "non-academic document"
      end in
    let st := setInvalidDocumentType (Some detected) st in
    let st := setError (Some "INVALID_DOCUMENT") st in
    (setCurrentStep None st, Return tt)
  else
    let st := setInvalidDocumentType None st in
    match err with
    | ThrownError e =>
        let st := setError (Some (if truthy (message e) then message e
                                  else "Failed to analyze documents. Please try again."))
                           st in
        (setCurrentStep None st, Return tt)
    | ThrownEvent =>
        let st := setError (Some "Failed to analyze documents. Please try again.") st in
        (setCurrentStep None st, Return tt)
    | ThrownUndefined =>
        (st, Throw (ThrownError
                      (typeError "Cannot read properties of undefined (reading 'message')")))
    end.

Section Handlers.

Variable JSON_parse : string -> JsValue + string.
Variable prompt : string.
Variable API_KEY : option string.
Variable backend : string -> Content -> Z -> Outcome.

(** The state [handleAnalyze] leaves, and how its promise settles. *)
Definition handleAnalyze (st : State) : State * Completion unit :=
  match syllabusFile st, pyqFile st with
  | Some syllabus, Some pyq =>
      let st := setIsAnalyzing true st in
      let st := setError None st in
      let st := setInvalidDocumentType None st in
      let st := setAnalysis None st in
      let st := setCurrentStep (Some (nth 0 PROGRESS_STEPS "")) st in
      let run := analyzeExamStrategy JSON_parse prompt API_KEY backend syllabus pyq in
      let st := fold_left onProgress (fst run) st in
      let (st, settled) :=
        match snd run with
        | Return result =>
            let st := setAnalysis (Some result) st in
            (setCurrentStep None st, Return tt)
        | Throw err => handleError err st
        end in
      (setIsAnalyzing false st, settled)
  | _, _ =>
      (setError (Some "Please upload both syllabus and past year question papers") st,
       Return tt)
  end.

End Handlers.

Definition handleReset (st : State) : State :=
  let st := setAnalysis None st in
  let st := setSyllabusFile None st in
  let st := setPyqFile None st in
  let st := setError None st in
  setInvalidDocumentType None st.

Definition canAnalyze (st : State) : bool :=
  negb (isAnalyzing st)
  && match syllabusFile st with Some _ => true | None => false end
  && match pyqFile st with Some _ => true | None => false end.

(** The part of the page the render chooses: the results when
    [analysis] is truthy, the upload view otherwise. *)
Definition showsResults (st : State) : bool :=
  match analysis st with
  | Some a => truthyValue a
  | None => false
  end.

(** The progress bar is drawn in the upload view while
    [isAnalyzing && currentStep]. *)
Definition showsProgress (st : State) : bool :=
  negb (showsResults st) && isAnalyzing st
  && match currentStep st with Some step => truthy step | None => false end.

(** The values [currentStep] takes through the events of a run. *)
Fixpoint reported (trace : list Event) : list string :=
  match trace with
  | [] => []
  | Progress step :: rest => step :: reported rest
  | _ :: rest => reported rest
  end.

End App.

(* ================================================================== *)
(** ** components/ResultsDisplay *)
(* ================================================================== *)

Module ResultsDisplay.
Import JsString.
Import MarkdownExport.

(** The cards in the order they are drawn. *)
Definition sortedTopics (analysis : option Analysis) : list Topic :=
  match analysis with
  | None => []
  | Some analysis =>
      match topics analysis with
      | None => []
      | Some topics => sort topics
      end
  end.

Definition getPriorityFromConfidence (confidence : Z) : string :=
  if (80 <=? confidence)%Z then "High"
  else if (60 <=? confidence)%Z then "Medium"
  else "Low".

Definition getPriorityGlow (priority : string) : string :=
  if String.eqb priority "High" then "glow-red-subtle border-red-900/50"
  else if String.eqb priority "Medium" then "glow-amber-subtle border-amber-900/50"
  else "glow-emerald-subtle border-emerald-900/50".

(** [topic.priority || getPriorityFromConfidence(topic.confidence)] *)
Definition priorityOf (topic : Topic) : string :=
  match priority topic with
  | Some p => if truthy p then p else getPriorityFromConfidence (confidence topic)
  | None => getPriorityFromConfidence (confidence topic)
  end.

End ResultsDisplay.

(* ================================================================== *)
(** ** Further vocabulary *)
(* ================================================================== *)

Module Notions.
Import JsString.
Import DocumentValidation.
Import PdfTextExtractor.
Import GeminiService.

(** *** Text extraction *)

(** The text one page contributes: its non-empty items joined by a
    space, and a line feed. *)
Definition pageText (items : list string) : string :=
  join " " (filter truthy items) ++ String "010" "".

(** The text of a whole document. *)
Fixpoint wholeText (pages : list (list string)) : string :=
  match pages with
  | [] => ""
  | items :: rest => pageText items ++ wholeText rest
  end.

(** *** Code units *)



(** *** Model invocation *)

(** The waits before the attempts [first], [first + 1], ... ([n] of
    them), none before attempt 1. *)
Fixpoint waitsFrom (first : Z) (n : nat) : list Z :=
  match n with
  | O => []
  | S n' =>
      ((if (2 <=? first)%Z then [Z.min (1000 * 2 ^ (first - 2)) 10000] else [])
       ++ waitsFrom (first + 1) n')%list
  end.

(** The message of an error names neither a fatal nor a transient
    condition. *)
Definition unknown (e : JsError) : Prop :=
  ~ Spec.containsAny Spec.fatalSubstrings (errorMessage e)
  /\ ~ Spec.containsAny Spec.transientSubstrings (errorMessage e).

Definition serverFault : JsError :=
  newError "fetch failed: connection reset".

(** *** Response texts *)

(** The unit [c] does not occur in [s]. *)
Fixpoint avoids (c : ascii) (s : string) : bool :=
  match s with
  | EmptyString => true
  | String d s' => negb (Ascii.eqb d c) && avoids c s'
  end.

Fixpoint allWhiteSpace (s : string) : bool :=
  match s with
  | EmptyString => true
  | String c s' => isWhiteSpace c && allWhiteSpace s'
  end.

(** A payload in a json fence, with text around the fence and white
    space inside it. *)
Definition fenced (before inner1 payload inner2 after : string) : string :=
  before ++ "```json" ++ inner1 ++ payload ++ inner2 ++ "```" ++ after.

(** *** Runs *)

(** The events of one model of the list in a run: its two reports, [k]
    attempts, and the fallback report and wait when the run moves on. *)
Definition modelTrace (backend : string -> Content -> Z -> Outcome)
           (content : Content) (m : ModelConfig) (k : nat) (fell : bool)
  : list Event :=
  (Spec.modelEvents m
     (Spec.attemptsFrom (getGenerativeModel backend m) content 3 1 k)
   ++ (if fell then Spec.fallbackEvents m else []))%list.

(** The events of the model loop: for the models of a list in order,
    and possibly not all of them, between 1 and 3 attempts each. *)
Inductive LoopTrace (backend : string -> Content -> Z -> Outcome)
          (content : Content) : list ModelConfig -> list Event -> Prop :=
| LoopTrace_stop models : LoopTrace backend content models []
| LoopTrace_model m rest k fell tr :
    1 <= k <= 3 ->
    LoopTrace backend content rest tr ->
    LoopTrace backend content (m :: rest)
              (modelTrace backend content m k fell ++ tr)%list.

(** The sum of the waits of a trace, in milliseconds. *)
Definition totalWait (trace : list Event) : Z :=
  fold_right Z.add 0%Z (Spec.sleeps trace).

(** The messages the last handler of a run writes. *)
Definition userMessages : list string :=
  [ "Request timeout: Analysis is taking longer than expected. Please try again with smaller PDFs.";
    "API quota exceeded. Please try again later.";
    "Invalid API key or request. Please check your configuration.";
    "The AI model is currently experiencing high demand. Please wait a moment and try again. The app will automatically retry with fallback models.";
    "All AI models are currently unavailable due to high demand. Please try again in a few minutes." ].

Definition userFacing (e : JsError) : Prop :=
  e = newError (message e)
  /\ (In (message e) userMessages
      \/ exists detail, message e = "Failed to analyze documents: " ++ detail).

(** The labels a run reports. *)
Definition runLabels : list string :=
  [ "Step 1: Extracting PDFs...";
    "Step 2: Analyzing documents with Gemini 3 Flash...";
    "Step 2: Analyzing documents with Gemini 1.5 Flash...";
    "Step 2: Analyzing documents with Gemini 1.5 Pro...";
    "Step 3: Generating Priority Matrix...";
    "Retrying... (Attempt 2/3)";
    "Retrying... (Attempt 3/3)";
    "Gemini 3 Flash is unavailable. Trying fallback model...";
    "Gemini 1.5 Flash is unavailable. Trying fallback model...";
    "Gemini 1.5 Pro is unavailable. Trying fallback model..." ].

Definition reportsOnly (labels : list string) (e : Event) : Prop :=
  match e with
  | Progress l => In l labels
  | _ => True
  end.

(** The label of the timer that runs beside a call, after [elapsed]
    seconds. *)
Definition elapsedLabel (elapsed : Z) : string :=
  "Step 3: Generating Priority Matrix... (" ++ ofZ elapsed ++ "s)".

(** The request a run sends: the prompt and the two files. *)
Definition requestOf (prompt : string) (syllabusFile pyqFile : File) : Content :=
  let encoded (file : File) :=
    {| data := match dataURL file with
               | Some url => secondPiece url
               | None => None
               end;
       mimeType := type file |} in
  {| text := prompt;
     syllabusData := encoded syllabusFile;
     pyqData := encoded pyqFile |}.

(** [analysis] is what [processResponse] makes of a response that one
    of the models gave to one of its first three calls. *)
Definition answeredBy (JSON_parse : string -> JsValue + string)
           (backend : string -> Content -> Z -> Outcome) (content : Content)
           (models : list ModelConfig) (analysis : JsValue) : Prop :=
  exists m k response,
    In m models /\ (1 <= k <= 3)%Z
    /\ backend (configName m) content k = Resolved response
    /\ processResponse JSON_parse response = Return analysis.

(** The calls of a trace when the models of a list are called
    [counts] times each, in order. *)
Definition callsOf (models : list ModelConfig) (counts : list nat) : list string :=
  concat (map (fun mk => repeat (configName (fst mk)) (snd mk))
              (combine models counts)).

(** *** The dropzone *)

Definition handleDragOver (st : PDFDropzone.State) : PDFDropzone.State :=
  PDFDropzone.setIsDragging true st.

Definition handleDragLeave (st : PDFDropzone.State) : PDFDropzone.State :=
  PDFDropzone.setIsDragging false st.

(** What the user can do to a dropzone; a drop and a choice in the
    dialog carry the first file of their list, if any. *)
Inductive Action :=
| DragOver
| DragLeave
| Drop (dropped : option File)
| FileInput (selected : option File)
| ConfirmAnyway
| CancelWarning
| Remove.

Definition act (st : PDFDropzone.State) (a : Action) : PDFDropzone.State :=
  match a with
  | DragOver => handleDragOver st
  | DragLeave => handleDragLeave st
  | Drop dropped => PDFDropzone.handleDrop dropped st
  | FileInput selected => PDFDropzone.handleFileInput selected st
  | ConfirmAnyway => PDFDropzone.handleConfirmAnyway st
  | CancelWarning => PDFDropzone.handleCancelWarning st
  | Remove => PDFDropzone.handleRemove st
  end.

(** The state after a sequence of actions on a fresh dropzone. *)
Definition after (actions : list Action) : PDFDropzone.State :=
  fold_left act actions PDFDropzone.initial.

(** The file is a PDF by its type and by its name. *)
Definition isPdf (f : File) : Prop :=
  type f = "application/pdf"
  /\ endsWith ".pdf" (toLowerCase (name f)) = true.

(** The text of the file could be read and failed the quick check. *)
Definition failsQuickCheck (f : File) : Prop :=
  exists text, extractTextFromPdf f 1500 = Some text
               /\ hasMinimumAcademicKeywords text 1000 2 = false.

(** The file was given to the dropzone by one of the actions. *)
Definition offered (actions : list Action) (f : File) : Prop :=
  In (Drop (Some f)) actions \/ In (FileInput (Some f)) actions.

(** *** Order *)

(** The topics of a list that have a given confidence, in their order. *)
Definition withConfidence (c : Z) (topics : list MarkdownExport.Topic)
  : list MarkdownExport.Topic :=
  filter (fun t => (MarkdownExport.confidence t =? c)%Z) topics.

(** *** The key *)

(** The key is set and holds more than white space. *)
Definition keyed (key : option string) : bool :=
  match key with
  | Some k => negb (allWhiteSpace k)
  | None => false
  end.

Definition keyError : JsError :=
  newError "Failed to analyze documents: VITE_GEMINI_API_KEY is not set. Add your API key to the .env file.".

End Notions.

(* ================================================================== *)
(** * Properties *)
(* ================================================================== *)

Import JsString.

(** ** Strings *)

Section StringFacts.

Lemma append_nil_r (s : string) : s ++ "" = s.
Proof. induction s; simpl; congruence. Qed.

Lemma append_assoc (a b c : string) : (a ++ b) ++ c = a ++ b ++ c.
Proof. induction a; simpl; congruence. Qed.

Lemma length_append (a b : string) :
  String.length (a ++ b) = String.length a + String.length b.
Proof. induction a; simpl; congruence. Qed.

Lemma toLowerCase_append (a b : string) :
  toLowerCase (a ++ b) = toLowerCase a ++ toLowerCase b.
Proof. induction a; simpl; congruence. Qed.

Lemma toLowerCase_length (s : string) :
  String.length (toLowerCase s) = String.length s.
Proof. induction s; simpl; congruence. Qed.

(** A split of the lower-case text is the image of a split of the text. *)
Lemma toLowerCase_split (s a b : string) :
  toLowerCase s = a ++ b ->
  exists a' b', s = a' ++ b' /\ toLowerCase a' = a /\ toLowerCase b' = b.
Proof.
  revert s; induction a as [|c a IH]; intros s H.
  - exists "", s. auto.
  - destruct s as [|d s]; simpl in H; [discriminate|].
    injection H as Hc Hs.
    destruct (IH _ Hs) as (a' & b' & -> & Ha & Hb).
    exists (String d a'), b'. simpl. rewrite Hc, Ha. auto.
Qed.

Lemma prefix_spec (kw s : string) :
  String.prefix kw s = true <-> exists post, s = kw ++ post.
Proof.
  revert s; induction kw as [|k kw IH]; intros s; simpl.
  - split; [exists s; reflexivity | destruct s; reflexivity].
  - destruct s as [|c s].
    + split; [discriminate | intros [post H]; discriminate].
    + simpl. destruct (ascii_dec k c) as [->|Hne].
      * rewrite IH. split; intros [post H]; exists post.
        -- simpl. congruence.
        -- simpl in H. congruence.
      * split; [discriminate|]. intros [post H]. simpl in H. congruence.
Qed.

Lemma includes_spec (kw s : string) :
  includes kw s = true <-> exists pre post, s = pre ++ kw ++ post.
Proof.
  induction s as [|c s IH]; cbn [includes].
  - rewrite orb_false_r, prefix_spec. split.
    + intros [post H]. exists "", post. exact H.
    + intros (pre & post & H). destruct pre; simpl in H.
      * exists post. exact H.
      * discriminate.
  - rewrite orb_true_iff, prefix_spec, IH. split.
    + intros [[post H] | (pre & post & H)].
      * exists "", post. exact H.
      * exists (String c pre), post. simpl. congruence.
    + intros (pre & post & H). destruct pre as [|d pre]; simpl in H.
      * left. exists post. exact H.
      * right. exists pre, post. congruence.
Qed.

Lemma substring_all (n : nat) (s : string) :
  String.length s <= n -> substring 0 n s = s.
Proof.
  revert n; induction s as [|c s IH]; intros n H; destruct n; simpl in *;
    try reflexivity; try lia.
  rewrite IH by lia. reflexivity.
Qed.

Lemma substring_append_l (a b : string) :
  substring 0 (String.length a) (a ++ b) = a.
Proof. induction a; simpl; [destruct b; reflexivity | congruence]. Qed.

Lemma substring_length (n m : nat) (s : string) :
  String.length (substring n m s) <= m.
Proof.
  revert n m; induction s as [|c s IH]; intros n m.
  - destruct n, m; simpl; lia.
  - destruct n; simpl.
    + destruct m; simpl; [lia|]. specialize (IH 0 m). lia.
    + apply IH.
Qed.

(** The first [n] characters split the text. *)
Lemma substring_prefix (n : nat) (s : string) :
  exists rest, s = substring 0 n s ++ rest.
Proof.
  revert n; induction s as [|c s IH]; intros n.
  - exists "". destruct n; reflexivity.
  - destruct n; simpl.
    + exists (String c s). reflexivity.
    + destruct (IH n) as [rest H]. exists rest. congruence.
Qed.

Lemma slice_first (s : string) (n : Z) :
  (0 <= n)%Z -> slice s 0 n = substring 0 (Z.to_nat n) s.
Proof.
  intros Hn. unfold slice, sliceIndex.
  assert (H0 : (0 <? 0)%Z = false) by reflexivity. rewrite H0.
  assert (Hn' : (n <? 0)%Z = false) by (apply Z.ltb_ge; lia). rewrite Hn'.
  set (len := Z.of_nat (String.length s)).
  rewrite (Z.min_l 0 len) by lia. rewrite Z.sub_0_r.
  rewrite Z.max_l by lia. change (Z.to_nat 0) with 0.
  destruct (Z.le_ge_cases n len) as [Hle|Hge].
  - rewrite Z.min_l by lia. reflexivity.
  - rewrite Z.min_r by lia. unfold len. rewrite Nat2Z.id.
    rewrite substring_all by lia. rewrite substring_all by lia. reflexivity.
Qed.

Lemma toLowerCase_substring (n m : nat) (s : string) :
  toLowerCase (substring n m s) = substring n m (toLowerCase s).
Proof.
  revert n m; induction s as [|c s IH]; intros n m.
  - destruct n, m; reflexivity.
  - destruct n; simpl.
    + destruct m; simpl; [reflexivity|]. rewrite IH. reflexivity.
    + apply IH.
Qed.

Lemma substring_substring (p l n : nat) (s : string) :
  p + l <= n -> substring p l (substring 0 n s) = substring p l s.
Proof.
  revert p l n; induction s as [|c s IH]; intros p l n H.
  - destruct n; reflexivity.
  - destruct n.
    + assert (p = 0) by lia. assert (l = 0) by lia. subst. reflexivity.
    + simpl. destruct p.
      * destruct l; simpl; [reflexivity|]. f_equal.
        apply (IH 0 l n). lia.
      * simpl. apply IH. lia.
Qed.

Lemma substring_middle (pre kw post : string) :
  substring (String.length pre) (String.length kw) (pre ++ kw ++ post) = kw.
Proof.
  induction pre as [|c pre IH]; simpl; [|exact IH].
  apply substring_append_l.
Qed.

End StringFacts.

(** ** The keyword heuristics *)

Section KeywordFacts.
Import DocumentValidation.

Lemma occurs_includes (kw s : string) :
  Spec.occursIgnoringCase kw s <-> includes kw (toLowerCase s) = true.
Proof.
  rewrite includes_spec. split.
  - intros (pre & w & post & -> & Hw).
    exists (toLowerCase pre), (toLowerCase post).
    rewrite !toLowerCase_append, Hw. reflexivity.
  - intros (pre & post & H).
    destruct (toLowerCase_split _ _ _ H) as (pre' & r & -> & Hpre & Hr).
    destruct (toLowerCase_split _ _ _ Hr) as (w & post' & -> & Hw & Hpost).
    exists pre', w, post'. auto.
Qed.

Lemma keywords_NoDup : NoDup ACADEMIC_KEYWORDS.
Proof.
  unfold ACADEMIC_KEYWORDS.
  repeat (constructor; [simpl; intuition discriminate|]). constructor.
Qed.

Lemma foundIn_distinct (s : string) :
  Spec.distinctKeywordsOf s (Spec.foundIn s).
Proof.
  split.
  - apply NoDup_filter, keywords_NoDup.
  - intros kw. unfold Spec.foundIn. rewrite filter_In, occurs_includes. tauto.
Qed.

Lemma count_foundIn (s : string) :
  count (countKeywordsInText s) = Z.of_nat (List.length (Spec.foundIn s)).
Proof.
  unfold countKeywordsInText. destruct s; reflexivity.
Qed.

(** Two duplicate-free lists of the same keywords have one length. *)
Lemma distinctKeywordsOf_length (s : string) (l l' : list string) :
  Spec.distinctKeywordsOf s l -> Spec.distinctKeywordsOf s l' ->
  List.length l = List.length l'.
Proof.
  intros [Hl Hin] [Hl' Hin'].
  apply Permutation_length, NoDup_Permutation; auto.
  intros kw. rewrite Hin, Hin'. tauto.
Qed.



End KeywordFacts.

(** ** Doubles *)

Section Doubles.
Import JsNumber.




















(** On the samples the rounding of this model gives the doubles of the
    library's binary64 division and multiplication. *)
Lemma doubles_agree :
  forallb (fun p => Binary64.agrees (fst p) (snd p)) Binary64.samples = true.
Proof. vm_compute. reflexivity. Qed.

(** The literal 0.3 is the double 5404319552844595 / 2^54. *)
Lemma literal_three_tenths :
  literal (3 # 10) = (5404319552844595 # 18014398509481984)%Q
  /\ Binary64.toQ (S754_finite false 5404319552844595 (-54))
     = Some (literal (3 # 10))
  /\ valid_binary 53 1024 (S754_finite false 5404319552844595 (-54)) = true.
Proof. repeat split; vm_compute; reflexivity. Qed.

End Doubles.

(** ** Occurrences *)

Section Occurrences.
Import DocumentValidation.













End Occurrences.

(** ** The density check *)

Section DensityCheck.
Import DocumentValidation.










End DensityCheck.

(** ** The quick check *)

Section QuickCheck.
Import DocumentValidation.

Lemma keywords_nonempty (kw : string) :
  In kw ACADEMIC_KEYWORDS -> 1 <= String.length kw.
Proof.
  unfold ACADEMIC_KEYWORDS. simpl.
  intros H; repeat (destruct H as [<-|H]; [simpl; lia|]); contradiction.
Qed.

Lemma keywordFree_sound (kws : list string) (n : nat) (s : string) :
  Spec.keywordFree kws n (toLowerCase s) = true ->
  forall kw p, In kw kws ->
    toLowerCase (substring p (String.length kw) s) = kw -> n <= p.
Proof.
  revert s; induction n as [|n IH]; intros s Hfree kw p Hin Hocc; [lia|].
  simpl in Hfree. apply andb_true_iff in Hfree as [Hhere Hrest].
  destruct p as [|p].
  - exfalso. rewrite forallb_forall in Hhere. specialize (Hhere kw Hin).
    rewrite toLowerCase_substring in Hocc.
    apply prefix_correct in Hocc. rewrite Hocc in Hhere. discriminate.
  - destruct s as [|c s].
    + exfalso. rewrite forallb_forall in Hhere. specialize (Hhere kw Hin).
      destruct kw; simpl in Hocc; [|discriminate].
      simpl in Hhere. discriminate.
    + simpl in Hocc, Hrest. specialize (IH s Hrest kw p Hin Hocc). lia.
Qed.

(** C7.  For a character count [firstNChars] (not negative) the quick
    check holds exactly when the number of distinct vocabulary
    keywords occurring, letter case ignored, as substrings of the
    first [firstNChars] characters of the text is at least
    [minKeywords].  A text whose keywords all start at or after a
    position [offset] beyond the inspected prefix (position 5000 for a
    prefix of 1000) fails the check for every positive [minKeywords]. *)
Theorem hasMinimumAcademicKeywords_prefix
        (text : string) (firstNChars minKeywords : Z) :
  (0 <= firstNChars)%Z ->
  (exists distinct,
      Spec.distinctKeywordsOf (Spec.firstChars (Z.to_nat firstNChars) text) distinct
      /\ (hasMinimumAcademicKeywords text firstNChars minKeywords = true
          <-> (minKeywords <= Z.of_nat (List.length distinct))%Z))
  /\ (forall offset : nat,
        Z.to_nat firstNChars <= offset ->
        (1 <= minKeywords)%Z ->
        (forall kw p, In kw ACADEMIC_KEYWORDS ->
           toLowerCase (substring p (String.length kw) text) = kw ->
           offset <= p) ->
        hasMinimumAcademicKeywords text firstNChars minKeywords = false).
Proof.
  intros Hn.
  assert (Hcheck : hasMinimumAcademicKeywords text firstNChars minKeywords
                   = (minKeywords <=? Z.of_nat (List.length
                        (Spec.foundIn (substring 0 (Z.to_nat firstNChars) text))))%Z).
  { unfold hasMinimumAcademicKeywords.
    replace (if truthy text then text else "") with text by (destruct text; reflexivity).
    rewrite slice_first by exact Hn. rewrite count_foundIn. reflexivity. }
  split.
  - exists (Spec.foundIn (substring 0 (Z.to_nat firstNChars) text)).
    split; [apply foundIn_distinct|].
    rewrite Hcheck. apply Z.leb_le.
  - intros offset Hoff Hmin Hlate. rewrite Hcheck. apply Z.leb_gt.
    set (n := Z.to_nat firstNChars) in *.
    destruct (Spec.foundIn (substring 0 n text)) as [|kw found] eqn:Hfound;
      [simpl; lia|exfalso].
    assert (Hkw : In kw (Spec.foundIn (substring 0 n text)))
      by (rewrite Hfound; left; reflexivity).
    unfold Spec.foundIn in Hkw. apply filter_In in Hkw as [Hin Hinc].
    apply includes_spec in Hinc as (pre & post & Hsplit).
    pose proof (substring_middle pre kw post) as Hmid.
    rewrite <- Hsplit, <- toLowerCase_substring in Hmid.
    assert (Hlen : String.length pre + String.length kw <= n).
    { pose proof (substring_length 0 n text) as Hle.
      rewrite <- (toLowerCase_length (substring 0 n text)), Hsplit in Hle.
      rewrite !length_append in Hle. lia. }
    rewrite substring_substring in Hmid by exact Hlen.
    specialize (Hlate kw _ Hin Hmid).
    pose proof (keywords_nonempty kw Hin). lia.
Qed.

(** A text of 5000 full stops followed by keywords, checked on its
    first 1000 characters. *)
Lemma hasMinimumAcademicKeywords_prefix_witness :
  (0 <= 1000)%Z
  /\ hasMinimumAcademicKeywords
       (Spec.filler 5000 ++ "syllabus unit marks exam") 1000 2 = false.
Proof.
  split; [lia|].
  refine (proj2 (hasMinimumAcademicKeywords_prefix
                   (Spec.filler 5000 ++ "syllabus unit marks exam") 1000 2 _)
                5000 _ _ _); [lia| |lia|].
  - vm_compute. lia.
  - apply keywordFree_sound. vm_compute. reflexivity.
Defined.

End QuickCheck.

(** ** The retry loop *)

Section RetryLoop.
Import GeminiService.

Lemma contains_nonempty (sub s : string) :
  Spec.contains sub s -> 1 <= String.length sub -> truthy s = true.
Proof.
  intros (pre & post & ->) Hlen. destruct pre; [|reflexivity].
  destruct sub; [simpl in Hlen; lia | reflexivity].
Qed.

Lemma fatal_message (e : JsError) :
  Spec.fatal e <-> isFatalMessage (message e) = true.
Proof.
  unfold Spec.fatal, Spec.containsAny, Spec.fatalSubstrings, isFatalMessage,
    Spec.contains.
  rewrite !orb_true_iff, !includes_spec. simpl. split.
  - intros (sub & Hin & H). intuition (subst; auto).
  - intros H. decompose [or] H; eauto 10.
Qed.

Lemma transient_message (m : string) :
  Spec.containsAny Spec.transientSubstrings m <-> isRetryMessage m = true.
Proof.
  unfold Spec.containsAny, Spec.transientSubstrings, isRetryMessage,
    Spec.contains.
  rewrite !orb_true_iff, !includes_spec. simpl. split.
  - intros (sub & Hin & H). intuition (subst; auto).
  - intros H. decompose [or] H; eauto 10.
Qed.

Lemma fatal_errorMessage (e : JsError) :
  Spec.fatal e -> isFatalMessage (errorMessage e) = true.
Proof.
  intros H. assert (Ht : truthy (message e) = true).
  { destruct H as (sub & Hin & Hc). apply (contains_nonempty sub); auto.
    simpl in Hin. intuition (subst; simpl; lia). }
  unfold errorMessage. rewrite Ht. apply fatal_message, H.
Qed.

Lemma transient_errorMessage (e : JsError) :
  Spec.transient e ->
  isFatalMessage (errorMessage e) = false
  /\ isRetryMessage (errorMessage e) = true.
Proof.
  intros [H Hnf]. assert (Ht : truthy (message e) = true).
  { destruct H as (sub & Hin & Hc). apply (contains_nonempty sub); auto.
    simpl in Hin. intuition (subst; simpl; lia). }
  unfold errorMessage. rewrite Ht. split.
  - destruct (isFatalMessage (message e)) eqn:Hf; [|reflexivity].
    exfalso. apply Hnf, fatal_message, Hf.
  - apply transient_message, H.
Qed.

Lemma last_cons {A : Type} (x d : A) (l : list A) :
  last (x :: l) d = last l x.
Proof.
  revert x d; induction l as [|y l IH]; intros x d; [reflexivity|].
  change (last (x :: y :: l) d) with (last (y :: l) d).
  rewrite (IH y d), (IH y x). reflexivity.
Qed.

Variable model : GenerativeModel.
Variable content : Content.
Variable maxRetries : Z.

(** One iteration: the events of the attempt, then what its outcome
    decides. *)
Lemma retryLoop_step (remaining : nat) (attempt : Z) (lastError : Thrown) :
  (1 <= attempt)%Z ->
  retryLoop model content maxRetries (S remaining) attempt lastError
  = bind (Spec.attemptEvents model content maxRetries attempt, Return tt)
      (fun _ =>
         match generateContent model content attempt with
         | Resolved response => ret response
         | Rejected error =>
             if isFatalMessage (errorMessage error)
             then throw (ThrownError error)
             else if isRetryMessage (errorMessage error)
                  then retryLoop model content maxRetries remaining
                                 (attempt + 1) (ThrownError error)
                  else throw (ThrownError error)
         end).
Proof.
  intros Hattempt. cbn [retryLoop]. unfold Spec.attemptEvents.
  replace (2 <=? attempt)%Z with (1 <? attempt)%Z
    by (destruct (Z.ltb_spec 1 attempt), (Z.leb_spec 2 attempt); lia || reflexivity).
  unfold retryLabel, backoffDelay.
  destruct (1 <? attempt)%Z;
    destruct (generateContent model content attempt) as [response|error];
    try reflexivity;
    destruct (isFatalMessage (errorMessage error)); try reflexivity;
    destruct (isRetryMessage (errorMessage error)); try reflexivity;
    destruct (attempt <? maxRetries)%Z; unfold bind, emit, ret; simpl;
    destruct (retryLoop model content maxRetries remaining
                        (attempt + 1) (ThrownError error)) as [tr [a|t]];
    reflexivity.
Qed.

Lemma failsWith_tail (first : Z) (e : JsError) (failures : list JsError) :
  Spec.failsWith model content first (e :: failures) ->
  generateContent model content first = Rejected e
  /\ Spec.failsWith model content (first + 1) failures.
Proof.
  intros H. split.
  - specialize (H 0 e eq_refl). rewrite Z.add_0_r in H. exact H.
  - intros i e' Hi. specialize (H (S i) e' Hi).
    rewrite <- H. f_equal. lia.
Qed.

(** A run of transient failures: the loop performs their attempts and
    goes on with the next attempt number. *)
Lemma retryLoop_failures (failures : list JsError) :
  forall (remaining : nat) (attempt : Z) (lastError : Thrown),
    (1 <= attempt)%Z ->
    Forall Spec.transient failures ->
    Spec.failsWith model content attempt failures ->
    retryLoop model content maxRetries (List.length failures + remaining)
              attempt lastError
    = bind (Spec.attemptsFrom model content maxRetries attempt
                              (List.length failures), Return tt)
        (fun _ =>
           retryLoop model content maxRetries remaining
                     (attempt + Z.of_nat (List.length failures))
                     (last (map ThrownError failures) lastError)).
Proof.
  induction failures as [|e failures IH]; intros remaining attempt lastError
    Hattempt Htransient Hfails.
  - simpl. rewrite Z.add_0_r. unfold bind.
    destruct (retryLoop model content maxRetries remaining attempt lastError)
      as [tr c]. reflexivity.
  - apply failsWith_tail in Hfails as [Hhere Hrest].
    inversion Htransient as [|? ? He Hothers]; subst.
    destruct (transient_errorMessage e He) as [Hnf Hretry].
    change (List.length (e :: failures) + remaining)
      with (S (List.length failures + remaining)).
    rewrite retryLoop_step by exact Hattempt.
    rewrite Hhere, Hnf, Hretry.
    rewrite (IH remaining (attempt + 1)%Z (ThrownError e)) by (auto; lia).
    replace (attempt + 1 + Z.of_nat (List.length failures))%Z
      with (attempt + Z.of_nat (List.length (e :: failures)))%Z
      by (simpl List.length; lia).
    replace (last (map ThrownError failures) (ThrownError e))
      with (last (map ThrownError (e :: failures)) lastError)
      by (cbn [map]; rewrite last_cons; reflexivity).
    cbn [Spec.attemptsFrom List.length]. unfold bind.
    destruct (retryLoop model content maxRetries remaining
                (attempt + Z.of_nat (S (List.length failures)))
                (last (map ThrownError (e :: failures)) lastError)) as [tr c].
    rewrite <- !app_assoc. destruct c; reflexivity.
Qed.

Lemma attemptsFrom_snoc (first : Z) (n : nat) :
  Spec.attemptsFrom model content maxRetries first (S n)
  = (Spec.attemptsFrom model content maxRetries first n
     ++ Spec.attemptEvents model content maxRetries (first + Z.of_nat n))%list.
Proof.
  revert first; induction n as [|n IH]; intros first.
  - simpl. rewrite Z.add_0_r, app_nil_r. reflexivity.
  - change (Spec.attemptsFrom model content maxRetries first (S (S n)))
      with (Spec.attemptEvents model content maxRetries first
            ++ Spec.attemptsFrom model content maxRetries (first + 1) (S n))%list.
    rewrite IH. cbn [Spec.attemptsFrom]. rewrite <- app_assoc.
    do 3 f_equal. lia.
Qed.

Lemma attempts_app (tr tr' : list Event) :
  Spec.attempts (tr ++ tr') = Spec.attempts tr + Spec.attempts tr'.
Proof.
  unfold Spec.attempts. rewrite filter_app, length_app. reflexivity.
Qed.

Lemma attempts_attemptEvents (attempt : Z) :
  Spec.attempts (Spec.attemptEvents model content maxRetries attempt) = 1.
Proof.
  unfold Spec.attemptEvents. destruct (2 <=? attempt)%Z; reflexivity.
Qed.

Lemma attempts_attemptsFrom (first : Z) (n : nat) :
  Spec.attempts (Spec.attemptsFrom model content maxRetries first n) = n.
Proof.
  revert first; induction n as [|n IH]; intros first; [reflexivity|].
  cbn [Spec.attemptsFrom]. rewrite attempts_app, attempts_attemptEvents, IH.
  reflexivity.
Qed.

(** After a run of transient failures, the outcome of the next
    attempt when it is a success, a fatal error, or nothing because
    the attempts are used up. *)
Lemma retry_then_success (failures : list JsError) (response : Response) :
  Forall Spec.transient failures ->
  Spec.failsWith model content 1 failures ->
  (Z.of_nat (List.length failures) < maxRetries)%Z ->
  generateContent model content (Z.of_nat (List.length failures) + 1)
  = Resolved response ->
  generateContentWithRetry model content maxRetries
  = (Spec.attemptsFrom model content maxRetries 1 (List.length failures + 1),
     Return response).
Proof.
  intros Htransient Hfails Hlt Hok. unfold generateContentWithRetry.
  replace (Z.to_nat maxRetries)
    with (List.length failures + S (Z.to_nat maxRetries - List.length failures - 1))
    by lia.
  rewrite retryLoop_failures by (auto; lia).
  rewrite retryLoop_step by lia.
  rewrite (Z.add_comm 1), Hok. rewrite Nat.add_1_r, attemptsFrom_snoc.
  rewrite (Z.add_comm 1). unfold bind, ret. simpl.
  rewrite app_nil_r. reflexivity.
Qed.

Lemma retry_then_fatal (failures : list JsError) (e : JsError) :
  Forall Spec.transient failures ->
  Spec.failsWith model content 1 failures ->
  (Z.of_nat (List.length failures) < maxRetries)%Z ->
  generateContent model content (Z.of_nat (List.length failures) + 1)
  = Rejected e ->
  Spec.fatal e ->
  generateContentWithRetry model content maxRetries
  = (Spec.attemptsFrom model content maxRetries 1 (List.length failures + 1),
     Throw (ThrownError e)).
Proof.
  intros Htransient Hfails Hlt Hrej Hfatal. unfold generateContentWithRetry.
  replace (Z.to_nat maxRetries)
    with (List.length failures + S (Z.to_nat maxRetries - List.length failures - 1))
    by lia.
  rewrite retryLoop_failures by (auto; lia).
  rewrite retryLoop_step by lia.
  rewrite (Z.add_comm 1), Hrej, (fatal_errorMessage e Hfatal).
  rewrite Nat.add_1_r, attemptsFrom_snoc.
  rewrite (Z.add_comm 1). unfold bind, throw. simpl.
  rewrite app_nil_r. reflexivity.
Qed.

Lemma retry_exhausted (failures : list JsError) :
  Forall Spec.transient failures ->
  Spec.failsWith model content 1 failures ->
  Z.of_nat (List.length failures) = maxRetries ->
  generateContentWithRetry model content maxRetries
  = (Spec.attemptsFrom model content maxRetries 1 (List.length failures),
     Throw (last (map ThrownError failures) ThrownUndefined)).
Proof.
  intros Htransient Hfails Hlen. unfold generateContentWithRetry.
  replace (Z.to_nat maxRetries) with (List.length failures + 0) by lia.
  rewrite retryLoop_failures by (auto; lia).
  unfold bind, throw. simpl. rewrite app_nil_r. reflexivity.
Qed.

End RetryLoop.

(** ** Retry, fatal errors and the order of the two tests *)

Section Invoke.
Import GeminiService.

Lemma transient_decide (e : JsError) :
  isRetryMessage (message e) = true ->
  isFatalMessage (message e) = false ->
  Spec.transient e.
Proof.
  intros Hr Hf. split; [apply transient_message, Hr|].
  intros H. apply fatal_message in H. congruence.
Qed.

Lemma last_nth_error {A B : Type} (f : A -> B) (l : list A) (d : B) (e : A) :
  nth_error l (List.length l - 1) = Some e -> last (map f l) d = f e.
Proof.
  revert d; induction l as [|x l IH]; intros d H; [discriminate|].
  cbn [map]. rewrite last_cons. destruct l as [|y l].
  - simpl in H. injection H as ->. reflexivity.
  - apply IH.
    replace (List.length (x :: y :: l) - 1) with (S (List.length (y :: l) - 1))
      in H by (simpl; lia).
    exact H.
Qed.

(** C3.  When the attempts 1..n are rejected with errors classified
    transient (a transient substring and no fatal one in the message),
    the loop goes on: every attempt from the second on is preceded by
    the progress report and then the wait of
    min(1000 * 2^(attempt-2), 10000) ms.  If attempt n+1 is within
    [maxRetries] and succeeds, its response is returned after exactly
    n+1 attempts; if n = [maxRetries], the last transient error is
    thrown after exactly [maxRetries] attempts.  Two transient
    failures and a success make 3 attempts with waits of 1000 and
    2000 ms. *)
Theorem generateContentWithRetry_transient
        (model : GenerativeModel) (content : Content) (maxRetries : Z)
        (failures : list JsError) :
  Forall Spec.transient failures ->
  Spec.failsWith model content 1 failures ->
  let n := List.length failures in
  let run := generateContentWithRetry model content maxRetries in
  (forall response,
      (Z.of_nat n < maxRetries)%Z ->
      generateContent model content (Z.of_nat n + 1) = Resolved response ->
      run = (Spec.attemptsFrom model content maxRetries 1 (n + 1),
             Return response)
      /\ Spec.attempts (fst run) = n + 1)
  /\ (forall e,
        Z.of_nat n = maxRetries ->
        nth_error failures (n - 1) = Some e ->
        run = (Spec.attemptsFrom model content maxRetries 1 n,
               Throw (ThrownError e))
        /\ Spec.attempts (fst run) = n)
  /\ (forall response,
        n = 2 -> maxRetries = 3%Z ->
        generateContent model content 3 = Resolved response ->
        snd run = Return response
        /\ Spec.attempts (fst run) = 3
        /\ Spec.sleeps (fst run) = [1000; 2000]%Z).
Proof.
  intros Htransient Hfails n run. subst run.
  assert (Hsuccess : forall response,
             (Z.of_nat n < maxRetries)%Z ->
             generateContent model content (Z.of_nat n + 1) = Resolved response ->
             generateContentWithRetry model content maxRetries
             = (Spec.attemptsFrom model content maxRetries 1 (n + 1),
                Return response)).
  { intros response Hlt Hok. apply retry_then_success; assumption. }
  split; [|split].
  - intros response Hlt Hok. rewrite (Hsuccess response Hlt Hok).
    split; [reflexivity|]. apply attempts_attemptsFrom.
  - intros e Hlen He.
    rewrite (retry_exhausted model content maxRetries failures) by assumption.
    rewrite (last_nth_error ThrownError failures ThrownUndefined e He).
    split; [reflexivity|]. apply attempts_attemptsFrom.
  - intros response Hn Hmax Hok.
    rewrite (Hsuccess response) by (rewrite ?Hn, ?Hmax; simpl; auto; lia).
    rewrite Hn. cbn [fst snd].
    split; [reflexivity|]. split; [apply attempts_attemptsFrom|].
    rewrite Hmax. reflexivity.
Qed.

Lemma flaky_failsWith :
  Spec.failsWith Examples.flaky Examples.request 1
                 [Examples.overloaded; Examples.overloaded].
Proof.
  intros i e Hi. destruct i as [|[|i]]; simpl in Hi.
  - injection Hi as <-. reflexivity.
  - injection Hi as <-. reflexivity.
  - destruct i; discriminate.
Qed.

Lemma always_failsWith (e : JsError) (n : nat) :
  Spec.failsWith (Examples.always (Rejected e)) Examples.request 1 (repeat e n).
Proof.
  intros i e' Hi. apply nth_error_In, repeat_spec in Hi. subst. reflexivity.
Qed.

(** The model that fails twice with a 503 and then succeeds, and the
    model that fails with a 503 on every call. *)
Lemma generateContentWithRetry_transient_witness :
  generateContentWithRetry Examples.flaky Examples.request 3
  = ([Generate "flaky" Examples.request;
      Progress "Retrying... (Attempt 2/3)"; Sleep 1000;
      Generate "flaky" Examples.request;
      Progress "Retrying... (Attempt 3/3)"; Sleep 2000;
      Generate "flaky" Examples.request],
     Return Examples.emptyAnalysis)
  /\ Spec.sleeps (fst (generateContentWithRetry Examples.flaky Examples.request 3))
     = [1000; 2000]%Z
  /\ generateContentWithRetry
       (Examples.always (Rejected Examples.overloaded)) Examples.request 3
     = ([Generate "fixed" Examples.request;
         Progress "Retrying... (Attempt 2/3)"; Sleep 1000;
         Generate "fixed" Examples.request;
         Progress "Retrying... (Attempt 3/3)"; Sleep 2000;
         Generate "fixed" Examples.request],
        Throw (ThrownError Examples.overloaded)).
Proof.
  assert (Htransient : forall n, Forall Spec.transient (repeat Examples.overloaded n)).
  { intros n. induction n; constructor; auto.
    apply transient_decide; reflexivity. }
  pose proof (generateContentWithRetry_transient
                Examples.flaky Examples.request 3
                [Examples.overloaded; Examples.overloaded]
                (Htransient 2) flaky_failsWith) as (Hsuccess & _ & Hthree).
  pose proof (generateContentWithRetry_transient
                (Examples.always (Rejected Examples.overloaded))
                Examples.request 3 (repeat Examples.overloaded 3)
                (Htransient 3) (always_failsWith Examples.overloaded 3))
    as (_ & Hexhausted & _).
  split; [|split].
  - apply (Hsuccess Examples.emptyAnalysis); [simpl; lia | reflexivity].
  - apply (Hthree Examples.emptyAnalysis); reflexivity.
  - apply (Hexhausted Examples.overloaded); reflexivity.
Defined.

End Invoke.

Section InvokeFatal.
Import GeminiService.

Lemma no_failures_failsWith (model : GenerativeModel) (content : Content) :
  Spec.failsWith model content 1 [].
Proof. intros [|i] e Hi; discriminate. Qed.

(** C4.  When an attempt (reached after transient failures only, and
    within [maxRetries]) is rejected with an error whose message
    contains 'timeout', 'invalid', 'quota', '401' or '403', that error
    is thrown at once: the trace ends with the call of this attempt,
    and no later attempt is made.  On the first attempt this is one
    call and nothing else, so no wait. *)
Theorem generateContentWithRetry_fatal
        (model : GenerativeModel) (content : Content) (maxRetries : Z)
        (failures : list JsError) (e : JsError) :
  Forall Spec.transient failures ->
  Spec.failsWith model content 1 failures ->
  (Z.of_nat (List.length failures) < maxRetries)%Z ->
  generateContent model content (Z.of_nat (List.length failures) + 1)
  = Rejected e ->
  Spec.fatal e ->
  let run := generateContentWithRetry model content maxRetries in
  run = (Spec.attemptsFrom model content maxRetries 1 (List.length failures + 1),
         Throw (ThrownError e))
  /\ Spec.attempts (fst run) = List.length failures + 1
  /\ (failures = [] ->
      fst run = [Generate (modelName model) content]
      /\ Spec.sleeps (fst run) = []).
Proof.
  intros Htransient Hfails Hlt Hrej Hfatal run. subst run.
  rewrite (retry_then_fatal model content maxRetries failures e) by assumption.
  cbn [fst]. split; [reflexivity|].
  split; [apply attempts_attemptsFrom|].
  intros ->. split; reflexivity.
Qed.

(** A first attempt rejected with a 401. *)
Lemma generateContentWithRetry_fatal_witness :
  generateContentWithRetry
    (Examples.always (Rejected Examples.unauthorized)) Examples.request 3
  = ([Generate "fixed" Examples.request],
     Throw (ThrownError Examples.unauthorized)).
Proof.
  refine (proj1 (generateContentWithRetry_fatal
                   (Examples.always (Rejected Examples.unauthorized))
                   Examples.request 3 [] Examples.unauthorized
                   _ _ _ _ _)).
  - constructor.
  - apply no_failures_failsWith.
  - simpl. lia.
  - reflexivity.
  - apply fatal_message. reflexivity.
Defined.

(** C10.  An error whose message contains both a fatal and a
    transient substring is not classified transient: the test for the
    fatal substrings comes first, and the error is thrown at once on
    whichever attempt raises it, without a retry. *)
Theorem fatal_test_first
        (model : GenerativeModel) (content : Content) (maxRetries : Z)
        (failures : list JsError) (e : JsError) :
  Forall Spec.transient failures ->
  Spec.failsWith model content 1 failures ->
  (Z.of_nat (List.length failures) < maxRetries)%Z ->
  generateContent model content (Z.of_nat (List.length failures) + 1)
  = Rejected e ->
  Spec.containsAny Spec.fatalSubstrings (message e) ->
  Spec.containsAny Spec.transientSubstrings (message e) ->
  let run := generateContentWithRetry model content maxRetries in
  isFatalMessage (errorMessage e) = true
  /\ isRetryMessage (errorMessage e) = true
  /\ run = (Spec.attemptsFrom model content maxRetries 1
                              (List.length failures + 1),
            Throw (ThrownError e))
  /\ Spec.attempts (fst run) = List.length failures + 1.
Proof.
  intros Htransient Hfails Hlt Hrej Hfatal Hretry run. subst run.
  rewrite (retry_then_fatal model content maxRetries failures e) by assumption.
  pose proof (fatal_errorMessage e Hfatal) as Hf.
  split; [exact Hf|]. split.
  - unfold errorMessage in *.
    destruct (truthy (message e)) eqn:Ht.
    + apply transient_message, Hretry.
    + destruct (message e); [|discriminate].
      destruct Hretry as (sub & Hin & pre & post & Hs).
      simpl in Hin. destruct pre; [|discriminate].
      intuition (subst; discriminate).
  - split; [reflexivity|]. apply attempts_attemptsFrom.
Qed.

(** A 503 whose message also says "timeout", on the first attempt. *)
Lemma fatal_test_first_witness :
  generateContentWithRetry
    (Examples.always (Rejected Examples.gatewayTimeout)) Examples.request 3
  = ([Generate "fixed" Examples.request],
     Throw (ThrownError Examples.gatewayTimeout)).
Proof.
  refine (proj1 (proj2 (proj2 (fatal_test_first
                   (Examples.always (Rejected Examples.gatewayTimeout))
                   Examples.request 3 [] Examples.gatewayTimeout
                   _ _ _ _ _ _)))).
  - constructor.
  - apply no_failures_failsWith.
  - simpl. lia.
  - reflexivity.
  - apply fatal_message. reflexivity.
  - apply transient_message. reflexivity.
Defined.

End InvokeFatal.

(** ** The gate of the orchestrator *)

Section Gate.
Import DocumentValidation.
Import PdfTextExtractor.
Import GeminiService.

Lemma slice_first_length (s : string) (n : Z) :
  (0 <= n)%Z -> (Z.of_nat (String.length (slice s 0 n)) <= n)%Z.
Proof.
  intros Hn. rewrite slice_first by exact Hn.
  pose proof (substring_length 0 (Z.to_nat n) s). lia.
Qed.

Lemma extractTextFromPdf_capped (file : File) (maxChars : Z) (text : string) :
  (0 <= maxChars)%Z ->
  extractTextFromPdf file maxChars = Some text ->
  (Z.of_nat (String.length text) <= maxChars)%Z.
Proof.
  intros Hn. unfold extractTextFromPdf.
  destruct (pdf file) as [pages|]; [|discriminate].
  destruct (readPages pages maxChars "") as [t|]; [|discriminate].
  intros [= <-]. apply slice_first_length, Hn.
Qed.

Lemma extractOrEmpty_capped (file : File) :
  (Z.of_nat (String.length (extractOrEmpty file)) <= 4000)%Z.
Proof.
  unfold extractOrEmpty.
  destruct (extractTextFromPdf file 4000) as [text|] eqn:H; [|simpl; lia].
  apply extractTextFromPdf_capped in H; lia.
Qed.

(** C1.  When the combined text (the text of each file, at most 4000
    characters and empty when its extraction fails, joined by a line
    feed and cut to 8000 characters) fails the density check, the run
    throws the INVALID_DOCUMENT error of the gate, unchanged, after the
    first progress report only: the model is not called. *)
Theorem analyzeExamStrategy_gate
        (JSON_parse : string -> JsValue + string) (prompt : string)
        (API_KEY : option string)
        (backend : string -> Content -> Z -> Outcome)
        (syllabusFile pyqFile : File) :
  let text f := match extractTextFromPdf f 4000 with
                | Some t => t
                | None => ""
                end in
  let combined :=
    Spec.firstChars (Z.to_nat 8000)
                    (text syllabusFile ++ String "010" "" ++ text pyqFile) in
  passed (validateDocumentContent combined) = false ->
  let run := analyzeExamStrategy JSON_parse prompt API_KEY backend
                                 syllabusFile pyqFile in
  run = ([Progress "Step 1: Extracting PDFs..."], Throw (ThrownError gateError))
  /\ Spec.attempts (fst run) = 0
  /\ code gateError = Some "INVALID_DOCUMENT"
  /\ (Z.of_nat (String.length (text syllabusFile)) <= 4000)%Z
  /\ (Z.of_nat (String.length (text pyqFile)) <= 4000)%Z.
Proof.
  intros text combined Hfail run.
  assert (Hcombined : combinedText syllabusFile pyqFile = combined).
  { unfold combinedText. rewrite slice_first by lia. reflexivity. }
  assert (Hrun : run = ([Progress "Step 1: Extracting PDFs..."],
                        Throw (ThrownError gateError))).
  { subst run. unfold analyzeExamStrategy.
    rewrite Hcombined, Hfail. reflexivity. }
  rewrite Hrun. repeat split; try reflexivity; apply extractOrEmpty_capped.
Qed.

(** Two receipts; and a receipt next to a file whose extraction fails. *)
Lemma analyzeExamStrategy_gate_witness :
  analyzeExamStrategy JsonReference.parse "prompt" (Some "key")
    (Examples.uniform (Resolved Examples.emptyAnalysis))
    Examples.receipt Examples.receipt
  = ([Progress "Step 1: Extracting PDFs..."], Throw (ThrownError gateError))
  /\ analyzeExamStrategy JsonReference.parse "prompt" (Some "key")
       (Examples.uniform (Resolved Examples.emptyAnalysis))
       Examples.scanned Examples.receipt
     = ([Progress "Step 1: Extracting PDFs..."], Throw (ThrownError gateError)).
Proof.
  split.
  - refine (proj1 (analyzeExamStrategy_gate JsonReference.parse "prompt"
                     (Some "key") _ Examples.receipt Examples.receipt _)).
    vm_compute. reflexivity.
  - refine (proj1 (analyzeExamStrategy_gate JsonReference.parse "prompt"
                     (Some "key") _ Examples.scanned Examples.receipt _)).
    vm_compute. reflexivity.
Defined.

End Gate.

(** ** Model fallback *)

Section Fallback.
Import DocumentValidation.
Import PdfTextExtractor.
Import GeminiService.


Lemma bind_prefix {A B : Type} (m : Eff A) (k : A -> Eff B) :
  exists tr, fst (bind m k) = (fst m ++ tr)%list.
Proof.
  destruct m as [tr [a|t]]; unfold bind; simpl.
  - destruct (k a) as [tr' c]. exists tr'. reflexivity.
  - exists []. rewrite app_nil_r. reflexivity.
Qed.

Lemma bind_ret {A B : Type} (a : A) (k : A -> Eff B) :
  bind (ret a) k = k a.
Proof. unfold bind, ret. destruct (k a) as [tr c]. reflexivity. Qed.

Lemma bind_emit {A : Type} (e : Event) (m : Eff A) :
  bind (emit e) (fun _ => m) = ((e :: fst m)%list, snd m).
Proof. destruct m as [tr c]. reflexivity. Qed.

Lemma tryCatch_prefix {A : Type} (m : Eff A) (h : Thrown -> Eff A) :
  exists tr, fst (tryCatch m h) = (fst m ++ tr)%list.
Proof.
  destruct m as [tr [a|t]]; unfold tryCatch; simpl.
  - exists []. rewrite app_nil_r. reflexivity.
  - destruct (h t) as [tr' c]. exists tr'. reflexivity.
Qed.

Variable JSON_parse : string -> JsValue + string.
Variable backend : string -> Content -> Z -> Outcome.
Variable content : Content.

Let call (m : ModelConfig) : Eff Response :=
  generateContentWithRetry (getGenerativeModel backend m) content 3.




(** The call of a model starts with its first attempt, made at once. *)
Lemma call_starts (m : ModelConfig) :
  exists tr c, call m = ((Generate (configName m) content :: tr)%list, c).
Proof.
  unfold call, generateContentWithRetry.
  change (Z.to_nat 3) with 3. rewrite retryLoop_step by lia.
  change (Spec.attemptEvents (getGenerativeModel backend m) content 3 1)
    with [Generate (configName m) content].
  match goal with
  | |- context [bind ?m0 ?k0] =>
      destruct (bind_prefix m0 k0) as [tr Htr];
      exists tr, (snd (bind m0 k0));
      rewrite (surjective_pairing (bind m0 k0)), Htr
  end.
  reflexivity.
Qed.

Lemma tryModel_starts (m : ModelConfig) :
  exists tr,
    fst (tryModel JSON_parse backend content m)
    = Spec.modelEvents m (Generate (configName m) content :: tr).
Proof.
  destruct (call_starts m) as (tr & c & Hcall).
  unfold tryModel. cbv zeta. fold (call m).
  rewrite !bind_emit. cbn [fst snd].
  match goal with
  | |- context [tryCatch (_, snd (tryCatch ?X ?inner)) ?outer] =>
      destruct (tryCatch_prefix X inner) as [t2 H2];
      match X with
      | bind ?m0 ?k0 => destruct (bind_prefix m0 k0) as [t1 H1]
      end
  end.
  match goal with
  | |- context [tryCatch ?W ?outer] =>
      destruct (tryCatch_prefix W outer) as [t3 H3]; rewrite H3
  end.
  cbn [fst]. rewrite H2, H1, Hcall. cbn [fst].
  exists ((tr ++ t1) ++ t2 ++ t3)%list.
  unfold Spec.modelEvents. simpl. rewrite <- !app_assoc. reflexivity.
Qed.

Let loop := tryModels JSON_parse backend content.




Lemma loop_starts (m : ModelConfig) (rest : list ModelConfig)
      (lastError : Thrown) :
  exists tr,
    fst (loop (m :: rest) lastError)
    = Spec.modelEvents m (Generate (configName m) content :: tr).
Proof.
  destruct (tryModel_starts m) as [tr Htr].
  unfold loop. cbn [tryModels].
  match goal with
  | |- context [bind ?m0 ?k0] => destruct (bind_prefix m0 k0) as [tr' H]
  end.
  rewrite H, Htr. exists (tr ++ tr')%list. reflexivity.
Qed.

End Fallback.

Section Normalize.
Import GeminiService.

Lemma normalizeError_silent (t : Thrown) : fst (normalizeError t) = [].
Proof.
  unfold normalizeError. destruct (hasCode "INVALID_DOCUMENT" t); [reflexivity|].
  destruct t as [e| |]; unfold messageOf, bind, ret, throw; simpl;
    try reflexivity;
    repeat match goal with
           | |- context [if ?b then _ else _] => destruct b
           end; reflexivity.
Qed.


End Normalize.

Section FallbackRun.
Import DocumentValidation.
Import PdfTextExtractor.
Import GeminiService.

Variable JSON_parse : string -> JsValue + string.
Variable prompt : string.
Variable API_KEY : option string.
Variable backend : string -> Content -> Z -> Outcome.
Variables syllabusFile pyqFile : File.
Variables syllabusURL pyqURL : string.

Hypothesis gate_passed :
  passed (validateDocumentContent (combinedText syllabusFile pyqFile)) = true.
Hypothesis syllabus_read : dataURL syllabusFile = Some syllabusURL.
Hypothesis pyq_read : dataURL pyqFile = Some pyqURL.
Hypothesis key_set : getGenAI API_KEY = ret tt.

Let content : Content :=
  {| text := prompt;
     syllabusData := {| data := secondPiece syllabusURL;
                        mimeType := type syllabusFile |};
     pyqData := {| data := secondPiece pyqURL; mimeType := type pyqFile |} |}.

(** Past the gate, the run is the loop over the models under the last
    handler. *)
Lemma run_is_loop :
  analyzeExamStrategy JSON_parse prompt API_KEY backend syllabusFile pyqFile
  = tryCatch
      (bind (emit (Progress "Step 1: Extracting PDFs..."))
            (fun _ => tryModels JSON_parse backend content modelsToTry
                                ThrownUndefined))
      normalizeError.
Proof.
  unfold analyzeExamStrategy. cbv zeta. rewrite gate_passed. cbn [negb].
  unfold fileToBase64. rewrite syllabus_read, pyq_read, key_set.
  rewrite !bind_ret. reflexivity.
Qed.



End FallbackRun.

Section FallbackClaim.
Import DocumentValidation.
Import PdfTextExtractor.
Import GeminiService.


End FallbackClaim.

Section FallbackExamples.
Import DocumentValidation.
Import PdfTextExtractor.
Import GeminiService.



(** A file whose extraction fails counts as empty text: with a question
    paper next to it the gate passes and the model is called. *)
Example extraction_failure_tolerated :
  extractTextFromPdf Examples.scanned 4000 = None
  /\ combinedText Examples.scanned Examples.questionPaper
     = String "010" "End Semester Exam Question 1 (10 marks)" ++ String "010" ""
  /\ Spec.modelsCalled
       (fst (analyzeExamStrategy JsonReference.parse "prompt" (Some "key")
               (Examples.uniform (Resolved Examples.oneTopic))
               Examples.scanned Examples.questionPaper))
     = ["gemini-3-flash-preview"].
Proof. repeat split; vm_compute; reflexivity. Qed.

End FallbackExamples.

(** ** The response interpreter *)

Section Interpreter.
Import GeminiService.

Variable JSON_parse : string -> JsValue + string.

Lemma rejectionOf_text (analysis : JsValue) (r : string) :
  Spec.reasonText analysis = Some r ->
  rejectionOf analysis
  = invalidDocument (if truthy r then r else unrelatedMessage) (detectedLabel r).
Proof.
  unfold Spec.reasonText, rejectionOf.
  destruct analysis as [| | | |items|fields]; try (intros [= <-]; reflexivity).
  destruct (getField "reason" fields) as [v|]; [|intros [= <-]; reflexivity].
  destruct v as [|b|q|t|items'|fields']; simpl;
    try (intros [= <-]; reflexivity); try discriminate.
  - destruct b; [discriminate | intros [= <-]; reflexivity].
  - destruct (Qeq_bool q 0); simpl; [intros [= <-]; reflexivity | discriminate].
  - intros [= <-]. destruct (truthy t) eqn:Ht; [reflexivity|].
    destruct t; [reflexivity | discriminate].
Qed.

(** A rejection with a textual reason, parsed at once: the error carries
    the code and the label, and it is what the interpreter throws. *)
Lemma processResponse_rejection (text : string) (analysis : JsValue) (r : string) :
  let jsonText := match fencedBlock text with
                  | Some inner => inner
                  | None => text
                  end in
  JSON_parse (trim jsonText) = inl analysis ->
  isRejection analysis = true ->
  Spec.reasonText analysis = Some r ->
  processResponse JSON_parse (ResponseText text)
  = Throw (ThrownError
             (invalidDocument (if truthy r then r else unrelatedMessage)
                              (detectedLabel r))).
Proof.
  intros jsonText Hparse Hrej Hreason.
  unfold processResponse. fold jsonText. unfold parseAndCheck.
  rewrite Hparse, Hrej, (rejectionOf_text analysis r Hreason). reflexivity.
Qed.

(** The same on the recovery path, after a failed first parse. *)
Lemma processResponse_rejection_recovered
      (text msg jsonObject : string) (analysis : JsValue) (r : string) :
  let jsonText := match fencedBlock text with
                  | Some inner => inner
                  | None => text
                  end in
  JSON_parse (trim jsonText) = inr msg ->
  braceBlock jsonText = Some jsonObject ->
  JSON_parse jsonObject = inl analysis ->
  isRejection analysis = true ->
  Spec.reasonText analysis = Some r ->
  processResponse JSON_parse (ResponseText text)
  = Throw (ThrownError
             (invalidDocument (if truthy r then r else unrelatedMessage)
                              (detectedLabel r))).
Proof.
  intros jsonText Hfail Hbrace Hparse Hrej Hreason.
  unfold processResponse. fold jsonText. unfold parseAndCheck.
  rewrite Hfail. cbn [hasCode syntaxError code]. rewrite Hbrace, Hparse, Hrej.
  rewrite (rejectionOf_text analysis r Hreason). reflexivity.
Qed.

(** A rejection whose reason is truthy and not text: both parses end in
    the [TypeError] of [match], and the interpreter reports a parse
    failure. *)
Lemma processResponse_rejection_lost
      (text jsonObject : string) (analysis : JsValue) :
  let jsonText := match fencedBlock text with
                  | Some inner => inner
                  | None => text
                  end in
  JSON_parse (trim jsonText) = inl analysis ->
  braceBlock jsonText = Some jsonObject ->
  JSON_parse jsonObject = inl analysis ->
  isRejection analysis = true ->
  Spec.reasonText analysis = None ->
  processResponse JSON_parse (ResponseText text) = Throw (ThrownError parseFailure).
Proof.
  intros jsonText Hparse Hbrace Hparse' Hrej Hreason.
  assert (Htype : rejectionOf analysis
                  = typeError "(analysis.reason || '').match is not a function").
  { unfold Spec.reasonText in Hreason. unfold rejectionOf.
    destruct analysis as [| | | |items|fields]; try discriminate.
    destruct (getField "reason" fields) as [v|]; [|discriminate].
    destruct v; try discriminate; destruct (truthyValue _); try discriminate;
      reflexivity. }
  unfold processResponse. fold jsonText. unfold parseAndCheck.
  rewrite Hparse, Hrej, Htype. cbn [hasCode typeError code].
  rewrite Hbrace, Hparse', Hrej, Htype. reflexivity.
Qed.

End Interpreter.

(** C5, on the code.  The rejection
    {"error":"INVALID_DOCUMENT","reason":"... (detected: Train Ticket)"}
    is thrown with the code INVALID_DOCUMENT and the label "Train
    Ticket"; without the pattern the label is the generic one.  The
    rejection {"error":"INVALID_DOCUMENT","reason":42} carries the
    sentinel as well, and the interpreter reports it as a parse
    failure, an error without the code. *)
Theorem processResponse_sentinel :
  let interpret text :=
    GeminiService.processResponse JsonReference.parse
      (GeminiService.ResponseText (JsonReference.quoted text)) in
  interpret "{'error':'INVALID_DOCUMENT','reason':'... (detected: Train Ticket)'}"
  = GeminiService.Throw (GeminiService.ThrownError
      (GeminiService.invalidDocument "... (detected: Train Ticket)" "Train Ticket"))
  /\ interpret "{'error':'INVALID_DOCUMENT','reason':'not a syllabus'}"
     = GeminiService.Throw (GeminiService.ThrownError
         (GeminiService.invalidDocument "not a syllabus" "non-academic document"))
  /\ interpret "Sorry. {'error':'INVALID_DOCUMENT','reason':'(detected: Invoice)'} Bye."
     = GeminiService.Throw (GeminiService.ThrownError
         (GeminiService.invalidDocument "(detected: Invoice)" "Invoice"))
  /\ (exists fields,
        JsonReference.parse
          (JsonReference.quoted "{'error':'INVALID_DOCUMENT','reason':42}")
        = inl (GeminiService.JObject fields)
        /\ GeminiService.getField "error" fields
           = Some (GeminiService.JString "INVALID_DOCUMENT"))
  /\ interpret "{'error':'INVALID_DOCUMENT','reason':42}"
     = GeminiService.Throw (GeminiService.ThrownError GeminiService.parseFailure)
  /\ GeminiService.hasCode "INVALID_DOCUMENT"
       (GeminiService.ThrownError GeminiService.parseFailure) = false.
Proof.
  cbv zeta. repeat split; try (vm_compute; reflexivity).
  eexists. split; vm_compute; reflexivity.
Qed.

(** ** The upload gate *)

Section UploadGate.
Import DocumentValidation.
Import PdfTextExtractor.
Import PDFDropzone.

(** C8.  For a selected file named [*.pdf]: when the quick check of the
    extracted prefix fails, the file is held as pending and the warning
    is shown, the slot being left as it was; confirming accepts that
    file as it is, cancelling empties the slot, and either closes the
    warning.  When the extraction throws, the file is accepted at once
    and no warning is shown. *)
Theorem validateAndSetFile_gate (selected : File) (st : State) :
  endsWith ".pdf" (toLowerCase (name selected)) = true ->
  let st' := validateAndSetFile (Some selected) st in
  (forall text,
      extractTextFromPdf selected 1500 = Some text ->
      hasMinimumAcademicKeywords text 1000 2 = false ->
      (pendingFile st' = Some selected
       /\ showAcademicWarning st' = true
       /\ file st' = file st
       /\ render st' = Warning selected)
      /\ (file (handleConfirmAnyway st') = Some selected
          /\ pendingFile (handleConfirmAnyway st') = None
          /\ render (handleConfirmAnyway st') = Ready selected)
      /\ (file (handleCancelWarning st') = None
          /\ pendingFile (handleCancelWarning st') = None
          /\ render (handleCancelWarning st') = Empty))
  /\ (extractTextFromPdf selected 1500 = None ->
      file st' = Some selected
      /\ pendingFile st' = None
      /\ showAcademicWarning st' = false
      /\ render st' = Ready selected).
Proof.
  intros Hpdf st'. subst st'. unfold validateAndSetFile.
  rewrite Hpdf. cbn [negb]. split.
  - intros text Hextract Hcheck. rewrite Hextract. cbv zeta. rewrite Hcheck.
    repeat split; reflexivity.
  - intros Hextract. rewrite Hextract. repeat split; reflexivity.
Qed.

(** A receipt dropped on a slot that already holds a syllabus, and a
    file without a text layer dropped on an empty slot. *)
Lemma validateAndSetFile_gate_witness :
  let held := onFileSelect (Some Examples.syllabus) initial in
  let warned := validateAndSetFile (Some Examples.receipt) held in
  (render warned = Warning Examples.receipt
   /\ file warned = Some Examples.syllabus
   /\ render (handleConfirmAnyway warned) = Ready Examples.receipt
   /\ render (handleCancelWarning warned) = Empty)
  /\ render (validateAndSetFile (Some Examples.scanned) initial)
     = Ready Examples.scanned.
Proof.
  cbv zeta. split.
  - pose proof (proj1 (validateAndSetFile_gate Examples.receipt
                         (onFileSelect (Some Examples.syllabus) initial)
                         eq_refl)
                  "total amount due: $42.00 thank you for riding
"%string eq_refl eq_refl) as (Hheld & Hconfirm & Hcancel).
    cbv zeta in Hheld, Hconfirm, Hcancel.
    destruct Hheld as (_ & _ & Hfile & Hrender).
    destruct Hconfirm as (_ & _ & Hready).
    destruct Hcancel as (_ & _ & Hempty).
    repeat split; assumption.
  - apply (proj2 (validateAndSetFile_gate Examples.scanned initial eq_refl)
                 eq_refl).
Defined.

End UploadGate.

(** ** The markdown export *)

Section ExportFacts.
Import MarkdownExport.



Lemma insert_perm (a : Topic) (l : list Topic) :
  Permutation (a :: l) (insert a l).
Proof.
  induction l as [|b l IH]; simpl; [reflexivity|].
  destruct (confidence b - confidence a <=? 0)%Z; [reflexivity|].
  rewrite perm_swap. apply perm_skip, IH.
Qed.


Lemma insert_sorted (a : Topic) (l : list Topic) :
  StronglySorted Spec.byConfidence l -> StronglySorted Spec.byConfidence (insert a l).
Proof.
  induction l as [|b l IH]; intros Hs; simpl.
  - constructor; constructor.
  - inversion Hs as [|? ? Hl Hb]; subst.
    destruct (Z.leb_spec (confidence b - confidence a) 0) as [Hle|Hgt].
    + constructor; [exact Hs|]. constructor; [unfold Spec.byConfidence; lia|].
      eapply Forall_impl; [|exact Hb]. unfold Spec.byConfidence. intros x Hx. lia.
    + constructor; [apply IH, Hl|].
      eapply Permutation_Forall; [apply insert_perm|].
      constructor; [unfold Spec.byConfidence; lia | exact Hb].
Qed.

Lemma sort_sorted (l : list Topic) : StronglySorted Spec.byConfidence (sort l).
Proof.
  induction l as [|a l IH]; simpl; [constructor | apply insert_sorted, IH].
Qed.






End ExportFacts.

(* ================================================================== *)
(** * Further properties of the code *)
(* ================================================================== *)

(** ** Text extraction *)

Section Extraction.
Import PdfTextExtractor.

Lemma substring_append_long (n : nat) (a b : string) :
  n <= String.length a -> substring 0 n (a ++ b) = substring 0 n a.
Proof.
  revert n; induction a as [|c a IH]; intros n H.
  - simpl in H. assert (n = 0) by lia. subst. destruct b; reflexivity.
  - destruct n; [reflexivity|]. simpl. rewrite IH by (simpl in H; lia).
    reflexivity.
Qed.

Lemma readPages_extends (pages : list (option (list string))) (maxChars : Z) :
  forall acc text,
    readPages pages maxChars acc = Some text -> exists more, text = acc ++ more.
Proof.
  induction pages as [|page rest IH]; intros acc text H; simpl in H.
  - injection H as <-. exists "". symmetry. apply append_nil_r.
  - destruct (length acc <? maxChars)%Z.
    + destruct page as [items|]; [|discriminate].
      destruct (maxChars <=? _)%Z.
      * injection H as <-. eexists. reflexivity.
      * destruct (IH _ _ H) as [more ->]. eexists.
        rewrite append_assoc. reflexivity.
    + injection H as <-. exists "". symmetry. apply append_nil_r.
Qed.

Lemma readPages_readable (pages : list (list string)) (maxChars : Z) :
  (0 <= maxChars)%Z ->
  forall acc,
  exists text,
    readPages (map Some pages) maxChars acc = Some text
    /\ substring 0 (Z.to_nat maxChars) text
       = substring 0 (Z.to_nat maxChars) (acc ++ Notions.wholeText pages).
Proof.
  intros Hn. induction pages as [|items rest IH]; intros acc; simpl.
  - exists acc. rewrite append_nil_r. auto.
  - unfold length at 1. destruct (Z.ltb_spec (Z.of_nat (String.length acc)) maxChars) as [Hlt|Hge].
    + fold (Notions.pageText items).
      destruct (Z.leb_spec maxChars (length (acc ++ Notions.pageText items)))
        as [Hfull|Hshort].
      * exists (acc ++ Notions.pageText items). split; [reflexivity|].
        rewrite <- append_assoc. symmetry. apply substring_append_long.
        unfold length in Hfull. lia.
      * destruct (IH (acc ++ Notions.pageText items)) as (text & Hread & Hsub).
        exists text. split; [exact Hread|].
        rewrite Hsub, append_assoc. reflexivity.
    + exists acc. split; [reflexivity|].
      symmetry. apply substring_append_long. lia.
Qed.

(** X1.  When the decoder reads every page, extraction with a budget
    [maxChars] (not negative) yields exactly the first [maxChars]
    characters of the whole document text, however many pages the loop
    went through; in particular it is never longer than the budget. *)
Theorem extractTextFromPdf_whole
        (file : File) (pages : list (list string)) (maxChars : Z) :
  (0 <= maxChars)%Z ->
  pdf file = Some (map Some pages) ->
  extractTextFromPdf file maxChars
  = Some (substring 0 (Z.to_nat maxChars) (Notions.wholeText pages))
  /\ (Z.of_nat (String.length
                  (substring 0 (Z.to_nat maxChars) (Notions.wholeText pages)))
      <= maxChars)%Z.
Proof.
  intros Hn Hpdf. split.
  - unfold extractTextFromPdf. rewrite Hpdf.
    destruct (readPages_readable pages maxChars Hn "") as (text & Hread & Hsub).
    rewrite Hread, slice_first by exact Hn. rewrite Hsub. reflexivity.
  - pose proof (substring_length 0 (Z.to_nat maxChars) (Notions.wholeText pages)).
    lia.
Qed.

Lemma extractTextFromPdf_whole_witness :
  extractTextFromPdf Examples.syllabus 20 = Some "B.Tech Syllabus Seme".
Proof.
  refine (eq_trans
            (proj1 (extractTextFromPdf_whole Examples.syllabus
                      [["B.Tech Syllabus"; "Semester 3"];
                       ["Unit 1: Graphs"; "Unit 2: Trees"; "Credit: 4"]]
                      20 _ eq_refl)) _).
  - lia.
  - reflexivity.
Defined.

Lemma readPages_budget (pages : list (option (list string))) (small large : Z) :
  (0 <= small <= large)%Z ->
  forall acc text,
    readPages pages large acc = Some text ->
    exists text',
      readPages pages small acc = Some text'
      /\ substring 0 (Z.to_nat small) text' = substring 0 (Z.to_nat small) text.
Proof.
  intros Hb. induction pages as [|page rest IH]; intros acc text H.
  - simpl in *. exists acc. injection H as <-. auto.
  - pose proof (readPages_extends _ _ _ _ H) as [more Hmore].
    simpl in H. simpl.
    destruct (Z.ltb_spec (length acc) small) as [Hs|Hs].
    + assert (Hl : (length acc <? large)%Z = true) by (apply Z.ltb_lt; lia).
      rewrite Hl in H. destruct page as [items|]; [|discriminate].
      set (acc' := acc ++ join " " (filter truthy items) ++ String "010" "") in *.
      destruct (Z.leb_spec small (length acc')) as [Hfull|Hshort].
      * exists acc'. split; [reflexivity|].
        destruct (Z.leb_spec large (length acc')).
        -- injection H as <-. reflexivity.
        -- destruct (readPages_extends _ _ _ _ H) as [more' ->].
           symmetry. apply substring_append_long. unfold length in Hfull. lia.
      * assert (Hl' : (large <=? length acc')%Z = false)
          by (apply Z.leb_gt; lia).
        rewrite Hl' in H. apply IH, H.
    + exists acc. split; [reflexivity|]. subst text.
      symmetry. apply substring_append_long. unfold length in Hs. lia.
Qed.

Lemma extraction_prefix (file : File) (small large : Z) (text : string) :
  (0 <= small <= large)%Z ->
  extractTextFromPdf file large = Some text ->
  extractTextFromPdf file small = Some (substring 0 (Z.to_nat small) text).
Proof.
  intros Hb. unfold extractTextFromPdf.
  destruct (pdf file) as [pages|]; [|discriminate].
  destruct (readPages pages large "") as [full|] eqn:Hlarge; [|discriminate].
  intros [= <-].
  destruct (readPages_budget pages small large Hb "" full Hlarge)
    as (text' & Hsmall & Hsub).
  rewrite Hsmall, !slice_first by lia.
  rewrite Hsub, (substring_substring 0 (Z.to_nat small) (Z.to_nat large)) by lia.
  reflexivity.
Qed.

(** X2.  Budgets agree: if extraction succeeds with a budget, it
    succeeds with every smaller budget (not negative), and the smaller
    result is the prefix of the larger one.  A page the decoder cannot
    read only matters to the budgets that reach it. *)
Theorem extractTextFromPdf_budgets
        (file : File) (small large : Z) (text : string) :
  (0 <= small <= large)%Z ->
  extractTextFromPdf file large = Some text ->
  extractTextFromPdf file small = Some (substring 0 (Z.to_nat small) text).
Proof. apply extraction_prefix. Qed.

Lemma extractTextFromPdf_budgets_witness :
  extractTextFromPdf Examples.torn 3 = Some "abc"
  /\ extractTextFromPdf Examples.torn 50 = None.
Proof.
  split; [|reflexivity].
  refine (extractTextFromPdf_budgets Examples.torn 3 5 "abcde" _ _);
    [lia | reflexivity].
Defined.

End Extraction.

(** ** More on the keyword heuristics *)

Section KeywordLaws.
Import DocumentValidation.

Lemma includes_append (kw a b : string) :
  includes kw a = true -> includes kw (a ++ b) = true.
Proof.
  rewrite !includes_spec. intros (pre & post & ->).
  exists pre, (post ++ b). rewrite !append_assoc. reflexivity.
Qed.

Lemma foundIn_prefix (s : string) (n n' : nat) :
  n <= n' ->
  incl (Spec.foundIn (substring 0 n s)) (Spec.foundIn (substring 0 n' s)).
Proof.
  intros Hle kw. unfold Spec.foundIn. rewrite !filter_In.
  intros [Hin Hinc]. split; [exact Hin|].
  destruct (substring_prefix n (substring 0 n' s)) as [rest Hrest].
  rewrite (substring_substring 0 n n' s) in Hrest by lia.
  rewrite Hrest, toLowerCase_append. apply includes_append, Hinc.
Qed.

(** X3.  The quick check is monotone: a text that passes on its first
    [n] characters with threshold [k] passes on every longer prefix and
    with every lower threshold. *)
Theorem hasMinimumAcademicKeywords_monotone
        (text : string) (n n' k k' : Z) :
  (0 <= n <= n')%Z -> (k' <= k)%Z ->
  hasMinimumAcademicKeywords text n k = true ->
  hasMinimumAcademicKeywords text n' k' = true.
Proof.
  intros Hn Hk. unfold hasMinimumAcademicKeywords.
  replace (if truthy text then text else "") with text
    by (destruct text; reflexivity).
  rewrite !slice_first, !count_foundIn by lia.
  rewrite !Z.leb_le. intros H.
  assert (Hlen : List.length (Spec.foundIn (substring 0 (Z.to_nat n) text))
                 <= List.length (Spec.foundIn (substring 0 (Z.to_nat n') text))).
  { apply NoDup_incl_length.
    - apply NoDup_filter, keywords_NoDup.
    - apply foundIn_prefix. lia. }
  lia.
Qed.

Lemma hasMinimumAcademicKeywords_monotone_witness :
  hasMinimumAcademicKeywords "Syllabus, Unit 1: exam pattern" 1000 1 = true.
Proof.
  refine (hasMinimumAcademicKeywords_monotone
            "Syllabus, Unit 1: exam pattern" 14 1000 2 1 _ _ _);
    [lia | lia | reflexivity].
Defined.


End KeywordLaws.

(** ** The two gates together *)

Section TwoGates.
Import DocumentValidation.
Import PdfTextExtractor.
Import GeminiService.

Lemma substring_append_short (n : nat) (a b : string) :
  String.length a <= n ->
  substring 0 n (a ++ b) = a ++ substring 0 (n - String.length a) b.
Proof.
  revert n; induction a as [|c a IH]; intros n H.
  - simpl. rewrite Nat.sub_0_r. reflexivity.
  - destruct n; [simpl in H; lia|]. simpl. rewrite IH by (simpl in H; lia).
    reflexivity.
Qed.

Lemma foundIn_inside (small big pre post : string) :
  big = pre ++ small ++ post ->
  incl (Spec.foundIn small) (Spec.foundIn big).
Proof.
  intros -> kw. unfold Spec.foundIn. rewrite !filter_In.
  intros [Hin Hinc]. split; [exact Hin|].
  apply includes_spec in Hinc as (a & b & Hs).
  apply includes_spec. rewrite !toLowerCase_append, Hs.
  exists (toLowerCase pre ++ a), (b ++ toLowerCase post).
  rewrite !append_assoc. reflexivity.
Qed.

Lemma count_inside (small big pre post : string) :
  big = pre ++ small ++ post ->
  (count (countKeywordsInText small) <= count (countKeywordsInText big))%Z.
Proof.
  intros H. rewrite !count_foundIn. apply inj_le, NoDup_incl_length.
  - apply NoDup_filter, keywords_NoDup.
  - apply (foundIn_inside small big pre post H).
Qed.

(** The first 1000 characters of the text of either file lie inside the
    combined text. *)
Lemma sample_inside (syllabusFile pyqFile file : File) :
  file = syllabusFile \/ file = pyqFile ->
  exists pre post,
    combinedText syllabusFile pyqFile
    = pre ++ substring 0 (Z.to_nat 1000) (extractOrEmpty file) ++ post.
Proof.
  intros Hfile. unfold combinedText. rewrite slice_first by lia.
  pose proof (extractOrEmpty_capped syllabusFile) as Hs.
  pose proof (substring_length 0 (Z.to_nat 1000) (extractOrEmpty file)) as Hlen.
  destruct (substring_prefix (Z.to_nat 1000) (extractOrEmpty file)) as [rest Hrest].
  remember (substring 0 (Z.to_nat 1000) (extractOrEmpty file)) as small.
  destruct Hfile as [Hf | Hf]; rewrite Hf in Hrest.
  - exists "". rewrite Hrest, append_assoc.
    rewrite substring_append_short by lia. eexists. reflexivity.
  - exists (extractOrEmpty syllabusFile ++ String "010" "").
    rewrite Hrest.
    replace (extractOrEmpty syllabusFile ++ String "010" "" ++ small ++ rest)
      with ((extractOrEmpty syllabusFile ++ String "010" "" ++ small) ++ rest)
      by (rewrite !append_assoc; reflexivity).
    rewrite substring_append_short
      by (rewrite !length_append; simpl String.length; lia).
    eexists. rewrite !append_assoc. reflexivity.
Qed.

(** X5.  The soft gate carries over to the hard one: when a file passed
    the quick check of the upload gate (2 keywords in the first 1000
    characters of its 1500-character sample) and the orchestrator's
    extraction of that file succeeds, the combined text of the run has
    at least 2 distinct keywords, whichever of the two files it is. *)
Theorem quick_check_reaches_gate
        (syllabusFile pyqFile file : File) (sample text : string) :
  file = syllabusFile \/ file = pyqFile ->
  extractTextFromPdf file 1500 = Some sample ->
  hasMinimumAcademicKeywords sample 1000 2 = true ->
  extractTextFromPdf file 4000 = Some text ->
  (2 <= count (countKeywordsInText (combinedText syllabusFile pyqFile)))%Z.
Proof.
  intros Hfile Hsample Hquick Htext.
  pose proof (extraction_prefix file 1500 4000 text ltac:(lia) Htext) as Hprefix.
  assert (Heq : sample = substring 0 (Z.to_nat 1500) text) by congruence.
  subst sample. clear Hprefix Hsample.
  unfold hasMinimumAcademicKeywords in Hquick.
  replace (if truthy (substring 0 (Z.to_nat 1500) text)
           then substring 0 (Z.to_nat 1500) text else "")
    with (substring 0 (Z.to_nat 1500) text) in Hquick
    by (destruct (substring 0 (Z.to_nat 1500) text); reflexivity).
  rewrite slice_first in Hquick by lia.
  rewrite (substring_substring 0 (Z.to_nat 1000) (Z.to_nat 1500)) in Hquick by lia.
  apply Z.leb_le in Hquick.
  destruct (sample_inside syllabusFile pyqFile file Hfile) as (pre & post & Hin).
  unfold extractOrEmpty in Hin. rewrite Htext in Hin.
  pose proof (count_inside _ _ pre post Hin). lia.
Qed.

Lemma quick_check_reaches_gate_witness :
  (2 <= count (countKeywordsInText
                 (combinedText Examples.receipt Examples.questionPaper)))%Z.
Proof.
  refine (quick_check_reaches_gate Examples.receipt Examples.questionPaper
            Examples.questionPaper _ _ (or_intror eq_refl) eq_refl _ eq_refl).
  reflexivity.
Defined.

End TwoGates.

(** ** More on the retry loop *)

Section RetryLaws.
Import GeminiService.

Variable model : GenerativeModel.
Variable content : Content.
Variable maxRetries : Z.

(** Whatever the model does: the loop makes the attempts [attempt],
    [attempt + 1], ... up to some [k]-th of them, and completes with
    the settlement of the last one. *)
Lemma retryLoop_shape (remaining : nat) :
  forall (attempt : Z) (lastError : Thrown),
    (1 <= attempt)%Z ->
    exists k,
      k <= remaining
      /\ fst (retryLoop model content maxRetries remaining attempt lastError)
         = Spec.attemptsFrom model content maxRetries attempt k
      /\ match snd (retryLoop model content maxRetries remaining attempt lastError) with
         | Return response =>
             1 <= k
             /\ generateContent model content (attempt + Z.of_nat k - 1)
                = Resolved response
         | Throw t =>
             (k = 0 /\ remaining = 0 /\ t = lastError)
             \/ (1 <= k
                 /\ exists e, t = ThrownError e
                              /\ generateContent model content
                                                 (attempt + Z.of_nat k - 1)
                                 = Rejected e)
         end.
Proof.
  induction remaining as [|remaining IH]; intros attempt lastError Hattempt.
  - exists 0. cbn. split; [lia|]. split; [reflexivity|]. left. auto.
  - rewrite retryLoop_step by exact Hattempt.
    destruct (generateContent model content attempt) as [response|error] eqn:Hgen.
    + exists 1. unfold bind, ret. simpl. rewrite !app_nil_r.
      replace (attempt + 1 - 1)%Z with attempt by lia.
      repeat split; auto; lia.
    + assert (Hstop :
                exists k,
                  k <= S remaining
                  /\ fst (bind (Spec.attemptEvents model content maxRetries attempt,
                                Return tt)
                               (fun _ => throw (A := Response) (ThrownError error)))
                     = Spec.attemptsFrom model content maxRetries attempt k
                  /\ ((k = 0 /\ S remaining = 0 /\ ThrownError error = lastError)
                      \/ (1 <= k
                          /\ exists e, ThrownError error = ThrownError e
                                       /\ generateContent model content
                                            (attempt + Z.of_nat k - 1)
                                          = Rejected e))).
      { exists 1. unfold bind, throw. simpl. rewrite !app_nil_r.
        replace (attempt + 1 - 1)%Z with attempt by lia.
        split; [lia|]. split; [reflexivity|]. right. split; [lia|].
        exists error. auto. }
      destruct (isFatalMessage (errorMessage error)); [exact Hstop|].
      destruct (isRetryMessage (errorMessage error)); [|exact Hstop].
      clear Hstop.
      destruct (IH (attempt + 1)%Z (ThrownError error) ltac:(lia))
        as (k & Hk & Htrace & Hend).
      exists (S k). split; [lia|].
      unfold bind.
      destruct (retryLoop model content maxRetries remaining (attempt + 1)
                          (ThrownError error)) as [tr c].
      cbn [fst snd] in *. split; [cbn [Spec.attemptsFrom]; rewrite Htrace; reflexivity|].
      replace (attempt + Z.of_nat (S k) - 1)%Z
        with (attempt + 1 + Z.of_nat k - 1)%Z by lia.
      destruct c as [response|t].
      * destruct Hend as [Hk1 Hres]. split; [lia | exact Hres].
      * right. split; [lia|].
        destruct Hend as [(-> & _ & ->) | (Hk1 & e & -> & He)].
        -- exists error. split; [reflexivity|].
           replace (attempt + 1 + Z.of_nat 0 - 1)%Z with attempt by lia.
           exact Hgen.
        -- exists e. auto.
Qed.

End RetryLaws.

Section RetryBounds.
Import GeminiService.

(** X6.  For every model, the retry loop calls it [k] times with
    [k <= maxRetries] (no call when [maxRetries] is not positive), in
    the order attempt 1, 2, ..., [k], and completes with what the
    [k]-th call settled to: the response it resolved, or the error it
    was rejected with; without a call it throws [undefined]. *)
Theorem generateContentWithRetry_shape
        (model : GenerativeModel) (content : Content) (maxRetries : Z) :
  let run := generateContentWithRetry model content maxRetries in
  exists k,
    (Z.of_nat k <= Z.max 0 maxRetries)%Z
    /\ fst run = Spec.attemptsFrom model content maxRetries 1 k
    /\ Spec.attempts (fst run) = k
    /\ match snd run with
       | Return response =>
           1 <= k /\ generateContent model content (Z.of_nat k) = Resolved response
       | Throw t =>
           (k = 0 /\ (maxRetries <= 0)%Z /\ t = ThrownUndefined)
           \/ (1 <= k
               /\ exists e, t = ThrownError e
                            /\ generateContent model content (Z.of_nat k)
                               = Rejected e)
       end.
Proof.
  cbv zeta. unfold generateContentWithRetry.
  destruct (retryLoop_shape model content maxRetries (Z.to_nat maxRetries) 1
                            ThrownUndefined ltac:(lia))
    as (k & Hk & Htrace & Hend).
  exists k. split; [lia|]. split; [exact Htrace|].
  split; [rewrite Htrace; apply attempts_attemptsFrom|].
  replace (1 + Z.of_nat k - 1)%Z with (Z.of_nat k) in Hend by lia.
  destruct (snd (retryLoop model content maxRetries (Z.to_nat maxRetries) 1
                           ThrownUndefined)) as [response|t].
  - exact Hend.
  - destruct Hend as [(-> & Hzero & ->) | Hlast].
    + left. repeat split; auto. lia.
    + right. exact Hlast.
Qed.

Lemma sleeps_app (tr tr' : list Event) :
  Spec.sleeps (tr ++ tr') = (Spec.sleeps tr ++ Spec.sleeps tr')%list.
Proof.
  induction tr as [|e tr IH]; [reflexivity|].
  destruct e; simpl; rewrite IH; reflexivity.
Qed.

Lemma sleeps_attemptsFrom (model : GenerativeModel) (content : Content)
      (maxRetries first : Z) (n : nat) :
  Spec.sleeps (Spec.attemptsFrom model content maxRetries first n)
  = Notions.waitsFrom first n.
Proof.
  revert first; induction n as [|n IH]; intros first; [reflexivity|].
  cbn [Spec.attemptsFrom Notions.waitsFrom]. rewrite sleeps_app, IH.
  unfold Spec.attemptEvents. destruct (2 <=? first)%Z; reflexivity.
Qed.

Lemma waitsFrom_bounds (n : nat) :
  forall first floor,
    (1 <= first)%Z ->
    (floor <= Z.min (1000 * 2 ^ (Z.max first 2 - 2)) 10000)%Z ->
    Forall (fun ms => (1000 <= ms <= 10000)%Z) (Notions.waitsFrom first n)
    /\ StronglySorted Z.le (Notions.waitsFrom first n)
    /\ Forall (fun ms => (floor <= ms)%Z) (Notions.waitsFrom first n)
    /\ List.length (Notions.waitsFrom first n)
       = n - (if (2 <=? first)%Z then 0 else 1).
Proof.
  induction n as [|n IH]; intros first floor Hfirst Hfloor.
  - simpl. repeat split; constructor.
  - cbn [Notions.waitsFrom].
    destruct (Z.leb_spec 2 first) as [H2|H2].
    + rewrite Z.max_l in Hfloor by lia.
      set (here := Z.min (1000 * 2 ^ (first - 2)) 10000) in *.
      assert (Hpow : (1 <= 2 ^ (first - 2))%Z)
        by (apply (Z.pow_le_mono_r 2 0); lia).
      assert (Hhere : (1000 <= here <= 10000)%Z) by (unfold here; lia).
      assert (Hnext : (here <= Z.min (1000 * 2 ^ (Z.max (first + 1) 2 - 2)) 10000)%Z).
      { unfold here. rewrite Z.max_l by lia.
        assert ((2 ^ (first - 2) <= 2 ^ (first + 1 - 2))%Z)
          by (apply Z.pow_le_mono_r; lia).
        lia. }
      destruct (IH (first + 1)%Z here ltac:(lia) Hnext) as (Hb & Hs & Hf & Hl).
      simpl. repeat split.
      * constructor; assumption.
      * constructor; assumption.
      * constructor; [lia|].
        eapply Forall_impl; [|exact Hf]. intros ms Hms. simpl in Hms. lia.
      * rewrite Hl. destruct (Z.leb_spec 2 (first + 1)); lia.
    + assert (first = 1%Z) by lia. subst first.
      destruct (IH 2%Z floor ltac:(lia) Hfloor) as (Hb & Hs & Hf & Hl).
      simpl. rewrite Hl. simpl. repeat split; try assumption; lia.
Qed.

Lemma waitsFrom_formula (n : nat) :
  forall first,
    (2 <= first)%Z ->
    Notions.waitsFrom first n
    = map (fun i => Z.min (1000 * 2 ^ (first - 2 + Z.of_nat i)) 10000) (seq 0 n).
Proof.
  induction n as [|n IH]; intros first Hfirst; [reflexivity|].
  cbn [Notions.waitsFrom seq map].
  assert (H2 : (2 <=? first)%Z = true) by (apply Z.leb_le; exact Hfirst).
  rewrite H2. cbn [app]. rewrite IH by lia.
  rewrite <- seq_shift, map_map. f_equal.
  - rewrite Z.add_0_r. reflexivity.
  - apply map_ext. intros i. do 3 f_equal. lia.
Qed.

(** X7.  For every model, the waits of the retry loop: there is one
    before each attempt but the first, so one fewer than the calls;
    the wait before the retry number i (counting from 1) lasts
    min(1000 * 2^(i-1), 10000) ms, so 1000, 2000, 4000, 8000 and from
    then on 10000; each lasts between 1000 and 10000 ms; and they
    never shrink from one retry to the next. *)
Theorem generateContentWithRetry_waits
        (model : GenerativeModel) (content : Content) (maxRetries : Z) :
  let trace := fst (generateContentWithRetry model content maxRetries) in
  List.length (Spec.sleeps trace) = Spec.attempts trace - 1
  /\ Spec.sleeps trace
     = map (fun i => Z.min (1000 * 2 ^ Z.of_nat i) 10000)
           (seq 0 (Spec.attempts trace - 1))
  /\ Forall (fun ms => (1000 <= ms <= 10000)%Z) (Spec.sleeps trace)
  /\ StronglySorted Z.le (Spec.sleeps trace).
Proof.
  cbv zeta. unfold generateContentWithRetry.
  destruct (retryLoop_shape model content maxRetries (Z.to_nat maxRetries) 1
                            ThrownUndefined ltac:(lia))
    as (k & _ & Htrace & _).
  rewrite Htrace, sleeps_attemptsFrom, attempts_attemptsFrom.
  destruct (waitsFrom_bounds k 1 0 ltac:(lia) ltac:(simpl; lia))
    as (Hb & Hs & _ & Hl).
  rewrite Hl. simpl. split; [reflexivity|]. split; [|auto].
  destruct k as [|k]; [reflexivity|].
  cbn [Notions.waitsFrom app]. change (2 <=? 1)%Z with false. cbn [app].
  change (1 + 1)%Z with 2%Z. rewrite (waitsFrom_formula k 2 ltac:(lia)).
  replace (S k - 1) with k by lia.
  apply map_ext. intros i. reflexivity.
Qed.

End RetryBounds.

Section UnknownErrors.
Import GeminiService.

Lemma fatal_string (m : string) :
  Spec.containsAny Spec.fatalSubstrings m <-> isFatalMessage m = true.
Proof.
  unfold Spec.containsAny, Spec.fatalSubstrings, isFatalMessage, Spec.contains.
  rewrite !orb_true_iff, !includes_spec. simpl. split.
  - intros (sub & Hin & H). intuition (subst; auto).
  - intros H. decompose [or] H; eauto 10.
Qed.

Lemma unknown_decide (e : JsError) :
  isFatalMessage (errorMessage e) = false ->
  isRetryMessage (errorMessage e) = false ->
  Notions.unknown e.
Proof.
  intros Hf Hr. split; intros H.
  - apply fatal_string in H. congruence.
  - apply transient_message in H. congruence.
Qed.

(** X8.  An error whose message names neither a fatal nor a transient
    condition is not retried either: the attempt that raised it is the
    last, and the error is thrown as it is. *)
Theorem generateContentWithRetry_unknown
        (model : GenerativeModel) (content : Content) (maxRetries : Z)
        (failures : list JsError) (e : JsError) :
  Forall Spec.transient failures ->
  Spec.failsWith model content 1 failures ->
  (Z.of_nat (List.length failures) < maxRetries)%Z ->
  generateContent model content (Z.of_nat (List.length failures) + 1)
  = Rejected e ->
  Notions.unknown e ->
  let run := generateContentWithRetry model content maxRetries in
  run = (Spec.attemptsFrom model content maxRetries 1 (List.length failures + 1),
         Throw (ThrownError e))
  /\ Spec.attempts (fst run) = List.length failures + 1.
Proof.
  intros Htransient Hfails Hlt Hrej [Hnf Hnr] run.
  assert (Hf : isFatalMessage (errorMessage e) = false).
  { destruct (isFatalMessage (errorMessage e)) eqn:H; [|reflexivity].
    exfalso. apply Hnf, fatal_string, H. }
  assert (Hr : isRetryMessage (errorMessage e) = false).
  { destruct (isRetryMessage (errorMessage e)) eqn:H; [|reflexivity].
    exfalso. apply Hnr, transient_message, H. }
  assert (Hrun : run = (Spec.attemptsFrom model content maxRetries 1
                                           (List.length failures + 1),
                        Throw (ThrownError e))).
  { subst run. unfold generateContentWithRetry.
    replace (Z.to_nat maxRetries)
      with (List.length failures + S (Z.to_nat maxRetries - List.length failures - 1))
      by lia.
    rewrite retryLoop_failures by (auto; lia).
    rewrite retryLoop_step by lia.
    rewrite (Z.add_comm 1), Hrej, Hf, Hr.
    rewrite Nat.add_1_r, attemptsFrom_snoc.
    rewrite (Z.add_comm 1). unfold bind, throw. simpl.
    rewrite app_nil_r. reflexivity. }
  rewrite Hrun. split; [reflexivity|]. apply attempts_attemptsFrom.
Qed.

(** A connection reset after one overloaded answer. *)
Lemma generateContentWithRetry_unknown_witness :
  let model := {| modelName := "m";
                  generateContent := fun _ call =>
                    if (call =? 1)%Z then Rejected Examples.overloaded
                    else Rejected Notions.serverFault |} in
  generateContentWithRetry model Examples.request 3
  = ([Generate "m" Examples.request;
      Progress "Retrying... (Attempt 2/3)"; Sleep 1000;
      Generate "m" Examples.request],
     Throw (ThrownError Notions.serverFault)).
Proof.
  cbv zeta.
  refine (proj1 (generateContentWithRetry_unknown _ Examples.request 3
                   [Examples.overloaded] Notions.serverFault _ _ _ _ _)).
  - constructor; [apply transient_decide; reflexivity | constructor].
  - intros [|i] e Hi; [injection Hi as <-; reflexivity | destruct i; discriminate].
  - simpl. lia.
  - reflexivity.
  - apply unknown_decide; reflexivity.
Defined.

End UnknownErrors.

(** ** More on the response interpreter *)

Section Fences.
Import GeminiService.

Lemma dropWhiteSpace_all (w rest : string) :
  Notions.allWhiteSpace w = true ->
  dropWhiteSpace (w ++ rest) = dropWhiteSpace rest.
Proof.
  induction w as [|c w IH]; intros H; [reflexivity|].
  simpl in H. apply andb_true_iff in H as [Hc Hw].
  simpl. rewrite Hc. apply IH, Hw.
Qed.

Lemma dropWhiteSpace_length (s : string) :
  String.length (dropWhiteSpace s) <= String.length s.
Proof.
  induction s as [|c s IH]; simpl; [lia|].
  destruct (isWhiteSpace c); simpl; lia.
Qed.

Lemma trimEnd_length (s : string) :
  String.length (trimEnd s) <= String.length s.
Proof.
  induction s as [|c s IH]; simpl; [lia|].
  destruct (trimEnd s); [destruct (isWhiteSpace c)|]; simpl in *; lia.
Qed.

Lemma dropWhiteSpace_fixed (s : string) :
  String.length (dropWhiteSpace s) = String.length s -> dropWhiteSpace s = s.
Proof.
  destruct s as [|c s]; [reflexivity|]. simpl.
  destruct (isWhiteSpace c); [|reflexivity].
  intros H. pose proof (dropWhiteSpace_length s). simpl in H. lia.
Qed.

Lemma trim_fixed (p : string) :
  trim p = p -> dropWhiteSpace p = p /\ trimEnd p = p.
Proof.
  unfold trim. intros H.
  assert (Hd : dropWhiteSpace p = p).
  { apply dropWhiteSpace_fixed.
    pose proof (trimEnd_length (dropWhiteSpace p)) as H1.
    pose proof (dropWhiteSpace_length p) as H2.
    rewrite H in H1. lia. }
  rewrite Hd in H. auto.
Qed.

(** The first unit of a text that [trimEnd] leaves alone, when the text
    is not empty, survives the removal of leading white space in any
    extension, unless the text starts with white space. *)
Lemma trimEnd_tail (c : ascii) (p : string) :
  trimEnd (String c p) = String c p -> trimEnd p = p.
Proof.
  simpl. destruct (trimEnd p) as [|d t] eqn:Ht.
  - destruct (isWhiteSpace c); [discriminate|]. intros [= <-]. reflexivity.
  - intros [= <-]. reflexivity.
Qed.

Lemma prefix_cons (k c : ascii) (kw s : string) :
  String.prefix (String k kw) (String c s) = Ascii.eqb k c && String.prefix kw s.
Proof.
  cbn [String.prefix]. destruct (ascii_dec k c) as [->|H].
  - rewrite Ascii.eqb_refl. reflexivity.
  - apply Ascii.eqb_neq in H. rewrite H. reflexivity.
Qed.

Lemma prefix_other (c : ascii) (kw s : string) :
  negb (Ascii.eqb c "`") = true ->
  String.prefix (String "`" kw) (String c s) = false.
Proof.
  intros H. rewrite prefix_cons, Ascii.eqb_sym.
  apply negb_true_iff in H. rewrite H. reflexivity.
Qed.

Lemma prefix_here (a b : string) : String.prefix a (a ++ b) = true.
Proof. apply prefix_spec. exists b. reflexivity. Qed.

Lemma drop_here (a b : string) : drop (String.length a) (a ++ b) = b.
Proof. induction a; simpl; auto. Qed.

Lemma solid_head (p rest : string) :
  p <> "" -> trimEnd p = p -> Notions.avoids "`" p = true ->
  String.prefix "```" (dropWhiteSpace (p ++ rest)) = false.
Proof.
  induction p as [|c p IH]; intros Hne Htrim Hno; [congruence|].
  simpl in Hno. apply andb_true_iff in Hno as [Hc Hp].
  cbn [append dropWhiteSpace].
  destruct (isWhiteSpace c) eqn:Hws.
  - apply IH; [|apply (trimEnd_tail c), Htrim|exact Hp].
    intros ->. simpl in Htrim. rewrite Hws in Htrim. discriminate.
  - apply prefix_other, Hc.
Qed.

Lemma lazyUntilFence_unfold (s : string) :
  lazyUntilFence s
  = if String.prefix "```" (dropWhiteSpace s) then Some ""
    else match s with
         | EmptyString => None
         | String c s' =>
             match lazyUntilFence s' with
             | Some inner => Some (String c inner)
             | None => None
             end
         end.
Proof. destruct s; reflexivity. Qed.

Lemma dropWhiteSpace_fence (rest : string) :
  dropWhiteSpace ("```" ++ rest) = "```" ++ rest.
Proof. reflexivity. Qed.

Lemma lazyUntilFence_space (w rest : string) :
  Notions.allWhiteSpace w = true ->
  lazyUntilFence (w ++ "```" ++ rest) = Some "".
Proof.
  intros Hw. rewrite lazyUntilFence_unfold.
  rewrite dropWhiteSpace_all, dropWhiteSpace_fence, prefix_here by exact Hw.
  reflexivity.
Qed.

Lemma lazyUntilFence_payload (p w rest : string) :
  trimEnd p = p -> Notions.avoids "`" p = true ->
  Notions.allWhiteSpace w = true ->
  lazyUntilFence (p ++ w ++ "```" ++ rest) = Some p.
Proof.
  intros Htrim Hno Hw. induction p as [|c p IH].
  - apply lazyUntilFence_space, Hw.
  - rewrite lazyUntilFence_unfold.
    rewrite (solid_head (String c p)) by (auto; discriminate).
    simpl in Hno. apply andb_true_iff in Hno as [_ Hp].
    change (String c p ++ w ++ "```" ++ rest)
      with (String c (p ++ w ++ "```" ++ rest)).
    cbv iota. rewrite IH by (auto; apply (trimEnd_tail c), Htrim).
    reflexivity.
Qed.

Lemma fencedBlock_skip (before rest : string) :
  Notions.avoids "`" before = true ->
  fencedBlock (before ++ rest) = fencedBlock rest.
Proof.
  induction before as [|c before IH]; intros H; [reflexivity|].
  simpl in H. apply andb_true_iff in H as [Hc Hb].
  cbn [append fencedBlock]. unfold fenceAt at 1.
  rewrite (prefix_other c _ _ Hc). apply IH, Hb.
Qed.

Lemma fenceAt_fenced (inner1 payload inner2 after : string) :
  Notions.allWhiteSpace inner1 = true ->
  Notions.allWhiteSpace inner2 = true ->
  Notions.avoids "`" payload = true ->
  trim payload = payload ->
  fenceAt ("```json" ++ inner1 ++ payload ++ inner2 ++ "```" ++ after)
  = Some payload.
Proof.
  intros H1 H2 Hno Htrim. apply trim_fixed in Htrim as [Hdrop Hend].
  set (body := inner1 ++ payload ++ inner2 ++ "```" ++ after).
  unfold fenceAt.
  change ("```json" ++ body) with ("```" ++ "json" ++ body).
  rewrite prefix_here.
  change (drop 3 ("```" ++ "json" ++ body)) with ("json" ++ body).
  rewrite prefix_here.
  change (drop 4 ("json" ++ body)) with body.
  unfold body. rewrite dropWhiteSpace_all by exact H1.
  destruct payload as [|c payload].
  - change ("" ++ inner2 ++ "```" ++ after) with (inner2 ++ "```" ++ after).
    rewrite dropWhiteSpace_all, dropWhiteSpace_fence by exact H2.
    apply (lazyUntilFence_space "" after). reflexivity.
  - assert (Hhead : dropWhiteSpace (String c payload ++ inner2 ++ "```" ++ after)
                    = String c payload ++ inner2 ++ "```" ++ after).
    { simpl in Hdrop. cbn [append dropWhiteSpace].
      destruct (isWhiteSpace c); [|reflexivity].
      exfalso. pose proof (dropWhiteSpace_length payload) as Hl.
      rewrite Hdrop in Hl. simpl in Hl. lia. }
    rewrite Hhead. apply lazyUntilFence_payload; assumption.
Qed.

Lemma fencedBlock_fenced (before inner1 payload inner2 after : string) :
  Notions.avoids "`" before = true ->
  Notions.allWhiteSpace inner1 = true ->
  Notions.allWhiteSpace inner2 = true ->
  Notions.avoids "`" payload = true ->
  trim payload = payload ->
  fencedBlock (Notions.fenced before inner1 payload inner2 after) = Some payload.
Proof.
  intros Hb H1 H2 Hno Htrim.
  unfold Notions.fenced. rewrite fencedBlock_skip by exact Hb.
  pose proof (fenceAt_fenced inner1 payload inner2 after H1 H2 Hno Htrim) as Hat.
  change ("```json" ++ inner1 ++ payload ++ inner2 ++ "```" ++ after)
    with (String "`" ("``json" ++ inner1 ++ payload ++ inner2 ++ "```" ++ after))
    in *.
  cbn [fencedBlock]. rewrite Hat. reflexivity.
Qed.

(** X9.  A payload in a json fence comes back whole: when the payload
    has no backtick and no white space at either end, and no backtick
    stands before the fence, the interpreter parses exactly the payload,
    whatever text surrounds the fence and whatever white space pads the
    payload inside it; a parsed value that is not a rejection is
    returned as it is. *)
Theorem processResponse_fenced
        (JSON_parse : string -> JsValue + string)
        (before inner1 payload inner2 after : string) (analysis : JsValue) :
  Notions.avoids "`" before = true ->
  Notions.allWhiteSpace inner1 = true ->
  Notions.allWhiteSpace inner2 = true ->
  Notions.avoids "`" payload = true ->
  trim payload = payload ->
  JSON_parse payload = inl analysis ->
  isRejection analysis = false ->
  fencedBlock (Notions.fenced before inner1 payload inner2 after) = Some payload
  /\ processResponse JSON_parse
       (ResponseText (Notions.fenced before inner1 payload inner2 after))
     = Return analysis.
Proof.
  intros Hb H1 H2 Hno Htrim Hparse Hrej.
  pose proof (fencedBlock_fenced before inner1 payload inner2 after
                Hb H1 H2 Hno Htrim) as Hfence.
  split; [exact Hfence|].
  unfold processResponse. rewrite Hfence. unfold parseAndCheck.
  rewrite Htrim, Hparse, Hrej. reflexivity.
Qed.

Lemma processResponse_fenced_witness :
  processResponse JsonReference.parse
    (ResponseText
       (Notions.fenced "Here is the analysis:" (String "010" "")
          (JsonReference.quoted "{'topics': [], 'summary': {'totalTopics': 0}}")
          (String "010" "") " Good luck!"))
  = Return (JObject [("topics", JArray []);
                     ("summary", JObject [("totalTopics", JNumber 0)])]).
Proof.
  refine (proj2 (processResponse_fenced JsonReference.parse _ _ _ _ _ _
                   _ _ _ _ _ _ _)); reflexivity.
Defined.

End Fences.

Section Recovery.
Import GeminiService.

Lemma fenceAt_other (s : string) :
  Notions.avoids "`" s = true -> fenceAt s = None.
Proof.
  destruct s as [|c s]; [reflexivity|]. simpl Notions.avoids.
  intros H. apply andb_true_iff in H as [Hc _].
  unfold fenceAt. rewrite (prefix_other c _ _ Hc). reflexivity.
Qed.

Lemma fencedBlock_none (s : string) :
  Notions.avoids "`" s = true -> fencedBlock s = None.
Proof.
  induction s as [|c s IH]; intros H; [reflexivity|].
  cbn [fencedBlock]. rewrite (fenceAt_other _ H).
  simpl in H. apply andb_true_iff in H as [_ Hs]. apply IH, Hs.
Qed.

Lemma upToLastBrace_none (s : string) :
  Notions.avoids "}" s = true -> upToLastBrace s = None.
Proof.
  induction s as [|c s IH]; intros H; [reflexivity|].
  simpl in H. apply andb_true_iff in H as [Hc Hs].
  simpl. rewrite (IH Hs). apply negb_true_iff in Hc. rewrite Hc. reflexivity.
Qed.

Lemma upToLastBrace_last (body after : string) :
  Notions.avoids "}" after = true ->
  upToLastBrace (body ++ "}" ++ after) = Some (body ++ "}").
Proof.
  intros H. induction body as [|c body IH].
  - simpl. rewrite (upToLastBrace_none after H). reflexivity.
  - transitivity (match upToLastBrace (body ++ "}" ++ after) with
                  | Some t => Some (String c t)
                  | None => if Ascii.eqb c "}" then Some (String c "") else None
                  end); [reflexivity|].
    rewrite IH. reflexivity.
Qed.

Lemma braceBlock_inside (before body after : string) :
  Notions.avoids "{" before = true ->
  Notions.avoids "}" after = true ->
  braceBlock (before ++ "{" ++ body ++ "}" ++ after) = Some ("{" ++ body ++ "}").
Proof.
  intros Hb Ha. induction before as [|c before IH].
  - transitivity (match upToLastBrace (body ++ "}" ++ after) with
                  | Some t => Some (String "{" t)
                  | None => None
                  end); [reflexivity|].
    rewrite (upToLastBrace_last body after Ha). reflexivity.
  - simpl in Hb. apply andb_true_iff in Hb as [Hc Hb].
    apply negb_true_iff in Hc.
    transitivity (if Ascii.eqb c "{"
                  then match upToLastBrace (before ++ "{" ++ body ++ "}" ++ after) with
                       | Some t => Some (String c t)
                       | None => None
                       end
                  else braceBlock (before ++ "{" ++ body ++ "}" ++ after));
      [reflexivity|].
    rewrite Hc. apply IH, Hb.
Qed.

(** X10.  A JSON object wrapped in prose is recovered: when the text
    has no fence and does not parse as it stands, and the text before
    the object has no opening brace and the text after it no closing
    one, the interpreter parses exactly the object and returns its
    value when that is not a rejection. *)
Theorem processResponse_recovered
        (JSON_parse : string -> JsValue + string)
        (before body after msg : string) (analysis : JsValue) :
  let text := before ++ "{" ++ body ++ "}" ++ after in
  Notions.avoids "`" text = true ->
  Notions.avoids "{" before = true ->
  Notions.avoids "}" after = true ->
  JSON_parse (trim text) = inr msg ->
  JSON_parse ("{" ++ body ++ "}") = inl analysis ->
  isRejection analysis = false ->
  braceBlock text = Some ("{" ++ body ++ "}")
  /\ processResponse JSON_parse (ResponseText text) = Return analysis.
Proof.
  intros text Hfence Hb Ha Hfail Hparse Hrej.
  pose proof (braceBlock_inside before body after Hb Ha) as Hbrace.
  fold text in Hbrace. split; [exact Hbrace|].
  unfold processResponse. rewrite (fencedBlock_none text Hfence).
  unfold parseAndCheck. rewrite Hfail. cbn [hasCode syntaxError code].
  rewrite Hbrace, Hparse, Hrej. reflexivity.
Qed.

Lemma processResponse_recovered_witness :
  processResponse JsonReference.parse
    (ResponseText
       ("Sure! " ++ "{" ++ JsonReference.quoted "'topics': []" ++ "}" ++ " Anything else?"))
  = Return (JObject [("topics", JArray [])]).
Proof.
  refine (proj2 (processResponse_recovered JsonReference.parse
                   "Sure! " (JsonReference.quoted "'topics': []") " Anything else?"
                   "Unexpected token in JSON" _ _ _ _ _ _ _)); reflexivity.
Defined.

End Recovery.

Section Labels.
Import GeminiService.

Lemma avoids_dropWhiteSpace (c : ascii) (s : string) :
  Notions.avoids c s = true -> Notions.avoids c (dropWhiteSpace s) = true.
Proof.
  induction s as [|d s IH]; intros H; [reflexivity|].
  simpl. destruct (isWhiteSpace d); [|exact H].
  simpl in H. apply andb_true_iff in H as [_ Hs]. apply IH, Hs.
Qed.

Lemma avoids_trimEnd (c : ascii) (s : string) :
  Notions.avoids c s = true -> Notions.avoids c (trimEnd s) = true.
Proof.
  induction s as [|d s IH]; intros H; [reflexivity|].
  simpl in H. apply andb_true_iff in H as [Hd Hs]. specialize (IH Hs).
  simpl. destruct (trimEnd s) as [|e t].
  - destruct (isWhiteSpace d); [reflexivity|]. simpl. rewrite Hd. reflexivity.
  - cbn [Notions.avoids]. rewrite Hd. exact IH.
Qed.

Lemma avoids_untilParen (s : string) : Notions.avoids ")" (untilParen s) = true.
Proof.
  induction s as [|c s IH]; [reflexivity|]. simpl.
  destruct (Ascii.eqb c ")") eqn:Hc; [reflexivity|].
  simpl. rewrite Hc. exact IH.
Qed.

Lemma trimEnd_idempotent (s : string) : trimEnd (trimEnd s) = trimEnd s.
Proof.
  induction s as [|c s IH]; [reflexivity|]. simpl.
  destruct (trimEnd s) as [|d t] eqn:Ht.
  - destruct (isWhiteSpace c) eqn:Hc; [reflexivity|]. simpl. rewrite Hc. reflexivity.
  - transitivity (match trimEnd (String d t) with
                  | EmptyString => if isWhiteSpace c then EmptyString
                                   else String c EmptyString
                  | t' => String c t'
                  end); [reflexivity|].
    rewrite IH. reflexivity.
Qed.

(** What [dropWhiteSpace] leaves does not start with white space, and
    neither does its [trimEnd]. *)
Lemma dropWhiteSpace_trimEnd (s : string) :
  dropWhiteSpace (trimEnd (dropWhiteSpace s)) = trimEnd (dropWhiteSpace s).
Proof.
  induction s as [|c s IH]; [reflexivity|]. cbn [dropWhiteSpace].
  destruct (isWhiteSpace c) eqn:Hc; [exact IH|].
  cbn [trimEnd]. destruct (trimEnd s) as [|d t]; rewrite ?Hc; simpl; rewrite Hc;
    reflexivity.
Qed.

Lemma trim_idempotent (s : string) : trim (trim s) = trim s.
Proof.
  unfold trim. rewrite dropWhiteSpace_trimEnd. apply trimEnd_idempotent.
Qed.

Lemma avoids_label (rest label : string) :
  labelAt rest = Some label -> Notions.avoids ")" label = true.
Proof.
  unfold labelAt.
  pose proof (avoids_untilParen (dropWhiteSpace rest)) as H.
  destruct (untilParen (dropWhiteSpace rest)) as [|c t].
  - destruct (lastOfRun rest) as [d|] eqn:Hd; [|discriminate].
    intros [= <-]. simpl. rewrite andb_true_r.
    assert (Hws : isWhiteSpace d = true).
    { clear H. revert d Hd. induction rest as [|e rest IH]; intros d Hd;
        [discriminate|].
      simpl in Hd. destruct (isWhiteSpace e) eqn:He; [|discriminate].
      destruct (lastOfRun rest) as [d'|]; [apply IH; congruence|].
      injection Hd as <-. exact He. }
    destruct (Ascii.eqb d ")") eqn:Heq; [|reflexivity].
    apply Ascii.eqb_eq in Heq. subst d. discriminate.
  - intros [= <-]. exact H.
Qed.

Lemma avoids_detectedMatch (s label : string) :
  detectedMatch s = Some label -> Notions.avoids ")" label = true.
Proof.
  induction s as [|c s IH]; cbn [detectedMatch].
  - destruct (String.prefix "detected:" ""); [|discriminate].
    destruct (labelAt (drop 9 "")) eqn:Hl; [|discriminate].
    intros [= <-]. apply (avoids_label _ _ Hl).
  - destruct (String.prefix "detected:" (String c s)); [|exact IH].
    destruct (labelAt (drop 9 (String c s))) eqn:Hl; [|exact IH].
    intros [= <-]. apply (avoids_label _ _ Hl).
Qed.

(** X11.  The label of a rejection, whatever the reason text: it is
    never empty, it has no white space at either end, and it contains
    no closing parenthesis. *)
Theorem detectedLabel_shape (reason : string) :
  truthy (detectedLabel reason) = true
  /\ trim (detectedLabel reason) = detectedLabel reason
  /\ Notions.avoids ")" (detectedLabel reason) = true.
Proof.
  unfold detectedLabel.
  destruct (detectedMatch reason) as [label|] eqn:Hm;
    [|repeat split; reflexivity].
  destruct (truthy (trim label)) eqn:Ht; [|repeat split; reflexivity].
  split; [exact Ht|]. split; [apply trim_idempotent|].
  unfold trim. apply avoids_trimEnd, avoids_dropWhiteSpace.
  apply (avoids_detectedMatch reason label Hm).
Qed.

End Labels.

(** ** Every run *)

Section EveryRun.
Import DocumentValidation.
Import PdfTextExtractor.
Import GeminiService.

Variable JSON_parse : string -> JsValue + string.
Variable backend : string -> Content -> Z -> Outcome.
Variable content : Content.

Lemma processResponse_throws (response : Response) (t : Thrown) :
  processResponse JSON_parse response = Throw t -> exists e, t = ThrownError e.
Proof.
  unfold processResponse, parseAndCheck.
  destruct response as [text|e]; [|intros [= <-]; eauto].
  repeat match goal with
         | |- context [match ?x with _ => _ end] =>
             lazymatch x with
             | context [match _ with _ => _ end] => fail
             | _ => destruct x eqn:?
             end
         | |- context [if ?b then _ else _] => destruct b eqn:?
         end;
    try discriminate; intros [= <-]; eauto;
    try match goal with
        | H : Throw _ = Throw _ |- _ => injection H as <-; eauto
        end.
Qed.

(** The body of the inner [try] of the loop. *)
Let attempt (m : ModelConfig) : Eff Step :=
  (response <- generateContentWithRetry (getGenerativeModel backend m) content 3 ;;
   analysis <- lift (processResponse JSON_parse response) ;;
   ret (ReturnAnalysis analysis))%eff.

Lemma attempt_shape (m : ModelConfig) :
  exists k,
    1 <= k <= 3
    /\ fst (attempt m)
       = Spec.attemptsFrom (getGenerativeModel backend m) content 3 1 k
    /\ match snd (attempt m) with
       | Return (ReturnAnalysis analysis) =>
           Notions.answeredBy JSON_parse backend content [m] analysis
       | Return (Continue _) => False
       | Throw t => exists e, t = ThrownError e
       end.
Proof.
  unfold attempt, generateContentWithRetry. change (Z.to_nat 3) with 3.
  destruct (retryLoop_shape (getGenerativeModel backend m) content 3 3 1
                            ThrownUndefined ltac:(lia))
    as (k & Hk & Htrace & Hend).
  destruct (retryLoop (getGenerativeModel backend m) content 3 3 1 ThrownUndefined)
    as [tr c].
  cbn [fst snd] in *. exists k.
  destruct c as [response|t].
  - destruct Hend as [Hk1 Hres]. split; [lia|].
    unfold bind, lift, ret. cbn [fst snd].
    destruct (processResponse JSON_parse response) as [analysis|t] eqn:Hp;
      cbn [fst snd]; rewrite ?app_nil_r; split; auto.
    + exists m, (1 + Z.of_nat k - 1)%Z, response.
      split; [left; reflexivity|]. split; [lia|]. split; [exact Hres | exact Hp].
    + eapply processResponse_throws; eassumption.
  - destruct Hend as [(_ & Hzero & _) | (Hk1 & e & -> & _)]; [discriminate|].
    split; [lia|]. unfold bind. cbn [fst snd]. split; eauto.
Qed.

(** One iteration of the loop, whatever the model does. *)
Lemma tryModel_shape (m : ModelConfig) :
  exists k fell,
    1 <= k <= 3
    /\ fst (tryModel JSON_parse backend content m)
       = Notions.modelTrace backend content m k fell
    /\ match snd (tryModel JSON_parse backend content m) with
       | Return (ReturnAnalysis analysis) =>
           fell = false
           /\ Notions.answeredBy JSON_parse backend content [m] analysis
       | Return (Continue t) => fell = true /\ exists e, t = ThrownError e
       | Throw t => fell = false /\ exists e, t = ThrownError e
       end.
Proof.
  destruct (attempt_shape m) as (k & Hk & Htrace & Hend).
  unfold tryModel. cbv zeta. fold (attempt m).
  destruct (attempt m) as [tr c]. cbn [fst snd] in *. subst tr.
  exists k. unfold Notions.modelTrace, Spec.modelEvents, Spec.fallbackEvents.
  destruct c as [[analysis|t]|t]; [|contradiction|].
  - exists false. split; [exact Hk|].
    unfold tryCatch, bind, emit. cbn. rewrite ?app_nil_r. auto.
  - destruct Hend as [e ->].
    destruct (isHighDemandMessage (errorMessage e)) eqn:Hhd.
    + exists true. split; [exact Hk|].
      unfold tryCatch, bind, emit, messageOf, ret. cbn. rewrite Hhd. cbn.
      rewrite ?app_nil_r. unfold unavailableLabel. eauto.
    + exists false. split; [exact Hk|].
      unfold tryCatch, bind, emit, messageOf, ret, throw. cbn. rewrite Hhd. cbn.
      rewrite Hhd. cbn. rewrite ?app_nil_r. eauto.
Qed.

Lemma answeredBy_cons (m : ModelConfig) (rest : list ModelConfig)
      (analysis : JsValue) :
  Notions.answeredBy JSON_parse backend content [m] analysis
  \/ Notions.answeredBy JSON_parse backend content rest analysis ->
  Notions.answeredBy JSON_parse backend content (m :: rest) analysis.
Proof.
  intros [(m' & k & r & Hin & H) | (m' & k & r & Hin & H)];
    exists m', k, r; (split; [|exact H]).
  - destruct Hin as [<-|[]]. left. reflexivity.
  - right. exact Hin.
Qed.

(** The loop over a list of models, whatever they do. *)
Lemma tryModels_shape (models : list ModelConfig) :
  forall lastError,
    (models = [] -> exists e, lastError = ThrownError e) ->
    Notions.LoopTrace backend content models
                      (fst (tryModels JSON_parse backend content models lastError))
    /\ match snd (tryModels JSON_parse backend content models lastError) with
       | Return analysis =>
           Notions.answeredBy JSON_parse backend content models analysis
       | Throw t => exists e, t = ThrownError e
       end.
Proof.
  induction models as [|m rest IH]; intros lastError Hlast.
  - cbn. split; [constructor|].
    destruct (Hlast eq_refl) as [e ->]. cbn. eauto.
  - cbn [tryModels].
    destruct (tryModel_shape m) as (k & fell & Hk & Htrace & Hend).
    destruct (tryModel JSON_parse backend content m) as [tr c].
    cbn [fst snd] in *. subst tr. unfold bind.
    destruct c as [[analysis|t]|t]; cbn [fst snd].
    + split.
      * apply Notions.LoopTrace_model; [exact Hk | constructor].
      * apply answeredBy_cons. left. apply Hend.
    + destruct Hend as [_ [e ->]].
      destruct (IH (ThrownError e) ltac:(eauto)) as [Hloop Hthrow].
      destruct (tryModels JSON_parse backend content rest (ThrownError e)) as [tr c].
      cbn [fst snd] in *. split.
      * apply Notions.LoopTrace_model; assumption.
      * destruct c; [apply answeredBy_cons; right|]; exact Hthrow.
    + rewrite <- (app_nil_r (Notions.modelTrace backend content m k fell)) at 1.
      split.
      * apply Notions.LoopTrace_model; [exact Hk | constructor].
      * apply Hend.
Qed.

(** *** What a loop trace holds *)

Lemma modelsCalled_app (tr tr' : list Event) :
  Spec.modelsCalled (tr ++ tr')
  = (Spec.modelsCalled tr ++ Spec.modelsCalled tr')%list.
Proof.
  induction tr as [|e tr IH]; [reflexivity|].
  destruct e; simpl; rewrite IH; reflexivity.
Qed.

Lemma reported_app (tr tr' : list Event) :
  App.reported (tr ++ tr') = (App.reported tr ++ App.reported tr')%list.
Proof.
  induction tr as [|e tr IH]; [reflexivity|].
  destruct e; simpl; rewrite IH; reflexivity.
Qed.

Lemma modelTrace_facts (m : ModelConfig) (k : nat) (fell : bool) :
  1 <= k <= 3 ->
  let tr := Notions.modelTrace backend content m k fell in
  Spec.attempts tr = k
  /\ Spec.modelsCalled tr = repeat (configName m) k
  /\ (0 <= Notions.totalWait tr <= 5000)%Z
  /\ (In m modelsToTry -> Forall (Notions.reportsOnly Notions.runLabels) tr).
Proof.
  intros Hk tr. subst tr.
  destruct k as [|[|[|[|k]]]]; try lia; destruct fell;
    (split; [reflexivity|]); (split; [reflexivity|]);
    (split; [vm_compute; split; discriminate|]);
    intros [<-|[<-|[<-|[]]]];
    repeat (constructor; [cbn; tauto|]); constructor.
Qed.

Lemma totalWait_app (tr tr' : list Event) :
  Notions.totalWait (tr ++ tr')
  = (Notions.totalWait tr + Notions.totalWait tr')%Z.
Proof.
  unfold Notions.totalWait. rewrite sleeps_app.
  induction (Spec.sleeps tr) as [|ms l IH]; simpl; [reflexivity|].
  rewrite IH. lia.
Qed.

Lemma LoopTrace_facts (models : list ModelConfig) (tr : list Event) :
  Notions.LoopTrace backend content models tr ->
  Spec.attempts tr <= 3 * List.length models
  /\ (0 <= Notions.totalWait tr <= 5000 * Z.of_nat (List.length models))%Z
  /\ (exists counts,
        List.length counts <= List.length models
        /\ Forall (fun k => 1 <= k <= 3) counts
        /\ Spec.modelsCalled tr = Notions.callsOf models counts)
  /\ (incl models modelsToTry ->
      Forall (Notions.reportsOnly Notions.runLabels) tr).
Proof.
  induction 1 as [models | m rest k fell tr Hk Hloop IH].
  - split; [unfold Spec.attempts; simpl; lia|].
    split; [unfold Notions.totalWait; cbn [Spec.sleeps fold_right]; lia|].
    split; [|intros _; constructor].
    exists []. split; [simpl; lia|]. split; [constructor|].
    unfold Notions.callsOf. destruct models; reflexivity.
  - destruct IH as (Hcalls & Hwait & (counts & Hlen & Hall & Hnames) & Hlabels).
    destruct (modelTrace_facts m k fell Hk) as (Hm1 & Hm2 & Hm3 & Hm4).
    rewrite attempts_app, totalWait_app, modelsCalled_app, Hm1, Hm2, Hnames.
    split; [simpl; lia|]. split; [cbn [List.length]; lia|]. split.
    + exists (k :: counts). split; [simpl; lia|]. split; [constructor; assumption|].
      reflexivity.
    + intros Hincl. apply Forall_app. split.
      * apply Hm4, Hincl. left. reflexivity.
      * apply Hlabels. intros x Hx. apply Hincl. right. exact Hx.
Qed.

End EveryRun.

(** ** The whole run *)

Section WholeRun.
Import DocumentValidation.
Import PdfTextExtractor.
Import GeminiService.

Variable JSON_parse : string -> JsValue + string.
Variable prompt : string.
Variable API_KEY : option string.
Variable backend : string -> Content -> Z -> Outcome.
Variables syllabusFile pyqFile : File.

(** What the last handler throws. *)
Lemma normalizeError_outcome (t : Thrown) :
  t <> ThrownUndefined ->
  exists e,
    snd (normalizeError t) = Throw (ThrownError e)
    /\ (code e = Some "INVALID_DOCUMENT" \/ Notions.userFacing e).
Proof.
  intros Hdefined. unfold normalizeError.
  destruct (hasCode "INVALID_DOCUMENT" t) eqn:Hcode.
  - destruct t as [e| |]; try discriminate. exists e. split; [reflexivity|].
    left. cbn in Hcode. destruct (code e) as [c|]; [|discriminate].
    apply String.eqb_eq in Hcode. congruence.
  - assert (Hmsg : exists msg, messageOf t = ret msg).
    { destruct t; [eexists; reflexivity | contradiction | eexists; reflexivity]. }
    destruct Hmsg as [msg ->]. rewrite bind_ret.
    repeat match goal with
           | |- context [if ?b then _ else _] => destruct b
           end;
      (eexists; split; [reflexivity|]; right; split; [reflexivity|]);
      cbn; eauto 10.
Qed.

Lemma getGenAI_cases :
  getGenAI API_KEY = ret tt
  \/ getGenAI API_KEY
     = throw (ThrownError (newError
         "VITE_GEMINI_API_KEY is not set. Add your API key to the .env file.")).
Proof.
  unfold getGenAI. destruct API_KEY as [key|]; [|right; reflexivity].
  destruct (_ && _); [left | right]; reflexivity.
Qed.

Let run : Eff JsValue :=
  analyzeExamStrategy JSON_parse prompt API_KEY backend syllabusFile pyqFile.
Let content : Content := Notions.requestOf prompt syllabusFile pyqFile.

(** The run, whatever the files, the key and the models are. *)
Lemma run_shape :
  exists tr,
    fst run = (Progress "Step 1: Extracting PDFs..." :: tr)%list
    /\ Notions.LoopTrace backend content modelsToTry tr
    /\ match snd run with
       | Return analysis =>
           Notions.answeredBy JSON_parse backend content modelsToTry analysis
       | Throw t =>
           exists e, t = ThrownError e
                     /\ (code e = Some "INVALID_DOCUMENT" \/ Notions.userFacing e)
       end.
Proof.
  assert (Hstop : forall t : Thrown,
             t <> ThrownUndefined ->
             exists tr,
               fst (tryCatch (bind (emit (Progress "Step 1: Extracting PDFs..."))
                                   (fun _ => throw (A := JsValue) t))
                             normalizeError)
               = (Progress "Step 1: Extracting PDFs..." :: tr)%list
               /\ Notions.LoopTrace backend content modelsToTry tr
               /\ match snd (tryCatch (bind (emit (Progress "Step 1: Extracting PDFs..."))
                                            (fun _ => throw (A := JsValue) t))
                                      normalizeError) with
                  | Return analysis =>
                      Notions.answeredBy JSON_parse backend content modelsToTry analysis
                  | Throw t =>
                      exists e, t = ThrownError e
                                /\ (code e = Some "INVALID_DOCUMENT"
                                    \/ Notions.userFacing e)
                  end).
  { intros t Ht. destruct (normalizeError_outcome t Ht) as (e & He & Hkind).
    exists []. rewrite bind_emit. unfold tryCatch, throw. cbn [fst snd].
    rewrite (surjective_pairing (normalizeError t)), normalizeError_silent, He.
    cbn [fst snd]. split; [reflexivity|]. split; [constructor|]. eauto. }
  unfold run, analyzeExamStrategy. cbv zeta.
  destruct (passed (validateDocumentContent (combinedText syllabusFile pyqFile)));
    cbn [negb]; [|apply Hstop; discriminate].
  unfold fileToBase64.
  destruct (dataURL syllabusFile) as [syllabusURL|] eqn:Hs.
  2:{ apply Hstop. discriminate. }
  rewrite bind_ret.
  destruct (dataURL pyqFile) as [pyqURL|] eqn:Hp.
  2:{ apply Hstop. discriminate. }
  rewrite bind_ret.
  destruct getGenAI_cases as [-> | ->].
  2:{ apply Hstop. discriminate. }
  rewrite bind_ret.
  assert (Hcontent :
            {| text := prompt;
               syllabusData := {| data := secondPiece syllabusURL;
                                  mimeType := type syllabusFile |};
               pyqData := {| data := secondPiece pyqURL;
                             mimeType := type pyqFile |} |} = content).
  { unfold content, Notions.requestOf. rewrite Hs, Hp. reflexivity. }
  rewrite Hcontent.
  destruct (tryModels_shape JSON_parse backend content modelsToTry ThrownUndefined
                            ltac:(discriminate))
    as [Hloop Hend].
  rewrite bind_emit.
  destruct (tryModels JSON_parse backend content modelsToTry ThrownUndefined)
    as [tr c].
  cbn [fst snd] in *. exists tr. unfold tryCatch. cbn [fst snd].
  destruct c as [analysis|t].
  - cbn [fst snd]. auto.
  - destruct Hend as [e ->].
    destruct (normalizeError_outcome (ThrownError e) ltac:(discriminate))
      as (e' & He' & Hkind).
    rewrite (surjective_pairing (normalizeError (ThrownError e))),
      normalizeError_silent, He'.
    cbn [fst snd]. rewrite app_nil_r. split; [reflexivity|]. split; [exact Hloop|].
    eauto.
Qed.

Lemma run_throws :
  match snd run with
  | Return _ => True
  | Throw t =>
      exists e, t = ThrownError e
                /\ (code e = Some "INVALID_DOCUMENT" \/ Notions.userFacing e)
  end.
Proof.
  destruct run_shape as (tr & _ & _ & Hend).
  destruct (snd run); [exact I | exact Hend].
Qed.

(** X12.  How a run ends, whatever the files, the key and the models
    are.  An analysis it returns is what [processResponse] made of a
    response that one of the three models gave to one of its first
    three calls, on the request built from the prompt and the two
    files.  What it throws is always an [Error] object, never
    [undefined] or an event: one that carries the code
    [INVALID_DOCUMENT], or a fresh [Error] without code whose message
    is one of the five fixed texts of the last handler or starts with
    the words Failed to analyze documents and a colon. *)
Theorem analyzeExamStrategy_outcome :
  match snd (analyzeExamStrategy JSON_parse prompt API_KEY backend
                                 syllabusFile pyqFile) with
  | Return analysis =>
      Notions.answeredBy JSON_parse backend
                         (Notions.requestOf prompt syllabusFile pyqFile)
                         modelsToTry analysis
  | Throw t =>
      exists e, t = ThrownError e
                /\ (code e = Some "INVALID_DOCUMENT" \/ Notions.userFacing e)
  end.
Proof.
  destruct run_shape as (tr & _ & _ & Hend). exact Hend.
Qed.

(** X13.  The bounds of a run, whatever the files, the key and the
    models are.  Its first event is the report of step 1.  It calls
    the models at most 9 times: the models of the list in their
    order, possibly not all of them, each one that is reached between
    1 and 3 times in a row before the next.  Its waits add up to at
    most 15 seconds. *)
Theorem analyzeExamStrategy_bounds :
  let trace := fst (analyzeExamStrategy JSON_parse prompt API_KEY backend
                                        syllabusFile pyqFile) in
  hd_error trace = Some (Progress "Step 1: Extracting PDFs...")
  /\ Spec.attempts trace <= 9
  /\ (0 <= Notions.totalWait trace <= 15000)%Z
  /\ exists counts,
      List.length counts <= 3
      /\ Forall (fun k => 1 <= k <= 3) counts
      /\ Spec.modelsCalled trace = Notions.callsOf modelsToTry counts.
Proof.
  cbv zeta. destruct run_shape as (tr & Htrace & Hloop & _).
  fold run. rewrite Htrace.
  destruct (LoopTrace_facts backend content modelsToTry tr Hloop)
    as (Hcalls & Hwait & Hnames & _).
  split; [reflexivity|]. split; [exact Hcalls|]. split; [exact Hwait|].
  exact Hnames.
Qed.

Lemma reported_only (labels : list string) (tr : list Event) :
  Forall (Notions.reportsOnly labels) tr ->
  forall step, In step (App.reported tr) -> In step labels.
Proof.
  induction 1 as [|e tr He _ IH]; intros step Hin; [destruct Hin|].
  destruct e; cbn in Hin; auto.
  destruct Hin as [<-|Hin]; auto.
Qed.

(** X14.  The progress bar during a run.  [handleAnalyze] first sets
    the current step to the first of [PROGRESS_STEPS], which the bar
    finds at index 0.  Every label the run then reports, whatever the
    files, the key and the models are, is one of ten labels, and none
    of them is equal to a step of [PROGRESS_STEPS]: [findIndex] gives
    -1, so the bar has width 0 and draws no step as reached.  The same
    holds for the label of the timer beside a call, for every number
    of seconds. *)
Theorem progress_labels_unmatched :
  let trace := fst (analyzeExamStrategy JSON_parse prompt API_KEY backend
                                        syllabusFile pyqFile) in
  ProgressBar.currentIndex App.PROGRESS_STEPS (nth 0 App.PROGRESS_STEPS "") = 0%Z
  /\ (forall step,
        In step (App.reported trace) ->
        In step Notions.runLabels
        /\ ProgressBar.currentIndex App.PROGRESS_STEPS step = (-1)%Z
        /\ (exists q, ProgressBar.progress App.PROGRESS_STEPS step = Some q
                      /\ Qeq q 0)
        /\ ProgressBar.reached App.PROGRESS_STEPS step = [false; false; false])
  /\ (forall elapsed,
        ProgressBar.currentIndex App.PROGRESS_STEPS (Notions.elapsedLabel elapsed)
        = (-1)%Z).
Proof.
  cbv zeta. split; [reflexivity|]. split; [|intros elapsed; reflexivity].
  destruct run_shape as (tr & Htrace & Hloop & _).
  fold run. rewrite Htrace.
  destruct (LoopTrace_facts backend content modelsToTry tr Hloop)
    as (_ & _ & _ & Hlabels).
  specialize (Hlabels (incl_refl _)).
  intros step Hin.
  assert (Hstep : In step Notions.runLabels).
  { cbn [App.reported] in Hin. destruct Hin as [<-|Hin].
    - left. reflexivity.
    - eapply reported_only; eassumption. }
  split; [exact Hstep|].
  unfold Notions.runLabels in Hstep. cbn [In] in Hstep.
  repeat (destruct Hstep as [<-|Hstep];
          [split; [reflexivity|]; split;
           [eexists; split; [reflexivity | reflexivity] | reflexivity]|]).
  destruct Hstep.
Qed.

End WholeRun.

(** ** The page *)

Section Page.
Import DocumentValidation.
Import PdfTextExtractor.
Import GeminiService.

Variable JSON_parse : string -> JsValue + string.
Variable prompt : string.
Variable API_KEY : option string.
Variable backend : string -> Content -> Z -> Outcome.

(** The reports of a run change the current step only. *)
Lemma onProgress_fold (tr : list Event) :
  forall st,
    let st' := fold_left App.onProgress tr st in
    App.syllabusFile st' = App.syllabusFile st
    /\ App.pyqFile st' = App.pyqFile st
    /\ App.isAnalyzing st' = App.isAnalyzing st
    /\ App.analysis st' = App.analysis st
    /\ App.error st' = App.error st
    /\ App.invalidDocumentType st' = App.invalidDocumentType st.
Proof.
  induction tr as [|e tr IH]; intros st; cbn [fold_left].
  - cbv zeta. auto 10.
  - specialize (IH (App.onProgress st e)). cbv zeta in *.
    destruct e; exact IH.
Qed.

Lemma userFacing_message (e : JsError) :
  Notions.userFacing e ->
  code e = None
  /\ JsString.truthy (message e) = true
  /\ message e <> "INVALID_DOCUMENT".
Proof.
  intros [He Hmsg]. split; [rewrite He; reflexivity|].
  destruct Hmsg as [Hin | [detail ->]].
  - unfold Notions.userMessages in Hin. cbn [In] in Hin.
    repeat (destruct Hin as [<-|Hin]; [split; [reflexivity | discriminate]|]).
    destruct Hin.
  - split; [reflexivity | discriminate].
Qed.

(** X15.  What [handleAnalyze] leaves when both files are set,
    whatever the files, the key and the models are.  Its promise is
    fulfilled: the handler never fails on the error it caught.  The
    page is no longer analyzing, has no current step, and keeps its
    two files.  When the run returned, its result is the analysis and
    there is no error.  When the run threw an error with the code
    [INVALID_DOCUMENT], the error is the text INVALID_DOCUMENT and the
    detected type is a non-empty text.  When it threw any other error,
    there is no detected type and the error is the message of what
    was thrown, which is not empty, so the fallback text of the
    handler is not used, and is not the text INVALID_DOCUMENT.  The
    results are shown exactly when the run returned a truthy value. *)
Theorem handleAnalyze_outcome (st : App.State) (syllabus pyq : File) :
  App.syllabusFile st = Some syllabus ->
  App.pyqFile st = Some pyq ->
  let run := analyzeExamStrategy JSON_parse prompt API_KEY backend syllabus pyq in
  let st' := fst (App.handleAnalyze JSON_parse prompt API_KEY backend st) in
  snd (App.handleAnalyze JSON_parse prompt API_KEY backend st) = Return tt
  /\ App.isAnalyzing st' = false
  /\ App.currentStep st' = None
  /\ App.syllabusFile st' = Some syllabus
  /\ App.pyqFile st' = Some pyq
  /\ match snd run with
     | Return result =>
         App.analysis st' = Some result
         /\ App.error st' = None
         /\ App.invalidDocumentType st' = None
     | Throw t =>
         App.analysis st' = None
         /\ exists e,
             t = ThrownError e
             /\ if hasCode "INVALID_DOCUMENT" t
                then App.error st' = Some "INVALID_DOCUMENT"
                     /\ exists d, App.invalidDocumentType st' = Some d
                                  /\ JsString.truthy d = true
                else App.error st' = Some (message e)
                     /\ message e <> "INVALID_DOCUMENT"
                     /\ App.invalidDocumentType st' = None
     end
  /\ (App.showsResults st' = true
      <-> exists result, snd run = Return result /\ truthyValue result = true).
Proof.
  intros Hs Hp. cbv zeta. unfold App.handleAnalyze. rewrite Hs, Hp. cbv zeta.
  pose proof (run_throws JSON_parse prompt API_KEY backend syllabus pyq) as Hend.
  set (run := analyzeExamStrategy JSON_parse prompt API_KEY backend syllabus pyq) in *.
  match goal with
  | |- context [fold_left App.onProgress (fst run) ?st0] =>
      pose proof (onProgress_fold (fst run) st0) as Hfold;
      set (st2 := fold_left App.onProgress (fst run) st0) in *
  end.
  cbv zeta in Hfold. cbn in Hfold.
  destruct Hfold as (Hf1 & Hf2 & Hf3 & Hf4 & Hf5 & Hf6).
  destruct (snd run) as [result|t].
  - cbn. rewrite Hf1, Hf2, Hf5, Hf6, Hs, Hp.
    do 5 (split; [reflexivity|]). split; [auto|].
    split.
    + intros H. exists result. auto.
    + intros (r & Heq & Hr). congruence.
  - destruct Hend as (e & -> & Hkind).
    unfold App.handleError.
    destruct (hasCode "INVALID_DOCUMENT" (ThrownError e)) eqn:Hcode.
    + unfold App.showsResults. cbn. rewrite Hf1, Hf2, Hf4, Hs, Hp.
      do 5 (split; [reflexivity|]). split.
      * split; [reflexivity|]. exists e. split; [reflexivity|].
        split; [reflexivity|].
        destruct (detectedType e) as [d|]; [destruct (JsString.truthy d) eqn:Hd|];
          eexists; split; try reflexivity; assumption.
      * split; [discriminate|]. intros (r & Heq & _). discriminate.
    + destruct Hkind as [Hinvalid | Huser].
      { cbn in Hcode. rewrite Hinvalid in Hcode. discriminate. }
      destruct (userFacing_message e Huser) as (_ & Htruthy & Hnot).
      unfold App.showsResults. cbn. rewrite Hf1, Hf2, Hf4, Htruthy, Hs, Hp.
      do 5 (split; [reflexivity|]). split.
      * split; [reflexivity|]. exists e. auto.
      * split; [discriminate|]. intros (r & Heq & _). discriminate.
Qed.

End Page.

Lemma handleAnalyze_outcome_witness :
  let st := App.setPyqFile (Some Examples.questionPaper)
              (App.setSyllabusFile (Some Examples.syllabus) App.initial) in
  let st' := fst (App.handleAnalyze JsonReference.parse "prompt" (Some "key")
                                    (Examples.firstDown Examples.oneTopic) st) in
  App.isAnalyzing st' = false
  /\ App.currentStep st' = None
  /\ App.syllabusFile st' = Some Examples.syllabus
  /\ App.pyqFile st' = Some Examples.questionPaper.
Proof.
  cbv zeta.
  pose proof (handleAnalyze_outcome
                JsonReference.parse "prompt" (Some "key")
                (Examples.firstDown Examples.oneTopic)
                (App.setPyqFile (Some Examples.questionPaper)
                   (App.setSyllabusFile (Some Examples.syllabus) App.initial))
                Examples.syllabus Examples.questionPaper eq_refl eq_refl) as H.
  cbv zeta in H. destruct H as (_ & H1 & H2 & H3 & H4 & _).
  repeat split; assumption.
Defined.

(** ** The dropzone under every sequence of actions *)

Section DropzoneRuns.
Import PdfTextExtractor.
Import DocumentValidation.

(** What holds between two handlers. *)
Let settled (offered : File -> Prop) (st : PDFDropzone.State) : Prop :=
  PDFDropzone.isChecking st = false
  /\ (PDFDropzone.showAcademicWarning st = true
      <-> PDFDropzone.pendingFile st <> None)
  /\ (forall f, PDFDropzone.file st = Some f -> Notions.isPdf f /\ offered f)
  /\ (forall f, PDFDropzone.pendingFile st = Some f ->
                Notions.isPdf f /\ Notions.failsQuickCheck f /\ offered f).

Lemma settled_weaken (P Q : File -> Prop) (st : PDFDropzone.State) :
  (forall f, P f -> Q f) -> settled P st -> settled Q st.
Proof.
  intros HPQ (H1 & H2 & H3 & H4). split; [exact H1|]. split; [exact H2|].
  split; intros f Hf.
  - destruct (H3 f Hf). auto.
  - destruct (H4 f Hf) as (? & ? & ?). auto.
Qed.

Lemma validateAndSetFile_settled (P : File -> Prop) (f : File)
      (st : PDFDropzone.State) :
  type f = "application/pdf" -> P f ->
  settled P st -> settled P (PDFDropzone.validateAndSetFile (Some f) st).
Proof.
  intros Htype HP (H1 & H2 & H3 & H4).
  unfold PDFDropzone.validateAndSetFile. cbv zeta.
  destruct (JsString.endsWith ".pdf" (JsString.toLowerCase (name f))) eqn:Hname;
    cbn [negb].
  - destruct (extractTextFromPdf f 1500) as [text|] eqn:Htext;
      [destruct (hasMinimumAcademicKeywords text 1000 2) eqn:Hquick|];
      unfold settled; cbn.
    + split; [reflexivity|]. split; [split; [discriminate | congruence]|].
      split; [|discriminate]. intros f' [= <-]. split; [split|]; assumption.
    + split; [reflexivity|]. split; [split; [discriminate | reflexivity]|].
      split; [exact H3|]. intros f' [= <-].
      split; [split; assumption|]. split; [|assumption].
      exists text. auto.
    + split; [reflexivity|]. split; [split; [discriminate | congruence]|].
      split; [|discriminate]. intros f' [= <-]. split; [split|]; assumption.
  - unfold settled; cbn. split; [exact H1|]. split; [exact H2|].
    split; [discriminate | exact H4].
Qed.

Lemma act_settled (P : File -> Prop) (a : Notions.Action)
      (st : PDFDropzone.State) :
  (forall f, a = Notions.Drop (Some f) \/ a = Notions.FileInput (Some f) -> P f) ->
  settled P st -> settled P (Notions.act st a).
Proof.
  intros Ha Hst. pose proof Hst as (H1 & H2 & H3 & H4).
  destruct a as [| |dropped|selected| | |]; cbn [Notions.act].
  - exact Hst.
  - exact Hst.
  - unfold PDFDropzone.handleDrop. cbv zeta.
    assert (Hst' : settled P (PDFDropzone.setIsDragging false st)) by exact Hst.
    destruct dropped as [f|]; [|exact Hst'].
    destruct (String.eqb_spec (type f) "application/pdf") as [Htype|_];
      [|exact Hst'].
    apply validateAndSetFile_settled; auto.
  - unfold PDFDropzone.handleFileInput.
    destruct selected as [f|]; [|exact Hst].
    destruct (String.eqb_spec (type f) "application/pdf") as [Htype|_];
      [|exact Hst].
    apply validateAndSetFile_settled; auto.
  - unfold PDFDropzone.handleConfirmAnyway.
    destruct (PDFDropzone.pendingFile st) as [pending|] eqn:Hpending;
      [|exact Hst].
    unfold settled; cbn. split; [exact H1|].
    split; [split; [discriminate | congruence]|].
    split; [|discriminate]. intros f [= <-].
    destruct (H4 pending eq_refl) as (? & _ & ?). auto.
  - unfold settled; cbn. split; [exact H1|].
    split; [split; [discriminate | congruence]|].
    split; discriminate.
  - unfold settled; cbn. split; [exact H1|].
    split; [split; [discriminate | congruence]|].
    split; discriminate.
Qed.

Lemma after_settled (actions : list Notions.Action) :
  settled (Notions.offered actions) (Notions.after actions).
Proof.
  unfold Notions.after.
  induction actions as [|a actions IH] using rev_ind.
  - unfold settled; cbn. split; [reflexivity|].
    split; [split; [discriminate | congruence]|]. split; discriminate.
  - rewrite fold_left_app. cbn [fold_left].
    apply act_settled.
    + intros f [-> | ->]; [left | right]; apply in_or_app; right; left; reflexivity.
    + eapply settled_weaken; [|exact IH].
      intros f [Hf | Hf]; [left | right]; apply in_or_app; left; exact Hf.
Qed.

(** X16.  A dropzone after any sequence of drags, drops, choices in
    the dialog, confirmations, cancellations and removals, each
    handler running to its end before the next.  It is not left
    checking.  The warning is up exactly when a file is pending, and
    the warning is then what is rendered.  The file in the slot, and
    the pending file, is one that a drop or a choice offered, has the
    type application/pdf and a name that ends in .pdf whatever the
    case of its letters.  A pending file is one whose text could be
    read and failed the quick check. *)
Theorem dropzone_settled (actions : list Notions.Action) :
  let st := Notions.after actions in
  PDFDropzone.isChecking st = false
  /\ (PDFDropzone.showAcademicWarning st = true
      <-> PDFDropzone.pendingFile st <> None)
  /\ (forall f, PDFDropzone.file st = Some f ->
                Notions.isPdf f /\ Notions.offered actions f)
  /\ (forall f, PDFDropzone.pendingFile st = Some f ->
                Notions.isPdf f /\ Notions.failsQuickCheck f
                /\ Notions.offered actions f)
  /\ (forall f, PDFDropzone.render st = PDFDropzone.Warning f
                <-> PDFDropzone.pendingFile st = Some f)
  /\ PDFDropzone.render st <> PDFDropzone.Checking.
Proof.
  cbv zeta. destruct (after_settled actions) as (H1 & H2 & H3 & H4).
  split; [exact H1|]. split; [exact H2|]. split; [exact H3|].
  split; [exact H4|].
  unfold PDFDropzone.render. rewrite H1.
  destruct (PDFDropzone.pendingFile (Notions.after actions)) as [pending|] eqn:Hp.
  - assert (Hw : PDFDropzone.showAcademicWarning (Notions.after actions) = true)
      by (apply H2; discriminate).
    rewrite Hw. split; [|discriminate].
    intros f. split; congruence.
  - destruct (PDFDropzone.showAcademicWarning (Notions.after actions));
      destruct (PDFDropzone.file (Notions.after actions)) as [accepted|];
      (split; [intros g; split; discriminate | discriminate]).
Qed.

End DropzoneRuns.

(** ** The order of the topics *)

Section Order.
Import MarkdownExport.

Lemma insert_stable (c : Z) (a : Topic) (l : list Topic) :
  Notions.withConfidence c (insert a l) = Notions.withConfidence c (a :: l).
Proof.
  unfold Notions.withConfidence.
  induction l as [|b l IH]; [reflexivity|].
  cbn [insert].
  destruct (Z.leb_spec (confidence b - confidence a) 0) as [Hle|Hgt];
    [reflexivity|].
  cbn [filter] in *. rewrite IH.
  destruct (Z.eqb_spec (confidence b) c), (Z.eqb_spec (confidence a) c);
    try reflexivity.
  lia.
Qed.

Lemma sort_stable (c : Z) (l : list Topic) :
  Notions.withConfidence c (sort l) = Notions.withConfidence c l.
Proof.
  induction l as [|a l IH]; [reflexivity|].
  cbn [sort]. rewrite insert_stable.
  unfold Notions.withConfidence in *. cbn [filter]. rewrite IH. reflexivity.
Qed.

Lemma insert_head (a : Topic) (l : list Topic) :
  Forall (Spec.byConfidence a) l -> insert a l = a :: l.
Proof.
  destruct l as [|b l]; [reflexivity|].
  intros H. inversion H as [|? ? Hb _]; subst. unfold Spec.byConfidence in Hb.
  cbn [insert]. destruct (Z.leb_spec (confidence b - confidence a) 0); [reflexivity | lia].
Qed.

Lemma sort_fixed (l : list Topic) :
  StronglySorted Spec.byConfidence l -> sort l = l.
Proof.
  induction 1 as [|a l Hs IH Ha]; [reflexivity|].
  cbn [sort]. rewrite IH. apply insert_head, Ha.
Qed.

(** X17.  The sort of the export, which is also the sort of the
    cards: topics of equal confidence keep the order they had in the
    analysis, sorting twice is sorting once, and the cards are drawn
    in the order the export lists them. *)
Theorem sort_is_stable (topics : list Topic) :
  (forall c, Notions.withConfidence c (sort topics)
             = Notions.withConfidence c topics)
  /\ sort (sort topics) = sort topics
  /\ forall summary,
      ResultsDisplay.sortedTopics
        (Some {| MarkdownExport.topics := Some topics;
                 MarkdownExport.summary := summary |})
      = sort topics.
Proof.
  split; [intros c; apply sort_stable|].
  split; [apply sort_fixed, sort_sorted|].
  intros summary. reflexivity.
Qed.

Lemma priorities_sorted (l : list Topic) :
  StronglySorted Spec.byConfidence l ->
  map (fun t => ResultsDisplay.getPriorityFromConfidence (confidence t)) l
  = (repeat "High" (List.length (filter (fun t => (80 <=? confidence t)%Z) l))
     ++ repeat "Medium"
          (List.length (filter (fun t => (60 <=? confidence t)%Z
                                         && negb (80 <=? confidence t)%Z) l))
     ++ repeat "Low"
          (List.length (filter (fun t => negb (60 <=? confidence t)%Z) l)))%list.
Proof.
  induction 1 as [|a l Hs IH Ha]; [reflexivity|].
  cbn [map filter]. rewrite IH. unfold ResultsDisplay.getPriorityFromConfidence.
  assert (Hbelow : forall bound,
             (confidence a < bound)%Z ->
             filter (fun t => (bound <=? confidence t)%Z) l = []).
  { intros bound Hbound. clear IH Hs.
    induction Ha as [|b l Hb _ IHl]; [reflexivity|].
    unfold Spec.byConfidence in Hb. cbn [filter].
    destruct (Z.leb_spec bound (confidence b)); [lia | exact IHl]. }
  assert (Hmid : (confidence a < 80)%Z ->
                 filter (fun t => (60 <=? confidence t)%Z
                                  && negb (80 <=? confidence t)%Z) l
                 = filter (fun t => (60 <=? confidence t)%Z) l).
  { intros Hbound. clear IH Hs Hbelow.
    induction Ha as [|b l Hb _ IHl]; [reflexivity|].
    unfold Spec.byConfidence in Hb. cbn [filter]. rewrite IHl.
    destruct (Z.leb_spec 80 (confidence b)); [lia|].
    rewrite Bool.andb_true_r. reflexivity. }
  destruct (Z.leb_spec 80 (confidence a)) as [H80|H80].
  - assert ((60 <=? confidence a)%Z = true) as -> by (apply Z.leb_le; lia).
    reflexivity.
  - rewrite (Hbelow 80%Z H80). cbn [List.length repeat app negb andb].
    destruct (Z.leb_spec 60 (confidence a)) as [H60|H60].
    + reflexivity.
    + rewrite (Hmid H80), (Hbelow 60%Z H60). reflexivity.
Qed.

(** X18.  The priority derived from the confidence, which a card
    shows when its topic carries none of its own: along the cards in
    the order they are drawn it reads High for the cards with
    confidence 80 or more, then Medium for those with 60 or more,
    then Low for the rest, and never rises again. *)
Theorem card_priorities_descend (analysis : option Analysis) :
  let cards := ResultsDisplay.sortedTopics analysis in
  let count (test : Z -> bool) :=
    List.length (filter (fun t => test (confidence t)) cards) in
  map (fun t => ResultsDisplay.getPriorityFromConfidence (confidence t)) cards
  = (repeat "High" (count (fun c => (80 <=? c)%Z))
     ++ repeat "Medium" (count (fun c => (60 <=? c)%Z && negb (80 <=? c)%Z))
     ++ repeat "Low" (count (fun c => negb (60 <=? c)%Z)))%list.
Proof.
  cbv zeta. apply priorities_sorted. unfold ResultsDisplay.sortedTopics.
  destruct analysis as [a|]; [|constructor].
  destruct (topics a); [apply sort_sorted | constructor].
Qed.

End Order.

(** ** Before the first call *)

Section BeforeTheCall.
Import JsString.
Import DocumentValidation.
Import PdfTextExtractor.
Import GeminiService.

Lemma untilComma_avoids (payload : string) :
  Notions.avoids "," payload = true -> untilComma payload = payload.
Proof.
  induction payload as [|c payload IH]; [reflexivity|].
  cbn [Notions.avoids untilComma]. intros H.
  apply andb_true_iff in H as [Hc Hp].
  apply negb_true_iff in Hc. rewrite Hc, IH by exact Hp. reflexivity.
Qed.

Lemma untilComma_stops (payload rest : string) :
  Notions.avoids "," payload = true ->
  untilComma (payload ++ String "," rest) = payload.
Proof.
  induction payload as [|c payload IH]; intros H.
  - reflexivity.
  - cbn [Notions.avoids] in H. apply andb_true_iff in H as [Hc Hp].
    apply negb_true_iff in Hc.
    change (String c payload ++ String "," rest)
      with (String c (payload ++ String "," rest)).
    cbn [untilComma]. rewrite Hc, IH by exact Hp. reflexivity.
Qed.

Lemma secondPiece_skips (head tail : string) :
  Notions.avoids "," head = true ->
  secondPiece (head ++ String "," tail) = Some (untilComma tail).
Proof.
  induction head as [|c head IH]; intros H.
  - reflexivity.
  - cbn [Notions.avoids] in H. apply andb_true_iff in H as [Hc Hp].
    apply negb_true_iff in Hc.
    change (String c head ++ String "," tail)
      with (String c (head ++ String "," tail)).
    cbn [secondPiece]. rewrite Hc. apply IH, Hp.
Qed.

Lemma secondPiece_none (url : string) :
  Notions.avoids "," url = true -> secondPiece url = None.
Proof.
  induction url as [|c url IH]; [reflexivity|].
  cbn [Notions.avoids secondPiece]. intros H.
  apply andb_true_iff in H as [Hc Hp].
  apply negb_true_iff in Hc. rewrite Hc. apply IH, Hp.
Qed.

(** X19.  What [fileToBase64] hands on.  When the data URL of the file
    is a head without comma, a comma, and a payload without comma,
    the data is exactly the payload, and the type is the type of the
    file; what follows a second comma is dropped. *)
Theorem fileToBase64_payload (file : File) (head payload url : string) :
  Notions.avoids "," head = true ->
  Notions.avoids "," payload = true ->
  dataURL file = Some url ->
  (url = head ++ "," ++ payload
   \/ exists rest, url = head ++ "," ++ payload ++ "," ++ rest) ->
  fileToBase64 file = ret {| data := Some payload; mimeType := type file |}.
Proof.
  intros Hhead Hpayload Hurl Hshape. unfold fileToBase64. rewrite Hurl.
  destruct Hshape as [-> | [rest ->]].
  - change (head ++ "," ++ payload) with (head ++ String "," payload).
    rewrite secondPiece_skips, untilComma_avoids by assumption. reflexivity.
  - change (head ++ "," ++ payload ++ "," ++ rest)
      with (head ++ String "," (payload ++ String "," rest)).
    rewrite secondPiece_skips, untilComma_stops by assumption. reflexivity.
Qed.

Lemma fileToBase64_payload_witness :
  fileToBase64 Examples.syllabus
  = ret {| data := Some "U1lMTEFCVVM="; mimeType := "application/pdf" |}.
Proof.
  apply (fileToBase64_payload Examples.syllabus "data:application/pdf;base64"
                              "U1lMTEFCVVM="
                              "data:application/pdf;base64,U1lMTEFCVVM=").
  - reflexivity.
  - reflexivity.
  - reflexivity.
  - left. reflexivity.
Defined.

Lemma dropWhiteSpace_blank (k : string) :
  Notions.allWhiteSpace k = true -> dropWhiteSpace k = "".
Proof.
  induction k as [|c k IH]; [reflexivity|].
  cbn [Notions.allWhiteSpace dropWhiteSpace]. intros H.
  apply andb_true_iff in H as [Hc Hk]. rewrite Hc. apply IH, Hk.
Qed.

Lemma trim_blank (k : string) :
  String.eqb (trim k) "" = Notions.allWhiteSpace k.
Proof.
  unfold trim. induction k as [|c k IH]; [reflexivity|].
  cbn [Notions.allWhiteSpace dropWhiteSpace].
  destruct (isWhiteSpace c) eqn:Hc; [exact IH|].
  cbn [andb]. transitivity (String.eqb
                              (match trimEnd k with
                               | EmptyString => String c EmptyString
                               | t => String c t
                               end) "").
  - cbn [trimEnd]. rewrite Hc. reflexivity.
  - destruct (trimEnd k); reflexivity.
Qed.

Lemma getGenAI_keyed (API_KEY : option string) :
  getGenAI API_KEY
  = if Notions.keyed API_KEY then ret tt
    else throw (ThrownError (newError
           "VITE_GEMINI_API_KEY is not set. Add your API key to the .env file.")).
Proof.
  unfold getGenAI, Notions.keyed. destruct API_KEY as [k|]; [|reflexivity].
  rewrite trim_blank. destruct k as [|c k]; [reflexivity|].
  cbn [truthy andb]. destruct (Notions.allWhiteSpace (String c k)); reflexivity.
Qed.

Variable JSON_parse : string -> JsValue + string.
Variable prompt : string.
Variable backend : string -> Content -> Z -> Outcome.

(** X20.  The key, for two files that pass the gate and can be read.
    With a key that holds more than white space the run goes on to
    call the first model of the list.  Without a key, or with a key
    of white space only, it calls no model at all and throws the
    error that names the missing key behind the words of the last
    handler. *)
Theorem analyzeExamStrategy_key (API_KEY : option string)
        (syllabusFile pyqFile : File) (syllabusURL pyqURL : string) :
  passed (validateDocumentContent (combinedText syllabusFile pyqFile)) = true ->
  dataURL syllabusFile = Some syllabusURL ->
  dataURL pyqFile = Some pyqURL ->
  let run := analyzeExamStrategy JSON_parse prompt API_KEY backend
                                 syllabusFile pyqFile in
  if Notions.keyed API_KEY
  then hd_error (Spec.modelsCalled (fst run)) = Some "gemini-3-flash-preview"
  else run = ([Progress "Step 1: Extracting PDFs..."],
              Throw (ThrownError Notions.keyError)).
Proof.
  intros Hgate Hs Hp. cbv zeta.
  destruct (Notions.keyed API_KEY) eqn:Hkey.
  - assert (Hset : getGenAI API_KEY = ret tt)
      by (rewrite getGenAI_keyed, Hkey; reflexivity).
    rewrite (run_is_loop JSON_parse prompt API_KEY backend syllabusFile pyqFile
                         syllabusURL pyqURL Hgate Hs Hp Hset).
    rewrite bind_emit.
    match goal with
    | |- context [tryModels JSON_parse backend ?c modelsToTry ThrownUndefined] =>
        destruct (loop_starts JSON_parse backend c Spec.model1
                              [Spec.model2; Spec.model3] ThrownUndefined)
          as [tr Htr];
        change (tryModels JSON_parse backend c (Spec.model1 :: [Spec.model2; Spec.model3])
                          ThrownUndefined)
          with (tryModels JSON_parse backend c modelsToTry ThrownUndefined) in Htr;
        destruct (tryCatch_prefix
                    ((Progress "Step 1: Extracting PDFs..."
                      :: fst (tryModels JSON_parse backend c modelsToTry ThrownUndefined))%list,
                     snd (tryModels JSON_parse backend c modelsToTry ThrownUndefined))
                    normalizeError) as [tr' Htr']
    end.
    rewrite Htr'. cbn [fst]. rewrite Htr. reflexivity.
  - unfold analyzeExamStrategy. cbv zeta. rewrite Hgate. cbn [negb].
    unfold fileToBase64. rewrite Hs, Hp, !bind_ret, getGenAI_keyed, Hkey.
    reflexivity.
Qed.

End BeforeTheCall.

Lemma analyzeExamStrategy_key_witness :
  GeminiService.analyzeExamStrategy
    JsonReference.parse "prompt" (Some "  ")
    (Examples.uniform (GeminiService.Resolved Examples.emptyAnalysis))
    Examples.syllabus Examples.questionPaper
  = ([GeminiService.Progress "Step 1: Extracting PDFs..."],
     GeminiService.Throw (GeminiService.ThrownError Notions.keyError)).
Proof.
  exact (analyzeExamStrategy_key
           JsonReference.parse "prompt"
           (Examples.uniform (GeminiService.Resolved Examples.emptyAnalysis))
           (Some "  ") Examples.syllabus Examples.questionPaper
           "data:application/pdf;base64,U1lMTEFCVVM="
           "data:application/pdf;base64,UFlR" eq_refl eq_refl eq_refl).
Defined.
